(* ===== verification/_CoqProject ===== *)
-Q . S2P
Prelude.v
Numeric.v
Sorting.v
Frame.v
Classifier.v
Aggregator.v
Histogram.v
Ranker.v
Cleaner.v
Process.v
Handlers.v
Database.v
Portal.v
