(* ===== verification/Prelude.v ===== *)
(** * Exam-portal result analytics: a verification library

    ** The program

    The repository holds two small Flask applications over pandas and SQLite.

    - [src/app1.py] is the analytics application.  [upload] saves a
      spreadsheet in the upload folder, remembers its name in the session
      and offers its subjects for selection; [process] reads the file
      again, cleans it ([clean_dataframe]), classifies every row as PASS or
      FAIL ([marks_result]), groups the rows by student ([HTNO]) and by
      subject ([SUBJECT_NAME]), derives the student metrics with SGPA, the
      failure distribution, the two top-5 rankings and the subject pass
      rates, and writes the rankings to [uploads/Result_Analytics.xlsx];
      [search] shows the rows of one roll number, [download] sends the
      export.
    - [src/app.py] is the database application: an admin gate, the upload
      of marks into five tables in one transaction, and an overview query.
    - [src/init_db.py] creates the five tables.

    ** The library, file by file

    - [Prelude] (this file): the [result] type of computations that can
      raise, Python's [enumerate], counting over lists, the lemmas on
      folds and lists that the components share, the tactics [case_all]
      and [inv_result], the hint databases [exam] and [exam_rw].
    - [Numeric]: a pandas numeric cell as [num = option Q] ([None] is NaN),
      the comparisons [=ₙ] and [≥ₙ], which are false on NaN, the sum
      [nansum], which skips NaN, the division [np_div] and [round2],
      the rounding to two decimals, half to even.
    - [Sorting]: [stable_sort], an insertion sort over a decidable
      relation, for [list.sort(reverse=True)] of line 203 and
      [sort_values] of line 185; [sorted_keys] for [sorted(unique())];
      that [stable_sort] is the only stable sorted arrangement.
    - [Frame]: the typed row [Row], the classified row [CRow], the roll
      number [RollNo] (a number or a text), and [groupby] with its
      specification: distinct keys in ascending order, each with its rows
      in frame order, rows without a key dropped.
    - [Classifier]: [marks_result] (lines 102-114) and [classify] (line
      116); the rule as a proposition, [pass_rule]; what missing marks do;
      where the rule is monotone and where it is not.
    - [Aggregator]: the student loop (lines 121-164) as [foldl student_step]
      over the groups, with the four accumulators in one record; [sgpa];
      the subject loop (lines 214-228) as [foldl subject_step].  Each loop
      is proved equal to a map over the groups ([student_loop_summary],
      [subject_metrics_summary]), and the theorems are proved on the maps.
    - [Histogram]: the failure distribution (lines 169-176).
    - [Ranker]: [top5_rank_list] (lines 203-208) and [subject_wise_top5]
      (lines 181-198).
    - [Cleaner]: [clean_dataframe] (lines 16-33) on an untyped frame
      [RawFrame] (column names, and rows that map a column to a cell),
      column by column as the code does it, with [KeyError] as a value;
      [strip] and [lower] on ASCII; [row_of] from a cleaned row to [Row].
      The behaviour of pandas and openpyxl that the sources rely on and do
      not contain is the interface [Pandas]: the text of a number, the
      numeric reading of a text, whether classifying an empty frame
      raises, which sheet titles the writer accepts, what writing over an
      existing sheet leaves.  The theorems hold for every instance;
      [decimal_pandas] runs the examples.
    - [Process]: [process_frame], what [process] computes from the frame
      that it reads: cleaning, classification, the [KeyError]s of the
      column reads of lines 126, 134 and 136, the tables ([results_of]);
      and [export], the sheets written by lines 233-240.
    - [Handlers]: the routes of [src/app1.py] as functions
      [State → State * Response].  A [State] is the upload folder (a map
      from paths to files) and the session of each client (the file name
      it holds).  [handle] dispatches a [Request], [run] serves a list of
      requests, [reachable] is the closure of the initial state under
      [handle].
    - [Database]: the five tables of [src/init_db.py] as records of
      rows, a [Table] being the rows in insertion order and the counter
      of its AUTOINCREMENT key; [init_db]; each SQL statement of
      [src/app.py] as a function on the database ([insert_semester],
      [insert_or_ignore_student], [select_subject_id], ...); the monad
      [tx] of the [try] block of [upload_results], which carries the
      database and ends at the first exception ([Raise]) or early return
      ([Return]); the constraints of the schema ([schema_ok]) and the
      references between the tables ([refs_ok]).
    - [Portal]: the routes of [src/app.py] as functions
      [PState → PState * PResponse].  A [PState] is the database and the
      set of visitors whose session holds the admin flag.
      [upload_results] runs [upload_results_tx] (lines 52-124, with
      [upload_row] for the loop body of lines 82-122) and keeps the new
      database only when the transaction returns; [overview] is the join
      of lines 148-162 ([overview_query]) and the statistics of lines
      166-175 ([overview_stats]); [phandle] dispatches a [PRequest],
      [prun] serves a list of requests.

    ** What the theorems show

    - Classification: [marks_result] is exactly [pass_rule] and total;
      rows without the marks it needs fail; the boundary scenarios of the
      specification.
    - Aggregation: every student and subject entry is well formed (counts
      add up, no division by zero, percentages within 0 and 100, status by
      the failed count); totals over students and over subjects agree
      with the frame; the SGPA stays within the range of the grade points
      when credits are not negative; the accumulators of the loop agree
      with one another.
    - Ranking: lengths, ranks from 1, descending order, the cut at five
      keeps the largest; ties in the overall ranking fall in ascending
      roll number.
    - Cleaning: the invariant of a cleaned frame, idempotence, the exact
      condition for success, and that the subject table shows cleaned
      names.
    - Handlers: the sessions always name an existing file; the errors
      that [process] can end with; the subjects offered by [upload] are
      the subjects of the table of [process]; and four interactions that
      the code permits (a refused upload that stays in the session, the
      export overwriting an upload of its name, the export shared between
      clients, numeric roll numbers that [search] never finds).
    - Database application: an upload commits as a whole or leaves the
      state as it was, and a committed upload adds one semester and one
      marks row and one subject row per row with a total; a refused
      upload tells which file name or which missing column refused it;
      the overview of the uploaded semester then shows the rows of the
      sheet, in its order, after what it showed before; every state
      reached from the database of [init_db] keeps the keys, the unique
      columns and the references; the admin flag needs the password and
      the courses change only through the dashboard of an admin; the
      statistics of the overview are consistent; and three behaviours
      that the code permits (subject rows repeated by an INSERT OR IGNORE
      that cannot ignore, a student passed by one mark of 40, uploads
      without login).

    ** Modelling choices and bounds

    Numbers are exact rationals: a float cell that holds a number is a [Q],
    a cell that pandas shows as NaN is [None].  Binary rounding error is
    not modelled, so a statement about an SGPA or a percentage is about
    the exact value that the float computation approximates.  [round2]
    is the exact rounding of [x * 100] to the nearest integer, ties to
    even.  Strings are [string] (bytes); Python compares code points,
    which agrees with the byte order of UTF-8; [strip] and [lower] treat
    ASCII only.  [sort_values] is taken to be stable.  A dict is kept as
    an association list in insertion order.  No definition needs fuel:
    every loop of the program runs over a finite list and is a fold or a
    structural recursion.  The upload folder is flat: directories, file
    permissions and I/O failures are not modelled, and a file is the
    sheets that [read_excel] would see.

    The database is the rows of its tables in insertion order.  A SELECT
    without ORDER BY returns rows in that order, which is what SQLite
    does for these tables and what [fetchone] of lines 98-100 and 113-116
    depends on.  Text is compared byte by byte, as the default collation
    does.  A REAL column holds a [num], NaN being stored as NULL.  What
    [read_excel] or [read_csv] makes of the uploaded bytes is given with
    the request ([FileStorage]).  Requests are served one at a time, so
    a transaction sees no other writer.  The initial state of [Portal]
    is the database after [init_db.py] has run.

    ** Not modelled

    The HTML templates and Flask's request parsing; the bytes of the
    xlsx and csv formats; binary floating point; concurrent requests;
    the signing of the session cookie with [app.secret_key]; the text of
    the exception in the error message of [upload_results], of which the
    model keeps the exception class. *)

From Stdlib Require Export QArith Qround Lqa.
From stdpp Require Export base tactics option list strings sorting pretty.

Declare Scope exam_scope.
Delimit Scope exam_scope with exam.

(** ** Definitions *)

(** Outcome of a handler step: a value, or the reason the request ended. *)
Inductive result (E A : Type) : Type :=
| Ok (a : A)
| Err (e : E).
Arguments Ok {E A} a.
Arguments Err {E A} e.

#[export] Instance result_ret {E} : MRet (result E) := λ A a, Ok a.

#[export] Instance result_bind {E} : MBind (result E) := λ A B k m,
  match m with Ok a => k a | Err e => Err e end.

#[export] Instance result_fmap {E} : FMap (result E) := λ A B f m,
  match m with Ok a => Ok (f a) | Err e => Err e end.

Definition is_Ok {E A} (m : result E A) : Prop :=
  match m with Ok _ => True | Err _ => False end.

#[export] Instance is_Ok_dec {E A} (m : result E A) : Decision (is_Ok m).
Proof. destruct m; simpl; apply _. Defined.

(** Python's [enumerate(l, start)]. *)
Definition enumerate {A} (start : nat) (l : list A) : list (nat * A) :=
  zip (seq start (length l)) l.

(** [sum(1 for x in l if P x)], also pandas' [(column == v).sum()]. *)
Definition count {A} (P : A → Prop) `{∀ x, Decision (P x)} (l : list A) : nat :=
  length (filter P l).

(** ** Tactics and hints *)

Create HintDb exam discriminated.
Create Rewrite HintDb exam_rw.

(** Case analysis on every [decide] and [match] of the goal. *)
Ltac case_all :=
  repeat first [ case_decide | case_match ]; simplify_eq/=; try done.

(** Unfold a result bind in a hypothesis and split on its scrutinee. *)
Ltac inv_result H :=
  unfold mbind, result_bind, mret, result_ret in H;
  repeat case_match; simplify_eq/=.

(** ** Lemmas *)

Section result.
Context {E A B : Type}.
Implicit Types (m : result E A) (k : A → result E B).

Lemma result_bind_Ok_inv m k b :
  m ≫= k = Ok b → ∃ a, m = Ok a ∧ k a = Ok b.
Proof. destruct m; simpl; [eauto | done]. Qed.

Lemma result_bind_Err_inv m k e :
  m ≫= k = Err e → m = Err e ∨ ∃ a, m = Ok a ∧ k a = Err e.
Proof. destruct m; simpl; [eauto | intros [= ->]; auto]. Qed.

Lemma result_bind_assoc {C} m k (k' : B → result E C) :
  (m ≫= k) ≫= k' = m ≫= (λ a, k a ≫= k').
Proof. by destruct m. Qed.

End result.

Section count.
Context {A : Type} (P : A → Prop) `{!∀ x, Decision (P x)}.
Implicit Types l : list A.

Lemma count_nil : count P [] = 0.
Proof. done. Qed.

Lemma count_cons x l :
  count P (x :: l) = (if decide (P x) then 1 else 0) + count P l.
Proof. unfold count. rewrite filter_cons. by case_decide. Qed.

Lemma count_app l1 l2 : count P (l1 ++ l2) = count P l1 + count P l2.
Proof. unfold count. by rewrite filter_app, length_app. Qed.

Lemma count_le_length l : count P l ≤ length l.
Proof. apply length_filter. Qed.

Lemma count_Permutation l1 l2 : l1 ≡ₚ l2 → count P l1 = count P l2.
Proof. intros Hp. unfold count. by rewrite Hp. Qed.

Lemma count_0_iff l : count P l = 0 ↔ Forall (λ x, ¬ P x) l.
Proof.
  induction l as [|x l IH]; [by split; [constructor|]|].
  rewrite count_cons, Forall_cons, <- IH. case_decide; [|tauto].
  split; [lia|]. by intros [? _].
Qed.

End count.

#[export] Hint Rewrite @count_nil @count_cons @count_app : exam_rw.

Lemma count_complement {A} (P : A → Prop) `{!∀ x, Decision (P x)} (l : list A) :
  count P l + count (λ x, ¬ P x) l = length l.
Proof.
  induction l as [|x l IH]; [done|].
  rewrite !count_cons. cbn [length]. destruct (decide (P x)).
  - rewrite decide_False by tauto. lia.
  - rewrite decide_True by tauto. lia.
Qed.

Lemma count_ext {A} (P Q : A → Prop) `{!∀ x, Decision (P x), !∀ x, Decision (Q x)} l :
  (∀ x, x ∈ l → P x ↔ Q x) → count P l = count Q l.
Proof.
  induction l as [|x l IH]; intros Hx; [done|].
  rewrite !count_cons, IH by (intros; apply Hx; by right).
  specialize (Hx x (list_elem_of_here _ _)). by repeat case_decide; tauto.
Qed.

(** Adding one value [v] to [l] adds one to the bucket of [v], when the
    bucket list has it. *)
Lemma sum_count_cons (v : nat) (l s : list nat) :
  NoDup s →
  sum_list ((λ i, count (λ w, w = i) (v :: l)) <$> s) =
  (if decide (v ∈ s) then 1 else 0) + sum_list ((λ i, count (λ w, w = i) l) <$> s).
Proof.
  induction 1 as [|i s Hi _ IH]; [done|].
  rewrite !fmap_cons. cbn [sum_list]. rewrite IH, count_cons. unfold id.
  destruct (decide (v = i)) as [->|Hne].
  - rewrite (decide_True (P := i ∈ i :: s)) by left.
    rewrite (decide_False (P := i ∈ s)) by done. lia.
  - destruct (decide (v ∈ s)) as [Hin|Hin].
    + rewrite decide_True by by right. lia.
    + rewrite decide_False by (by intros [?|?]%elem_of_cons). lia.
Qed.

(** Every value of [l] that is at most [m] falls in exactly one of the
    buckets [0..m]. *)
Lemma sum_count_buckets (l : list nat) (m : nat) :
  Forall (λ v, v ≤ m) l →
  sum_list ((λ i, count (λ v, v = i) l) <$> seq 0 (S m)) = length l.
Proof.
  induction 1 as [|v l Hv _ IH].
  - by rewrite (sum_list_fmap_same 0), Nat.mul_0_r by by apply Forall_forall.
  - rewrite sum_count_cons, IH by apply NoDup_seq.
    rewrite decide_True; [done|]. apply elem_of_seq. lia.
Qed.

Section enumerate.
Context {A : Type}.
Implicit Types l : list A.

Lemma length_enumerate s l : length (enumerate s l) = length l.
Proof. unfold enumerate. rewrite length_zip, length_seq. lia. Qed.

Lemma fst_enumerate s l : (enumerate s l).*1 = seq s (length l).
Proof. unfold enumerate. apply fst_zip. by rewrite length_seq. Qed.

Lemma snd_enumerate s l : (enumerate s l).*2 = l.
Proof. unfold enumerate. apply snd_zip. by rewrite length_seq. Qed.

Lemma enumerate_cons s x l : enumerate s (x :: l) = (s, x) :: enumerate (S s) l.
Proof. done. Qed.

Lemma enumerate_lookup s l i x :
  enumerate s l !! i = Some (s + i, x) ↔ l !! i = Some x.
Proof.
  revert s i. induction l as [|y l IH]; intros s [|i]; try done.
  - rewrite enumerate_cons. simpl. rewrite Nat.add_0_r. clear IH. naive_solver.
  - rewrite enumerate_cons. simpl. rewrite <- (IH (S s) i).
    by replace (s + S i) with (S s + i) by lia.
Qed.

End enumerate.

(** A loop that appends one item per element builds the image of the
    list. *)
Lemma foldl_snoc_fmap {A B} (f : A → B) (l : list A) (acc : list B) :
  foldl (λ acc x, acc ++ [f x]) acc l = acc ++ (f <$> l).
Proof.
  revert acc. induction l as [|x l IH]; intros acc; simpl.
  - by rewrite app_nil_r.
  - by rewrite IH, <- app_assoc.
Qed.

Lemma foldl_ext_in {A B} (f g : B → A → B) (l : list A) (acc : B) :
  (∀ b x, x ∈ l → f b x = g b x) → foldl f acc l = foldl g acc l.
Proof.
  revert acc. induction l as [|x l IH]; intros acc H; [done|]. simpl.
  rewrite H by left. apply IH. intros. apply H. by right.
Qed.

Lemma filter_Forall_id {A} (P : A → Prop) `{!∀ x, Decision (P x)} (l : list A) :
  Forall P l → filter P l = l.
Proof.
  induction 1 as [|x l Hx _ IH]; [done|].
  by rewrite filter_cons, decide_True, IH.
Qed.

Lemma fmap_Forall_id {A} (f : A → A) (l : list A) :
  Forall (λ x, f x = x) l → f <$> l = l.
Proof. induction 1; csimpl; congruence. Qed.

(** A property that every turn of a loop keeps holds after the loop. *)
Lemma foldl_invariant {A B} (P : B → Prop) (f : B → A → B) (l : list A) (acc : B) :
  (∀ b x, x ∈ l → P b → P (f b x)) → P acc → P (foldl f acc l).
Proof.
  revert acc; induction l as [|x l IH]; intros acc Hf Hacc; [done|]; simpl.
  apply IH; [intros b y Hy; apply Hf; by right|apply Hf; [by left|done]].
Qed.

Lemma enumerate_fmap {A B} (f : A → B) s (l : list A) :
  enumerate s (f <$> l) = prod_map id f <$> enumerate s l.
Proof.
  revert s; induction l as [|x l IH]; intros s; [done|].
  by rewrite fmap_cons, !enumerate_cons, fmap_cons, IH.
Qed.

Lemma omap_Some_fmap {A B} (f : A → B) (l : list A) : omap (λ x, Some (f x)) l = f <$> l.
Proof. induction l; csimpl; congruence. Qed.
