(* ===== verification/Numeric.v ===== *)
(** * Numeric cells of a pandas frame

    A numeric cell is [option Q]: [Some q] is the number [q], [None] is NaN
    (what [pd.to_numeric(errors="coerce")] leaves for a cell it cannot
    parse, and what an empty spreadsheet cell reads as).  The operations are
    the ones [src/app1.py] applies to such cells: comparison with a
    constant (false on NaN), the element-wise product (NaN if either side
    is), [Series.sum] (which skips NaN), true division, and [round(x, 2)]
    on a numpy float (round half to even of [x * 100]). *)

From S2P Require Import Prelude.

Local Open Scope Q_scope.

(** ** Definitions *)

Definition num : Type := option Q.
Definition NaN : num := None.

#[export] Instance Qle_decision : RelDecision Qle.
Proof.
  intros x y. destruct (Qlt_le_dec y x) as [H|H]; [right|left; exact H].
  apply Qlt_not_le, H.
Defined.

#[export] Instance Qlt_decision : RelDecision Qlt.
Proof.
  intros x y. destruct (Qlt_le_dec x y) as [H|H]; [left; exact H|right].
  apply Qle_not_lt, H.
Defined.

#[export] Instance Qeq_decision : RelDecision Qeq := Qeq_dec.

(** [x == c] on a cell: false on NaN. *)
Definition num_eq (x : num) (c : Q) : Prop :=
  match x with Some q => q == c | None => False end.

(** [x >= c] on a cell: false on NaN. *)
Definition num_ge (x : num) (c : Q) : Prop :=
  match x with Some q => c <= q | None => False end.

#[export] Instance num_eq_dec x c : Decision (num_eq x c).
Proof. destruct x; simpl; apply _. Defined.

#[export] Instance num_ge_dec x c : Decision (num_ge x c).
Proof. destruct x; simpl; apply _. Defined.

Infix "=ₙ" := num_eq (at level 70, no associativity) : exam_scope.
Infix "≥ₙ" := num_ge (at level 70, no associativity) : exam_scope.

(** Element-wise product of two columns: NaN if either cell is. *)
Definition num_mul (x y : num) : num :=
  match x, y with
  | Some a, Some b => Some (a * b)
  | _, _ => None
  end.

(** [Series.sum()], with its default [skipna=True]: 0 on the empty or the
    all-NaN column. *)
Definition nansum (l : list num) : Q :=
  foldr (λ x acc, match x with Some q => q + acc | None => acc end) 0 l.

(** True division [a / b] of numpy scalars: NaN (or an infinity, which the
    model does not tell apart) on a zero divisor. *)
Definition np_div (a b : Q) : num :=
  if decide (b == 0) then None else Some (a / b).

(** numpy's [rint]: the nearest integer, ties to the even one. *)
Definition rint (x : Q) : Z :=
  let f := Qfloor x in
  match Qcompare (x - inject_Z f) (1 # 2) with
  | Lt => f
  | Gt => (f + 1)%Z
  | Eq => if Z.even f then f else (f + 1)%Z
  end.

(** [round(x, 2)] on a numpy float: [rint(x * 100) / 100], kept in lowest
    terms so that equal results are identical. *)
Definition round2 (x : Q) : Q := Qred (rint (x * 100) # 100).

(** [round(x, 2)] on a cell: NaN stays NaN. *)
Definition num_round2 (x : num) : num := round2 <$> x.

(** A Python or numpy integer (a count) in a float computation. *)
Definition Qnat (n : nat) : Q := inject_Z (Z.of_nat n).

(** A cell that holds a number in the interval [lo, hi], or NaN. *)
Definition num_within (lo hi : Q) (x : num) : Prop :=
  match x with Some q => lo <= q ∧ q <= hi | None => True end.

#[export] Instance num_within_dec lo hi x : Decision (num_within lo hi x).
Proof. destruct x; simpl; apply _. Defined.

(** ** Lemmas *)

Lemma num_ge_Some q c : (Some q ≥ₙ c)%exam ↔ c <= q.
Proof. done. Qed.

Lemma num_ge_NaN c : ¬ (NaN ≥ₙ c)%exam.
Proof. by intros []. Qed.

Lemma num_eq_NaN c : ¬ (NaN =ₙ c)%exam.
Proof. by intros []. Qed.

Lemma num_ge_inv x c : (x ≥ₙ c)%exam → ∃ q, x = Some q ∧ c <= q.
Proof. destruct x; [eauto | done]. Qed.

Lemma num_eq_inv x c : (x =ₙ c)%exam → ∃ q, x = Some q ∧ q == c.
Proof. destruct x; [eauto | done]. Qed.

Lemma num_ge_trans x c c' : c' <= c → (x ≥ₙ c)%exam → (x ≥ₙ c')%exam.
Proof. destruct x; simpl; [apply Qle_trans | done]. Qed.

(** A cell that grows stays above the thresholds it was above. *)
Lemma num_ge_mono x y c : option_Forall2 Qle x y → (x ≥ₙ c)%exam → (y ≥ₙ c)%exam.
Proof. destruct 1; simpl; [|done]. intros. by eapply Qle_trans. Qed.

#[export] Hint Resolve num_ge_NaN num_eq_NaN : exam.

(** *** Sums that skip NaN *)

Lemma nansum_nil : nansum [] = 0.
Proof. done. Qed.

Lemma nansum_cons_Some q l : nansum (Some q :: l) = q + nansum l.
Proof. done. Qed.

Lemma nansum_cons_NaN l : nansum (NaN :: l) = nansum l.
Proof. done. Qed.

#[export] Hint Rewrite nansum_nil nansum_cons_Some nansum_cons_NaN : exam_rw.

Lemma nansum_app l1 l2 : nansum (l1 ++ l2) == nansum l1 + nansum l2.
Proof.
  induction l1 as [|[q|] l1 IH]; simpl; [lra|rewrite IH; lra|done].
Qed.

Lemma nansum_all_NaN l : Forall (λ x, x = NaN) l → nansum l = 0.
Proof. induction 1 as [|x l -> _ IH]; [done|]. by simpl. Qed.

(** A sum of non-negative cells is non-negative. *)
Lemma nansum_ge_0 l : Forall (λ x, ∀ q, x = Some q → 0 <= q) l → 0 <= nansum l.
Proof.
  induction 1 as [|[q|] l Hq _ IH]; simpl; [lra| |done].
  specialize (Hq q eq_refl). lra.
Qed.

(** Pointwise comparison of two columns of the same frame lifts to their
    sums; [f] and [g] read the two cells of a row. *)
Lemma nansum_le {A} (f g : A → num) (rows : list A) :
  Forall (λ r, match f r, g r with
               | Some a, Some b => a <= b
               | Some a, None => a <= 0
               | None, Some b => 0 <= b
               | None, None => True
               end) rows →
  nansum (f <$> rows) <= nansum (g <$> rows).
Proof.
  induction 1 as [|r rows Hr _ IH]; [by simpl; lra|].
  rewrite !fmap_cons. destruct (f r), (g r); simpl; lra.
Qed.

Lemma nansum_scale {A} (c : Q) (f : A → num) (rows : list A) :
  nansum ((λ r, (λ q, c * q) <$> f r) <$> rows) == c * nansum (f <$> rows).
Proof.
  induction rows as [|r rows IH]; [simpl; lra|].
  rewrite !fmap_cons. destruct (f r); simpl; rewrite IH; lra.
Qed.

(** *** Division *)

Lemma np_div_Some a b : ¬ b == 0 → np_div a b = Some (a / b).
Proof. intros. unfold np_div. by rewrite decide_False. Qed.

Lemma np_div_0 a b : b == 0 → np_div a b = NaN.
Proof. intros. unfold np_div. by rewrite decide_True. Qed.

Lemma Qdiv_le_upper a b c : 0 < b → a <= c * b → a / b <= c.
Proof. intros Hb H. apply Qle_shift_div_r; [done|lra]. Qed.

Lemma Qdiv_le_lower a b : 0 < b → 0 <= a → 0 <= a / b.
Proof. intros Hb H. apply Qle_shift_div_l; [done|lra]. Qed.

Lemma Qnat_le (m n : nat) : (m ≤ n)%nat → Qnat m <= Qnat n.
Proof. intros. unfold Qnat. rewrite <- Zle_Qle. lia. Qed.

Lemma Qnat_pos (n : nat) : (0 < n)%nat → 0 < Qnat n.
Proof. intros. unfold Qnat. change 0 with (inject_Z 0). rewrite <- Zlt_Qlt. lia. Qed.

Lemma Qnat_nonneg (n : nat) : 0 <= Qnat n.
Proof. unfold Qnat. change 0 with (inject_Z 0). rewrite <- Zle_Qle. lia. Qed.

(** A share [m / n * 100] of a whole is a percentage. *)
Lemma percent_within (m n : nat) :
  (m ≤ n)%nat → (0 < n)%nat → 0 <= Qnat m / Qnat n * 100 ∧ Qnat m / Qnat n * 100 <= 100.
Proof.
  intros Hmn Hn. pose proof (Qnat_le _ _ Hmn). pose proof (Qnat_pos _ Hn).
  pose proof (Qnat_nonneg m).
  assert (0 <= Qnat m / Qnat n) by by apply Qdiv_le_lower.
  assert (Qnat m / Qnat n <= 1) by (apply Qdiv_le_upper; [done|lra]).
  lra.
Qed.

(** *** Rounding *)

#[export] Instance rint_Proper : Proper (Qeq ==> eq) rint.
Proof.
  intros x y Hxy. unfold rint. rewrite (Qfloor_comp _ _ Hxy).
  assert (Qcompare (x - inject_Z (Qfloor y)) (1 # 2) =
          Qcompare (y - inject_Z (Qfloor y)) (1 # 2)) as -> by (by rewrite Hxy).
  done.
Qed.

#[export] Instance round2_Proper : Proper (Qeq ==> eq) round2.
Proof. intros x y Hxy. unfold round2. by rewrite Hxy. Qed.

Lemma Qfloor_bounds x : inject_Z (Qfloor x) <= x ∧ x < inject_Z (Qfloor x) + 1.
Proof.
  split; [apply Qfloor_le|]. generalize (Qlt_floor x).
  rewrite inject_Z_plus. change (inject_Z 1) with 1. lra.
Qed.

(** [rint x] is within one half of [x]. *)
Lemma rint_close x :
  inject_Z (rint x) - (1 # 2) <= x ∧ x <= inject_Z (rint x) + (1 # 2).
Proof.
  unfold rint. destruct (Qfloor_bounds x) as [Hl Hu].
  destruct (Qcompare_spec (x - inject_Z (Qfloor x)) (1 # 2)) as [He|Hlt|Hgt].
  - destruct (Z.even _); rewrite ?inject_Z_plus; change (inject_Z 1) with 1; lra.
  - lra.
  - rewrite inject_Z_plus. change (inject_Z 1) with 1. lra.
Qed.

Lemma rint_inject_Z z : rint (inject_Z z) = z.
Proof.
  unfold rint. rewrite Qfloor_Z.
  destruct (Qcompare_spec (inject_Z z - inject_Z z) (1 # 2)); [lra|done|lra].
Qed.

Lemma inject_Z_le_inv (a b : Z) : inject_Z a <= inject_Z b → (a <= b)%Z.
Proof. by rewrite <- Zle_Qle. Qed.

(** An integer below [x] is at most [rint x], one above is at least it. *)
Lemma rint_ge_Z x z : inject_Z z <= x → (z <= rint x)%Z.
Proof.
  intros Hz. assert (z <= Qfloor x)%Z as Hf.
  { rewrite <- (Qfloor_Z z). by apply Qfloor_resp_le. }
  unfold rint. repeat case_match; lia.
Qed.

Lemma rint_le_Z x z : x <= inject_Z z → (rint x <= z)%Z.
Proof.
  intros Hz. destruct (Qfloor_bounds x) as [Hl Hu].
  assert (Qfloor x <= z)%Z as Hf by (apply inject_Z_le_inv; lra).
  destruct (decide (Qfloor x = z)) as [He|Hne].
  - subst z. assert (x == inject_Z (Qfloor x)) as Hx by lra.
    rewrite Hx at 1. by rewrite rint_inject_Z.
  - unfold rint. repeat case_match; lia.
Qed.

(** Rounding is monotone. *)
Lemma rint_mono x y : x <= y → (rint x <= rint y)%Z.
Proof.
  intros Hxy. destruct (rint_close x) as [Hx' Hx], (rint_close y) as [Hy Hy'].
  destruct (Z_le_gt_dec (rint x) (rint y)) as [|Hgt]; [done|exfalso].
  assert (inject_Z (rint y) + 1 <= inject_Z (rint x)) as Hz.
  { change 1 with (inject_Z 1). rewrite <- inject_Z_plus, <- Zle_Qle. lia. }
  assert (x == y) as Heq by lra.
  rewrite Heq in Hgt. lia.
Qed.

Lemma Qmake_100_mul (z : Z) : (z # 100) * 100 == inject_Z z.
Proof. unfold Qeq, inject_Z. simpl. lia. Qed.

Lemma Qmake_100_div (z : Z) : z # 100 == inject_Z z / 100.
Proof. rewrite <- (Qmake_100_mul z). field. Qed.

Lemma round2_unfold x : round2 x == inject_Z (rint (x * 100)) / 100.
Proof. unfold round2. by rewrite Qred_correct, Qmake_100_div. Qed.

Lemma round2_mono x y : x <= y → round2 x <= round2 y.
Proof.
  intros Hxy. unfold round2. apply Qred_le. unfold Qle. simpl.
  apply Z.mul_le_mono_nonneg_r; [done|]. apply rint_mono. lra.
Qed.

Lemma round2_Z_100 (z : Z) : round2 (z # 100) = Qred (z # 100).
Proof. unfold round2. by rewrite Qmake_100_mul, rint_inject_Z. Qed.

(** Rounding a rounded value changes nothing. *)
Lemma round2_idemp x : round2 (round2 x) = round2 x.
Proof.
  assert (round2 (round2 x) = round2 (rint (x * 100) # 100)) as ->
    by (apply round2_Proper, Qred_correct).
  apply round2_Z_100.
Qed.

Lemma round2_inject_Z (z : Z) : round2 (inject_Z z) == inject_Z z.
Proof.
  rewrite round2_unfold.
  assert (inject_Z z * 100 == inject_Z (z * 100)) as ->.
  { unfold Qeq, inject_Z. simpl. lia. }
  rewrite rint_inject_Z, inject_Z_mult.
  change (inject_Z 100) with 100. field.
Qed.

(** [round2 x] is within half a hundredth of [x]. *)
Lemma round2_close x :
  round2 x - (1 # 200) <= x ∧ x <= round2 x + (1 # 200).
Proof.
  destruct (rint_close (x * 100)) as [Hl Hu]. rewrite round2_unfold. split.
  - apply (Qmult_le_r _ _ 100); [done|]. field_simplify. lra.
  - apply (Qmult_le_r _ _ 100); [done|]. field_simplify. lra.
Qed.

(** Rounding keeps a value inside integer bounds. *)
Lemma round2_within (lo hi : Z) x :
  inject_Z lo <= x → x <= inject_Z hi →
  inject_Z lo <= round2 x ∧ round2 x <= inject_Z hi.
Proof.
  intros Hl Hu. rewrite <- (round2_inject_Z lo), <- (round2_inject_Z hi).
  split; by apply round2_mono.
Qed.

Lemma round2_0 : round2 0 = 0.
Proof. done. Qed.
