(* ===== verification/Sorting.v ===== *)
(** * Sorting as the program uses it

    [stable_sort R] models a stable sort by a key: Python's
    [list.sort(key=..., reverse=True)] at [src/app1.py:203] and pandas'
    [sort_values] at [src/app1.py:185].  [R x y] reads "[x] may stay in
    front of [y]"; the sort keeps the input order of elements that [R]
    relates both ways.  [sorted_keys] is the key list of a pandas
    [groupby] (and of [sorted(column.unique())]): the distinct keys in
    ascending order. *)

From S2P Require Import Prelude.

(** ** Definitions *)

Section stable_sort_def.
Context {A : Type} (R : relation A) `{!RelDecision R}.

(** Put [x] in front of the first element it may precede. *)
Fixpoint insert_stable (x : A) (l : list A) : list A :=
  match l with
  | [] => [x]
  | y :: l' => if decide (R x y) then x :: y :: l' else y :: insert_stable x l'
  end.

Definition stable_sort (l : list A) : list A := foldr insert_stable [] l.

End stable_sort_def.

Definition sorted_keys {K} (R : relation K) `{!RelDecision R, !EqDecision K}
    (l : list K) : list K :=
  merge_sort R (remove_dups l).

(** A class of elements that the order does not tell apart: any two of
    them may precede each other. *)
Definition tie_class {A} (R : relation A) (P : A → Prop) : Prop :=
  ∀ x y, P x → P y → R x y.

(** First by [R]; among elements that [R] ties, by [S]. *)
Definition lex {A} (R S : relation A) : relation A :=
  λ x y, R x y ∧ (R y x → S x y).

(** ** Lemmas *)

Lemma StronglySorted_mono {A} (R1 R2 : relation A) (l : list A) :
  (∀ x y, R1 x y → R2 x y) → StronglySorted R1 l → StronglySorted R2 l.
Proof.
  intros HR. induction 1 as [|x l _ IH Hx]; constructor; [done|].
  eapply Forall_impl; [exact Hx|]. auto.
Qed.

Lemma StronglySorted_strict_NoDup {A} (R : relation A) (l : list A) :
  StronglySorted (strict R) l → NoDup l.
Proof.
  induction 1 as [|k l _ IH Hk]; constructor; [|done].
  intros Hin. eapply Forall_forall in Hk; [|done]. by destruct Hk.
Qed.

(** In a sorted list an earlier position holds an element that may precede
    the one at a later position. *)
Lemma StronglySorted_lookup {A} (R : relation A) (l : list A) i j x y :
  StronglySorted R l → i < j → l !! i = Some x → l !! j = Some y → R x y.
Proof.
  intros Hs. revert i j. induction Hs as [|z l _ IH Hz]; intros i j Hij Hi Hj; [done|].
  destruct j as [|j]; [lia|]. destruct i as [|i]; simplify_eq/=.
  - eapply Forall_forall in Hz; [done|]. by eapply list_elem_of_lookup_2.
  - apply (IH i j); [lia|done..].
Qed.

Lemma StronglySorted_fmap_inv {A B} (f : A → B) (R : relation B) (l : list A) :
  StronglySorted R (f <$> l) → StronglySorted (λ x y, R (f x) (f y)) l.
Proof.
  induction l as [|x l IH]; [constructor|]. rewrite fmap_cons.
  intros [Hs Hx]%StronglySorted_inv. constructor; [by apply IH|].
  by rewrite Forall_fmap in Hx.
Qed.

Lemma StronglySorted_take {A} (R : relation A) (l : list A) n :
  StronglySorted R l → StronglySorted R (take n l).
Proof.
  intros Hs. rewrite <- (take_drop n l) in Hs. by eapply StronglySorted_app_1_l.
Qed.

Section stable_sort.
Context {A : Type} (R : relation A) `{!RelDecision R}.
Implicit Types (x y : A) (l : list A).

Lemma insert_stable_Permutation x l : insert_stable R x l ≡ₚ x :: l.
Proof.
  induction l as [|y l IH]; [done|]. simpl. case_decide; [done|].
  by rewrite IH, Permutation_swap.
Qed.

Lemma stable_sort_Permutation l : stable_sort R l ≡ₚ l.
Proof.
  induction l as [|x l IH]; [done|]. simpl.
  by rewrite insert_stable_Permutation, IH.
Qed.

Lemma length_stable_sort l : length (stable_sort R l) = length l.
Proof. by rewrite stable_sort_Permutation. Qed.

Lemma elem_of_stable_sort x l : x ∈ stable_sort R l ↔ x ∈ l.
Proof. by rewrite stable_sort_Permutation. Qed.

Lemma insert_stable_front x l : Forall (R x) l → insert_stable R x l = x :: l.
Proof. destruct 1; simpl; [done|]. by rewrite decide_True. Qed.

(** Sorting a sorted list changes nothing. *)
Lemma stable_sort_sorted l : StronglySorted R l → stable_sort R l = l.
Proof.
  induction 1 as [|x l _ IH Hx]; [done|]. simpl.
  by rewrite IH, insert_stable_front.
Qed.

(** Elements tied with [x] are not overtaken by [x], and elements that are
    not in the class do not disturb it. *)
Lemma filter_insert_stable (P : A → Prop) `{!∀ x, Decision (P x)} x l :
  tie_class R P →
  filter P (insert_stable R x l) = filter P (x :: l).
Proof.
  intros HP. induction l as [|y l IH]; [done|]. simpl. case_decide; [done|].
  rewrite !filter_cons in *. rewrite IH.
  destruct (decide (P x)), (decide (P y)); naive_solver.
Qed.

(** Stability: within a class of ties the input order survives. *)
Lemma stable_sort_stable (P : A → Prop) `{!∀ x, Decision (P x)} l :
  tie_class R P → filter P (stable_sort R l) = filter P l.
Proof.
  intros HP. induction l as [|x l IH]; [done|]. simpl.
  by rewrite filter_insert_stable, !filter_cons, IH.
Qed.

Context `{!Total R, !Transitive R}.

Lemma not_R_flip x y : ¬ R x y → R y x.
Proof. destruct (total R x y); tauto. Qed.

Lemma insert_stable_sorted x l :
  StronglySorted R l → StronglySorted R (insert_stable R x l).
Proof.
  induction 1 as [|y l Hl IH Hy]; simpl; [by repeat constructor|].
  case_decide as Hxy.
  - constructor; [by constructor|]. constructor; [done|].
    eapply Forall_impl; [exact Hy|]. intros z ?. by transitivity y.
  - constructor; [done|]. rewrite insert_stable_Permutation.
    constructor; [by apply not_R_flip | done].
Qed.

Lemma stable_sort_StronglySorted l : StronglySorted R (stable_sort R l).
Proof.
  induction l as [|x l IH]; [constructor|]. by apply insert_stable_sorted.
Qed.

(** Sorting twice is sorting once. *)
Lemma stable_sort_idemp l : stable_sort R (stable_sort R l) = stable_sort R l.
Proof. apply stable_sort_sorted, stable_sort_StronglySorted. Qed.

(** Whatever the sort leaves outside its first [n] elements may not
    precede any of them, ties apart. *)
Lemma stable_sort_take_drop n l x y :
  x ∈ take n (stable_sort R l) → y ∈ drop n (stable_sort R l) → R x y.
Proof.
  intros Hx Hy. pose proof (stable_sort_StronglySorted l) as Hs.
  rewrite <- (take_drop n (stable_sort R l)) in Hs.
  by eapply StronglySorted_app_1_elem_of.
Qed.

(** A stable sort of a list that is already in [S] order breaks the ties
    of [R] by [S]. *)
Lemma insert_stable_lex (S : relation A) x l :
  StronglySorted (lex R S) l → Forall (S x) l →
  StronglySorted (lex R S) (insert_stable R x l).
Proof.
  induction 1 as [|y l Hl IH Hy]; intros HS; simpl; [by repeat constructor|].
  apply Forall_cons in HS as [HSy HSl]. case_decide as Hxy.
  - constructor; [by constructor|]. constructor; [by split|].
    apply Forall_forall. intros z Hz. split.
    + transitivity y; [done|]. by eapply Forall_forall in Hy as [? _].
    + intros _. by eapply Forall_forall in HSl.
  - constructor; [by apply IH|]. rewrite insert_stable_Permutation.
    constructor; [|done]. split; [by apply not_R_flip|done].
Qed.

Lemma stable_sort_lex (S : relation A) l :
  StronglySorted S l → StronglySorted (lex R S) (stable_sort R l).
Proof.
  induction 1 as [|x l _ IH Hx]; [constructor|]. simpl.
  apply insert_stable_lex; [done|]. by rewrite stable_sort_Permutation.
Qed.

Lemma tie_class_of x : tie_class R (λ z, R z x ∧ R x z).
Proof. intros y z [Hy _] [_ Hz]. by transitivity x. Qed.

(** Two sorted lists that agree on every class of ties are equal. *)
Lemma sorted_tie_ext l1 l2 :
  StronglySorted R l1 → StronglySorted R l2 →
  (∀ (P : A → Prop) `{!∀ x, Decision (P x)},
     tie_class R P → filter P l1 = filter P l2) →
  l1 = l2.
Proof.
  intros Hs1. revert l2.
  induction Hs1 as [|x l1 _ IH Hx]; intros l2 Hs2 Hf.
  - destruct l2 as [|y l2]; [done|].
    specialize (Hf _ _ (tie_class_of y)). rewrite filter_cons_True in Hf; [done|].
    split; destruct (total R y y); done.
  - pose proof (Hf _ _ (tie_class_of x)) as Hfx.
    rewrite filter_cons_True in Hfx by (split; destruct (total R x x); done).
    destruct Hs2 as [|y l2 Hs2 Hy]; [done|].
    assert (x = y) as <-.
    { destruct (decide (R y x ∧ R x y)) as [Hyx|Hyx].
      - rewrite filter_cons_True in Hfx by done. by simplify_eq.
      - rewrite filter_cons_False in Hfx by done.
        assert (x ∈ l2) as Hin.
        { eapply (list_elem_of_filter (λ z, R z x ∧ R x z)).
          rewrite <- Hfx. left. }
        eapply Forall_forall in Hy; [|done].
        pose proof (Hf _ _ (tie_class_of y)) as Hfy.
        rewrite (filter_cons_True _ y) in Hfy by (split; destruct (total R y y); done).
        assert (y ∈ x :: l1) as [->|Hin']%elem_of_cons.
        { eapply (list_elem_of_filter (λ z, R z y ∧ R y z)).
          rewrite Hfy. left. }
        + done.
        + eapply Forall_forall in Hx; [|done]. tauto. }
    f_equal. apply IH; [done|]. intros P ? HP. specialize (Hf P _ HP).
    rewrite !filter_cons in Hf. case_decide; by simplify_eq.
Qed.

(** The stable sort is the only sorted list that keeps every class of ties
    in input order: any stable sorting routine computes [stable_sort]. *)
Lemma stable_sort_unique l l' :
  StronglySorted R l' →
  (∀ (P : A → Prop) `{!∀ x, Decision (P x)},
     tie_class R P → filter P l' = filter P l) →
  l' = stable_sort R l.
Proof.
  intros Hs Hf. apply sorted_tie_ext; [done|apply stable_sort_StronglySorted|].
  intros P ? HP. by rewrite Hf, stable_sort_stable.
Qed.

End stable_sort.

Lemma stable_sort_unique_witness : [1; 2; 2] = stable_sort le [1; 2; 2].
Proof.
  apply stable_sort_unique; try apply _; [|done].
  repeat constructor; lia.
Defined.

Section sorted_keys.
Context {K : Type} (R : relation K) `{!RelDecision R, !EqDecision K}.
Implicit Types (k : K) (l : list K).

Lemma elem_of_sorted_keys k l : k ∈ sorted_keys R l ↔ k ∈ l.
Proof.
  unfold sorted_keys. by rewrite merge_sort_Permutation, elem_of_remove_dups.
Qed.

Lemma NoDup_sorted_keys l : NoDup (sorted_keys R l).
Proof.
  unfold sorted_keys. rewrite merge_sort_Permutation. apply NoDup_remove_dups.
Qed.

Lemma sorted_keys_nil : sorted_keys R [] = [].
Proof. done. Qed.

Lemma sorted_keys_nil_inv l : sorted_keys R l = [] → l = [].
Proof.
  intros H. destruct l as [|k l]; [done|].
  assert (k ∈ sorted_keys R (k :: l)) as Hk by (apply elem_of_sorted_keys; left).
  rewrite H in Hk. by apply elem_of_nil in Hk.
Qed.

Context `{!PartialOrder R, !Total R}.

Lemma sorted_keys_StronglySorted l : StronglySorted R (sorted_keys R l).
Proof. apply StronglySorted_merge_sort; apply _. Qed.

(** The keys ascend strictly: no key repeats. *)
Lemma sorted_keys_strict l : StronglySorted (strict R) (sorted_keys R l).
Proof.
  pose proof (NoDup_sorted_keys l) as Hn.
  induction (sorted_keys_StronglySorted l) as [|k ks _ IH Hk]; [constructor|].
  apply NoDup_cons in Hn as [Hk' Hn]. constructor; [by apply IH|].
  apply Forall_forall. intros k' Hin. split.
  - by eapply Forall_forall in Hk.
  - intros Hrev. assert (k = k') as ->; [|done].
    apply (anti_symm R); [|done]. by eapply Forall_forall in Hk.
Qed.

(** The key list depends on the set of keys only. *)
Lemma sorted_keys_unique l1 l2 :
  (∀ k, k ∈ l1 ↔ k ∈ l2) → sorted_keys R l1 = sorted_keys R l2.
Proof.
  intros H. apply (StronglySorted_unique R); try apply sorted_keys_StronglySorted.
  apply NoDup_Permutation; try apply NoDup_sorted_keys.
  intros k. by rewrite !elem_of_sorted_keys.
Qed.

(** A strictly ascending list is its own key list. *)
Lemma sorted_keys_id l : StronglySorted (strict R) l → sorted_keys R l = l.
Proof.
  intros Hs. apply (StronglySorted_unique R).
  - apply sorted_keys_StronglySorted.
  - eapply StronglySorted_mono, Hs. by intros ?? [].
  - apply NoDup_Permutation; [apply NoDup_sorted_keys| |].
    + by eapply StronglySorted_strict_NoDup.
    + intros k. by rewrite elem_of_sorted_keys.
Qed.

Lemma sorted_keys_idemp l : sorted_keys R (sorted_keys R l) = sorted_keys R l.
Proof. apply sorted_keys_id, sorted_keys_strict. Qed.

End sorted_keys.
