(* ===== verification/Frame.v ===== *)
(** * Frames: the rows of the spreadsheet and [groupby]

    A [Row] is one line of the cleaned frame that [process] of
    [src/app1.py] works on, with the columns the code reads.  A [CRow] is a
    row after [df["RESULT"] = df.apply(marks_result, axis=1)].  [groupby]
    is pandas' [DataFrame.groupby(column)] as the code iterates it: the
    distinct keys in ascending order, each with the rows of that key in
    frame order; rows whose key is NaN belong to no group. *)

From Stdlib Require Import Qcanon.
From stdpp Require Import numbers.
From S2P Require Import Prelude Numeric Sorting.

(** ** Definitions *)

Inductive Result : Set := PASS | FAIL.

#[export] Instance Result_eq_dec : EqDecision Result.
Proof. solve_decision. Defined.

(** A roll number as pandas reads it from the [HTNO] column: a number when
    the spreadsheet cell holds one (in lowest terms, so that equal numbers
    are one key), a string otherwise. *)
Inductive RollNo : Set :=
| RollNum (q : Qc)
| RollStr (s : string).

#[export] Instance RollNo_eq_dec : EqDecision RollNo.
Proof. solve_decision. Defined.

(** The order in which a sorted [groupby] meets the roll numbers: numbers
    by value, strings by code point.  A column that mixes the two is
    outside what pandas sorts; here numbers come first. *)
Definition RollNo_le : relation RollNo := λ a b,
  match a, b with
  | RollNum x, RollNum y => (x ≤ y)%Qc
  | RollStr s, RollStr t => String.le s t
  | RollNum _, RollStr _ => True
  | RollStr _, RollNum _ => False
  end.

#[export] Instance RollNo_le_dec : RelDecision RollNo_le.
Proof. intros [x|s] [y|t]; simpl; apply _. Defined.

Record Row : Type := mkRow {
  HTNO : option RollNo;       (* roll number; [None] is an empty cell *)
  SUBJECT_NAME : string;
  INTERNALMARKS : num;
  EXTERNALMARKS : num;
  TOTALMARKS : num;
  GRADE_POINTS : num;
  CREDITS : num
}.

Record CRow : Type := mkCRow {
  crow :> Row;
  RESULT : Result
}.

Section groupby_def.
Context {A K : Type} `{!EqDecision K} (R : relation K) `{!RelDecision R}.
Context (key : A → option K).

(** The keys of the groups, as the iteration meets them. *)
Definition group_keys (df : list A) : list K := sorted_keys R (omap key df).

(** The rows of one group: a boolean-mask selection of the frame. *)
Definition get_group (k : K) (df : list A) : list A :=
  filter (λ r, key r = Some k) df.

Definition groupby (df : list A) : list (K * list A) :=
  (λ k, (k, get_group k df)) <$> group_keys df.

(** The rows that have a key at all. *)
Definition keyed (df : list A) : list A := filter (λ r, is_Some (key r)) df.

End groupby_def.

(** [df.groupby("HTNO")] and [df.groupby("SUBJECT_NAME")]. *)
Definition groupby_HTNO (df : list CRow) : list (RollNo * list CRow) :=
  groupby RollNo_le (λ r : CRow, HTNO r) df.

Definition groupby_SUBJECT_NAME (df : list CRow) : list (string * list CRow) :=
  groupby String.le (λ r : CRow, Some (SUBJECT_NAME r)) df.

(** ** Lemmas *)

#[export] Instance RollNo_le_po : PartialOrder RollNo_le.
Proof.
  split; [split|].
  - intros [x|s]; simpl; done.
  - intros [x|s] [y|t] [z|u]; simpl; try done; by etrans.
  - intros [x|s] [y|t]; simpl; try done; intros H1 H2; f_equal.
    + by apply (anti_symm Qcle).
    + by apply (anti_symm String.le).
Qed.

#[export] Instance RollNo_le_total : Total RollNo_le.
Proof.
  intros [x|s] [y|t]; simpl; try tauto; [apply (total Qcle)|apply (total String.le)].
Qed.

Section groupby.
Context {A K : Type} `{!EqDecision K} (R : relation K) `{!RelDecision R}.
Context (key : A → option K).
Implicit Types (df g : list A) (k : K) (r : A).

Lemma groupby_keys df : (groupby R key df).*1 = group_keys R key df.
Proof.
  unfold groupby. rewrite <- list_fmap_compose. apply list_fmap_id.
Qed.

Lemma length_groupby df : length (groupby R key df) = length (group_keys R key df).
Proof. unfold groupby. by rewrite length_fmap. Qed.

Lemma elem_of_group_keys k df : k ∈ group_keys R key df ↔ ∃ r, r ∈ df ∧ key r = Some k.
Proof. unfold group_keys. by rewrite elem_of_sorted_keys, list_elem_of_omap. Qed.

Lemma elem_of_get_group r k df : r ∈ get_group key k df ↔ key r = Some k ∧ r ∈ df.
Proof. unfold get_group. by rewrite list_elem_of_filter. Qed.

Lemma elem_of_groupby k g df :
  (k, g) ∈ groupby R key df ↔ k ∈ group_keys R key df ∧ g = get_group key k df.
Proof.
  unfold groupby. rewrite list_elem_of_fmap. split.
  - by intros (k' & [= -> ->] & ?).
  - intros [? ->]. by exists k.
Qed.

(** No group is empty. *)
Lemma groupby_nonempty k g df : (k, g) ∈ groupby R key df → g ≠ [].
Proof.
  intros [[r [Hr Hk]]%elem_of_group_keys ->]%elem_of_groupby Hnil.
  assert (r ∈ get_group key k df) as Hin by by apply elem_of_get_group.
  rewrite Hnil in Hin. by apply elem_of_nil in Hin.
Qed.

(** Every row of a group has the key of the group. *)
Lemma groupby_key k g df :
  (k, g) ∈ groupby R key df → Forall (λ r, key r = Some k) g.
Proof.
  intros [_ ->]%elem_of_groupby. apply Forall_forall.
  by intros r [? _]%elem_of_get_group.
Qed.

Lemma groupby_elem_of k g df r : (k, g) ∈ groupby R key df → r ∈ g → r ∈ df.
Proof. intros [_ ->]%elem_of_groupby [_ ?]%elem_of_get_group. done. Qed.

(** A group keeps the order of the frame. *)
Lemma groupby_sublist k g df : (k, g) ∈ groupby R key df → sublist g df.
Proof. intros [_ ->]%elem_of_groupby. apply sublist_filter. Qed.

Lemma groupby_NoDup df : NoDup (groupby R key df).*1.
Proof. rewrite groupby_keys. apply NoDup_sorted_keys. Qed.

Lemma groupby_nil : groupby R key [] = [].
Proof. done. Qed.

(** One more row goes to the group of its key, when that key is listed. *)
Lemma get_group_cons_join r df (ks : list K) :
  NoDup ks →
  mjoin ((λ k, get_group key k (r :: df)) <$> ks) ≡ₚ
  (if decide (key r ∈ Some <$> ks) then [r] else []) ++
  mjoin ((λ k, get_group key k df) <$> ks).
Proof.
  induction 1 as [|k ks Hk _ IH]; [by rewrite decide_False by apply not_elem_of_nil|].
  rewrite !fmap_cons. simpl. rewrite IH. unfold get_group at 1.
  rewrite filter_cons. fold (get_group key k df). clear IH.
  destruct (decide (key r = Some k)) as [Hrk|Hrk].
  - rewrite Hrk, (decide_True (P := Some k ∈ Some k :: _)) by left.
    rewrite decide_False; [done|]. by intros (k' & [= <-] & ?)%list_elem_of_fmap.
  - destruct (decide (key r ∈ Some <$> ks)) as [Hex|Hex].
    + rewrite decide_True by by right. simpl. by rewrite Permutation_middle.
    + rewrite decide_False; [done|]. by intros [?|?]%elem_of_cons.
Qed.

Lemma get_group_nil_join (ks : list K) :
  mjoin ((λ k, get_group key k (@nil A)) <$> ks) = [].
Proof. induction ks as [|k ks IH]; [done|]. by rewrite fmap_cons. Qed.

(** Over a duplicate-free key list that has every key of the frame, the
    groups partition the rows that have a key. *)
Lemma get_group_join_keyed df (ks : list K) :
  NoDup ks → (∀ k r, r ∈ df → key r = Some k → k ∈ ks) →
  mjoin ((λ k, get_group key k df) <$> ks) ≡ₚ keyed key df.
Proof.
  intros Hks. induction df as [|r df IH]; intros Hall.
  - by rewrite get_group_nil_join.
  - rewrite get_group_cons_join by done.
    rewrite IH by (intros; eapply Hall; [by right|done]).
    unfold keyed. rewrite filter_cons.
    destruct (key r) as [k|] eqn:Hr.
    + rewrite decide_True.
      * by rewrite decide_True by done.
      * apply list_elem_of_fmap. exists k. split; [done|]. eapply Hall; [left|done].
    + rewrite decide_False by (by intros (? & ? & ?)%list_elem_of_fmap).
      rewrite decide_False; [done|]. by intros [].
Qed.

Lemma groupby_partition df : mjoin (groupby R key df).*2 ≡ₚ keyed key df.
Proof.
  unfold groupby. rewrite <- list_fmap_compose.
  apply get_group_join_keyed; [apply NoDup_sorted_keys|].
  intros k r Hr Hk. apply elem_of_group_keys. eauto.
Qed.

Lemma groupby_lengths df :
  sum_list (length <$> (groupby R key df).*2) = length (keyed key df).
Proof. by rewrite <- length_join, groupby_partition. Qed.

End groupby.

(** Counting over the groups is counting over the keyed rows. *)
Lemma groupby_count {A K} `{!EqDecision K} (R : relation K) `{!RelDecision R}
    (key : A → option K) (P : A → Prop) `{!∀ x, Decision (P x)} (df : list A) :
  sum_list (count P <$> (groupby R key df).*2) = count P (keyed key df).
Proof.
  rewrite <- (count_Permutation P _ _ (groupby_partition R key df)).
  generalize ((groupby R key df).*2). intros gs.
  induction gs as [|g gs IH]; [done|].
  rewrite fmap_cons. simpl. by rewrite count_app, IH.
Qed.

Section groupby_order.
Context {A K : Type} `{!EqDecision K} (R : relation K) `{!RelDecision R}.
Context `{!PartialOrder R, !Total R} (key : A → option K).

(** The groups come in strictly ascending key order. *)
Lemma groupby_sorted (df : list A) :
  StronglySorted (strict R) (groupby R key df).*1.
Proof. rewrite groupby_keys. apply sorted_keys_strict; apply _. Qed.

(** Grouping does not depend on the order of the rows, as far as the keys
    go. *)
Lemma group_keys_Permutation (df1 df2 : list A) :
  df1 ≡ₚ df2 → group_keys R key df1 = group_keys R key df2.
Proof.
  intros Hp. apply sorted_keys_unique; try apply _. intros k.
  rewrite !list_elem_of_omap. by setoid_rewrite Hp.
Qed.


End groupby_order.


(** Every subject row has a key: grouping by subject loses no row. *)
Lemma keyed_SUBJECT_NAME (df : list CRow) :
  keyed (λ r : CRow, Some (SUBJECT_NAME r)) df = df.
Proof.
  unfold keyed. induction df as [|r df IH]; [done|].
  rewrite filter_cons_True by done. by rewrite IH.
Qed.
