(* ===== verification/Classifier.v ===== *)
(** * The PASS/FAIL rule

    [marks_result] is the closure of that name inside [process]
    ([src/app1.py], lines 102-114), with the list [optional_subjects] it
    captures as a parameter; [classify] is the assignment of the [RESULT]
    column at line 116.  [pass_rule] states the rule as a proposition, the
    way the specification words it; the theorems relate the two and
    establish what the rule does on missing marks and at its thresholds. *)

From S2P Require Import Prelude Numeric Frame.

Local Open Scope exam_scope.

(** ** Definitions *)

Definition marks_result (optional_subjects : list string) (row : Row) : Result :=
  let i := INTERNALMARKS row in
  let e := EXTERNALMARKS row in
  let t := TOTALMARKS row in
  let subject := SUBJECT_NAME row in
  if decide (e =ₙ 0) then
    if decide (t ≥ₙ 40) then PASS else FAIL
  else if decide (subject ∈ optional_subjects) then
    if decide (t ≥ₙ 40) then PASS else FAIL
  else
    if decide (i ≥ₙ 14 ∧ e ≥ₙ 21 ∧ t ≥ₙ 35) then PASS else FAIL.

(** [df["RESULT"] = df.apply(marks_result, axis=1)]. *)
Definition classify (optional_subjects : list string) (df : list Row) : list CRow :=
  (λ row, mkCRow row (marks_result optional_subjects row)) <$> df.

(** The rule of the specification, with the precedence of its three cases
    spelled out: zero external marks; else an optional subject; else a
    regular subject. *)
Definition pass_rule (optional_subjects : list string) (row : Row) : Prop :=
  (EXTERNALMARKS row =ₙ 0 ∧ TOTALMARKS row ≥ₙ 40) ∨
  (¬ (EXTERNALMARKS row =ₙ 0) ∧ (SUBJECT_NAME row ∈ optional_subjects) ∧
   TOTALMARKS row ≥ₙ 40) ∨
  (¬ (EXTERNALMARKS row =ₙ 0) ∧ (SUBJECT_NAME row ∉ optional_subjects) ∧
   INTERNALMARKS row ≥ₙ 14 ∧ EXTERNALMARKS row ≥ₙ 21 ∧ TOTALMARKS row ≥ₙ 35).

(** Every cell of [r'] that holds marks is at least the one of [r]. *)
Definition marks_le (r r' : Row) : Prop :=
  SUBJECT_NAME r = SUBJECT_NAME r' ∧
  option_Forall2 Qle (INTERNALMARKS r) (INTERNALMARKS r') ∧
  option_Forall2 Qle (EXTERNALMARKS r) (EXTERNALMARKS r') ∧
  option_Forall2 Qle (TOTALMARKS r) (TOTALMARKS r').

(** A row whose total is the sum of its two parts. *)
Definition consistent (row : Row) : Prop :=
  match INTERNALMARKS row, EXTERNALMARKS row, TOTALMARKS row with
  | Some i, Some e, Some t => (t == i + e)%Q
  | _, _, _ => False
  end.

(** The rows of the scenarios of the specification. *)
Definition scenario_row (subject : string) (i e t : num) : Row :=
  mkRow (Some (RollStr "R1")) subject i e t (Some 8%Q) (Some 4%Q).

(** ** Lemmas *)

Section classifier.
Context (opt : list string).
Implicit Types (row : Row) (df : list Row).

(** C1: The classification follows the rule of the specification and is
    total: a row that meets the rule is PASS, any other row is FAIL. *)
Theorem marks_result_total row :
  (pass_rule opt row ∧ marks_result opt row = PASS) ∨
  (¬ pass_rule opt row ∧ marks_result opt row = FAIL).
Proof.
  unfold marks_result, pass_rule.
  repeat case_decide;
    first [left; split; [tauto|done] | right; split; [tauto|done]].
Qed.

Lemma marks_result_PASS row : marks_result opt row = PASS ↔ pass_rule opt row.
Proof.
  unfold marks_result, pass_rule.
  repeat case_decide; split; intros; (done || tauto).
Qed.

Lemma marks_result_FAIL row : marks_result opt row = FAIL ↔ ¬ pass_rule opt row.
Proof.
  rewrite <- marks_result_PASS.
  destruct (marks_result opt row); split; intros; (done || tauto).
Qed.

(** Zero external marks: the total alone decides, at 40. *)
Lemma marks_result_external_0 row :
  EXTERNALMARKS row =ₙ 0 →
  marks_result opt row = if decide (TOTALMARKS row ≥ₙ 40) then PASS else FAIL.
Proof. intros He. unfold marks_result. by rewrite decide_True. Qed.

(** Optional subject with external marks: the total alone decides, at 40. *)
Lemma marks_result_optional row :
  ¬ EXTERNALMARKS row =ₙ 0 → SUBJECT_NAME row ∈ opt →
  marks_result opt row = if decide (TOTALMARKS row ≥ₙ 40) then PASS else FAIL.
Proof.
  intros He Hs. unfold marks_result.
  by rewrite decide_False, decide_True.
Qed.

(** With external marks that are not zero, the optional set selects the
    thresholds. *)
Lemma marks_result_regular_or_optional row :
  ¬ EXTERNALMARKS row =ₙ 0 →
  marks_result opt row =
  if decide (SUBJECT_NAME row ∈ opt)
  then (if decide (TOTALMARKS row ≥ₙ 40) then PASS else FAIL)
  else (if decide (INTERNALMARKS row ≥ₙ 14 ∧ EXTERNALMARKS row ≥ₙ 21 ∧
                   TOTALMARKS row ≥ₙ 35) then PASS else FAIL).
Proof. intros He. unfold marks_result. by rewrite decide_False. Qed.

(** Regular subject: the three thresholds, inclusive. *)
Lemma marks_result_regular row :
  ¬ EXTERNALMARKS row =ₙ 0 → SUBJECT_NAME row ∉ opt →
  marks_result opt row =
  if decide (INTERNALMARKS row ≥ₙ 14 ∧ EXTERNALMARKS row ≥ₙ 21 ∧ TOTALMARKS row ≥ₙ 35)
  then PASS else FAIL.
Proof.
  intros He Hs. rewrite marks_result_regular_or_optional by done.
  by rewrite decide_False.
Qed.

(** C21: Missing marks never pass by default: a row with no total fails in
    every case; a regular row with no external marks fails; a regular row
    with no internal marks fails unless its external marks are zero. *)
Theorem marks_result_missing row :
  TOTALMARKS row = NaN ∨
  ((SUBJECT_NAME row ∉ opt) ∧
   (EXTERNALMARKS row = NaN ∨
    (INTERNALMARKS row = NaN ∧ ¬ (EXTERNALMARKS row =ₙ 0)))) →
  marks_result opt row = FAIL.
Proof.
  intros H. apply marks_result_FAIL. unfold pass_rule.
  destruct H as [Ht|[Hs [He|[Hi He]]]]; rewrite ?Ht, ?Hi, ?He.
  all: intros [H|[H|H]]; destruct_and?; try done.
  all: by (eapply num_ge_NaN || eapply num_eq_NaN).
Qed.

(** No total below 35 passes, in any case of the rule. *)
Theorem marks_result_PASS_total row :
  marks_result opt row = PASS → TOTALMARKS row ≥ₙ 35.
Proof.
  rewrite marks_result_PASS. unfold pass_rule.
  intros [[_ H]|[(_ & _ & H)|(_ & _ & _ & _ & H)]]; [| |done];
    apply (num_ge_trans _ 40); (lra || done).
Qed.

(** On a consistent row the test on the total in the third case follows
    from the other two. *)
Theorem consistent_total_redundant row :
  consistent row → INTERNALMARKS row ≥ₙ 14 → EXTERNALMARKS row ≥ₙ 21 →
  TOTALMARKS row ≥ₙ 35.
Proof.
  unfold consistent.
  destruct (INTERNALMARKS row), (EXTERNALMARKS row), (TOTALMARKS row); simpl; try done.
  intros. lra.
Qed.

Lemma classify_rows df : crow <$> classify opt df = df.
Proof.
  unfold classify. rewrite <- list_fmap_compose. apply list_fmap_id.
Qed.

Lemma length_classify df : length (classify opt df) = length df.
Proof. unfold classify. by rewrite length_fmap. Qed.

Lemma classify_RESULT df :
  Forall (λ r : CRow, RESULT r = marks_result opt r) (classify opt df).
Proof. unfold classify. by apply Forall_fmap, Forall_true. Qed.

Lemma classify_app df1 df2 :
  classify opt (df1 ++ df2) = classify opt df1 ++ classify opt df2.
Proof. apply fmap_app. Qed.

(** Classifying the rows of a classified frame again gives the same
    frame: the [RESULT] column is a function of the other columns. *)
Theorem classify_idemp df : classify opt (crow <$> classify opt df) = classify opt df.
Proof. by rewrite classify_rows. Qed.

End classifier.

Lemma marks_result_missing_witness :
  marks_result ["ART"%string] (scenario_row "MATHS" NaN (Some 30%Q) (Some 48%Q)) = FAIL.
Proof.
  apply (marks_result_missing ["ART"%string]). right. split; [compute_done|].
  right. split; [done|]. compute_done.
Defined.

Lemma marks_result_PASS_total_witness :
  TOTALMARKS (scenario_row "LAB" NaN (Some 0%Q) (Some 45%Q)) ≥ₙ 35.
Proof. by apply (marks_result_PASS_total [] (scenario_row "LAB" NaN (Some 0%Q) (Some 45%Q))). Defined.

Lemma consistent_total_redundant_witness :
  TOTALMARKS (scenario_row "MATHS" (Some 14%Q) (Some 21%Q) (Some 35%Q)) ≥ₙ 35.
Proof. apply consistent_total_redundant; by vm_compute. Defined.

(** Only the set of optional subjects matters: neither the order of the
    form values nor a repeated value changes a result. *)
Lemma marks_result_ext opt1 opt2 row :
  (∀ s, s ∈ opt1 ↔ s ∈ opt2) → marks_result opt1 row = marks_result opt2 row.
Proof.
  intros H. unfold marks_result. specialize (H (SUBJECT_NAME row)).
  repeat case_decide; tauto.
Qed.

#[export] Instance marks_result_Permutation :
  Proper ((≡ₚ) ==> (=) ==> (=)) marks_result.
Proof.
  intros opt1 opt2 Hp row ? <-. apply marks_result_ext.
  intros s. by rewrite Hp.
Qed.

(** The classified frame depends on the set of optional subjects only:
    two selections with the same members give the same frame. *)
Theorem classify_ext opt1 opt2 df :
  (∀ s, s ∈ opt1 ↔ s ∈ opt2) → classify opt1 df = classify opt2 df.
Proof.
  intros H. unfold classify. apply list_fmap_ext. intros _ row _.
  by rewrite (marks_result_ext opt1 opt2).
Qed.

Lemma classify_ext_witness :
  classify ["A"; "B"; "A"]%string [scenario_row "A" (Some 14%Q) (Some 21%Q) (Some 35%Q)] =
  classify ["B"; "A"]%string [scenario_row "A" (Some 14%Q) (Some 21%Q) (Some 35%Q)].
Proof.
  apply classify_ext. intros s. rewrite !elem_of_cons, !elem_of_nil. tauto.
Defined.


(** Declaring a subject optional can turn a PASS into a FAIL: a row at the
    regular thresholds, below 40, passes as a regular subject and fails as
    an optional one. *)
Theorem marks_result_optional_stricter :
  marks_result [] (scenario_row "MATHS" (Some 14%Q) (Some 21%Q) (Some 35%Q)) = PASS ∧
  marks_result ["MATHS"%string] (scenario_row "MATHS" (Some 14%Q) (Some 21%Q) (Some 35%Q)) = FAIL.
Proof. by vm_compute. Qed.


(** Outside the case of zero external marks the rule is monotone: more
    marks in every cell never turn a PASS into a FAIL. *)
Theorem marks_result_monotone opt r r' :
  marks_le r r' → ¬ EXTERNALMARKS r =ₙ 0 → ¬ EXTERNALMARKS r' =ₙ 0 →
  marks_result opt r = PASS → marks_result opt r' = PASS.
Proof.
  intros (Hs & Hi & He & Ht) He0 He0'.
  rewrite !marks_result_regular_or_optional by done. rewrite <- Hs.
  case_decide; repeat case_decide; try done; destruct_and?.
  - exfalso. eauto using num_ge_mono.
  - exfalso. match goal with H : ¬ _ |- _ => apply H end.
    split_and!; by eapply num_ge_mono.
Qed.

Lemma marks_result_monotone_witness :
  marks_result [] (scenario_row "MATHS" (Some 20%Q) (Some 30%Q) (Some 50%Q)) = PASS.
Proof.
  apply (marks_result_monotone [] (scenario_row "MATHS" (Some 14%Q) (Some 21%Q) (Some 35%Q)));
    [|by vm_compute..].
  repeat split; constructor; by vm_compute.
Defined.
