(* ===== verification/Aggregator.v ===== *)
(** * Student and subject metrics

    The two aggregation loops of [process] in [src/app1.py]: the loop over
    [df.groupby("HTNO")] (lines 121-164), which fills four accumulators
    ([student_metrics], [rank_list], [failure_map],
    [failed_subjects_by_student]), and the loop over
    [df.groupby("SUBJECT_NAME")] (lines 214-228).  Each loop is a left fold
    of its body over the groups; the body is one state-passing function.
    The theorems give the functional meaning of each accumulator (a map over
    the groups), the arithmetic of the counts, the bounds of SGPA and of the
    pass percentages, and tie the two groupings together. *)

From S2P Require Import Prelude Numeric Sorting Frame Classifier.

Local Open Scope Q_scope.

(** ** Definitions *)

Inductive Status : Set := DETAINED | PROMOTED.

#[export] Instance Status_eq_dec : EqDecision Status.
Proof. solve_decision. Defined.

(** An entry of [student_metrics]. *)
Record StudentMetric : Type := mkStudentMetric {
  sm_HTNO : RollNo;
  sm_Total : nat;
  sm_Passed : nat;
  sm_Failed : nat;
  sm_Pass_pct : num;
  sm_SGPA : Q;
  sm_CGPA : Q;
  sm_Status : Status
}.

(** An entry of [rank_list], before a rank is attached. *)
Record RankItem : Type := mkRankItem {
  ri_HTNO : RollNo;
  ri_SGPA : Q
}.

(** An entry of [failed_subjects_by_student]. *)
Record FailedSubjects : Type := mkFailedSubjects {
  fs_HTNO : RollNo;
  fs_Failed_Count : nat;
  fs_Failed_Subjects : string
}.

(** An entry of [subject_metrics]. *)
Record SubjectMetric : Type := mkSubjectMetric {
  sub_SNo : nat;
  sub_Subject : string;
  sub_Appeared : nat;
  sub_Passed : nat;
  sub_Failed : nat;
  sub_Pass_pct : Q
}.

(** The four accumulators of the student loop. *)
Record Accumulators : Type := mkAccumulators {
  student_metrics : list StudentMetric;
  rank_list : list RankItem;
  failure_map : list (RollNo * nat);
  failed_subjects_by_student : list FailedSubjects
}.

(** [d[k] = v] on a dict kept in insertion order: an existing key keeps
    its place and takes the new value, a new key goes last. *)
Fixpoint dict_set {K V} `{!EqDecision K} (d : list (K * V)) (k : K) (v : V) : list (K * V) :=
  match d with
  | [] => [(k, v)]
  | (k', v') :: d' => if decide (k' = k) then (k, v) :: d' else (k', v') :: dict_set d' k v
  end.

(** [sep.join(l)]. *)
Fixpoint join (sep : string) (l : list string) : string :=
  match l with
  | [] => ""
  | s :: l' => match l' with [] => s | _ :: _ => s +:+ sep +:+ join sep l' end
  end.

(** [(g["RESULT"] == "PASS").sum()]. *)
Definition passed_count (g : list CRow) : nat := count (λ r, RESULT r = PASS) g.

(** [g[g["RESULT"] == "PASS"]]. *)
Definition passed_rows (g : list CRow) : list CRow := filter (λ r, RESULT r = PASS) g.

(** The SGPA of one student's rows: lines 133-138. *)
Definition sgpa (g : list CRow) : Q :=
  let passed_g := passed_rows g in
  let total_credits := nansum ((λ r : CRow, CREDITS r) <$> passed_g) in
  if decide (0 < total_credits)
  then nansum ((λ r : CRow, num_mul (GRADE_POINTS r) (CREDITS r)) <$> passed_g) / total_credits
  else 0.

Definition status (failed : nat) : Status :=
  if decide (3 ≤ failed)%nat then DETAINED else PROMOTED.

(** [g[g["RESULT"] == "FAIL"]["SUBJECT_NAME"].tolist()]. *)
Definition failed_subjects (g : list CRow) : list string :=
  (λ r : CRow, SUBJECT_NAME r) <$> filter (λ r, RESULT r = FAIL) g.

(** The body of the student loop, lines 127-164. *)
Definition student_step (acc : Accumulators) (hg : RollNo * list CRow) : Accumulators :=
  let '(htno, g) := hg in
  let total := length g in
  let passed := passed_count g in
  let failed := (total - passed)%nat in
  let s := sgpa g in
  {| failure_map := dict_set (failure_map acc) htno failed;
     student_metrics := student_metrics acc ++
       [ {| sm_HTNO := htno; sm_Total := total; sm_Passed := passed;
            sm_Failed := failed;
            sm_Pass_pct := num_round2 ((λ q, q * 100) <$> np_div (Qnat passed) (Qnat total));
            sm_SGPA := round2 s; sm_CGPA := round2 s;
            sm_Status := status failed |} ];
     rank_list := rank_list acc ++ [ {| ri_HTNO := htno; ri_SGPA := round2 s |} ];
     failed_subjects_by_student :=
       let fs := failed_subjects g in
       if decide (fs = []) then failed_subjects_by_student acc
       else failed_subjects_by_student acc ++
         [ {| fs_HTNO := htno; fs_Failed_Count := length fs;
              fs_Failed_Subjects := join ", " fs |} ] |}.

Definition empty_accumulators : Accumulators :=
  {| student_metrics := []; rank_list := []; failure_map := [];
     failed_subjects_by_student := [] |}.

(** The student loop over [df.groupby("HTNO")]. *)
Definition student_loop (df : list CRow) : Accumulators :=
  foldl student_step empty_accumulators (groupby_HTNO df).

(** The body of the subject loop, lines 217-228. *)
Definition subject_step (acc : list SubjectMetric) (ig : nat * (string * list CRow)) :
    list SubjectMetric :=
  let '(idx, (subject, g)) := ig in
  let appeared := length g in
  let passed := passed_count g in
  let failed := (appeared - passed)%nat in
  acc ++ [ {| sub_SNo := idx; sub_Subject := subject; sub_Appeared := appeared;
              sub_Passed := passed; sub_Failed := failed;
              sub_Pass_pct := if decide (0 < appeared)%nat
                              then round2 (Qnat passed / Qnat appeared * 100)
                              else 0 |} ].

(** The subject loop over [enumerate(df.groupby("SUBJECT_NAME"), start=1)]. *)
Definition subject_metrics (df : list CRow) : list SubjectMetric :=
  foldl subject_step [] (enumerate 1 (groupby_SUBJECT_NAME df)).

(** The entry of [student_metrics] for one group, as a function of the
    group alone. *)
Definition student_metric_of (hg : RollNo * list CRow) : StudentMetric :=
  let '(htno, g) := hg in
  {| sm_HTNO := htno; sm_Total := length g; sm_Passed := passed_count g;
     sm_Failed := (length g - passed_count g)%nat;
     sm_Pass_pct := num_round2 ((λ q, q * 100) <$> np_div (Qnat (passed_count g)) (Qnat (length g)));
     sm_SGPA := round2 (sgpa g); sm_CGPA := round2 (sgpa g);
     sm_Status := status (length g - passed_count g) |}.

Definition rank_item_of (hg : RollNo * list CRow) : RankItem :=
  {| ri_HTNO := hg.1; ri_SGPA := round2 (sgpa hg.2) |}.

Definition failed_subjects_of (hg : RollNo * list CRow) : option FailedSubjects :=
  let fs := failed_subjects hg.2 in
  if decide (fs = []) then None
  else Some {| fs_HTNO := hg.1; fs_Failed_Count := length fs;
               fs_Failed_Subjects := join ", " fs |}.

(** A small frame used by the examples: two students, three subjects. *)
Definition sample_frame : list Row :=
  [ mkRow (Some (RollStr "S2")) "MATHS" (Some 20) (Some 50) (Some 70) (Some 9) (Some 4);
    mkRow (Some (RollStr "S1")) "MATHS" (Some 10) (Some 30) (Some 40) (Some 6) (Some 4);
    mkRow (Some (RollStr "S2")) "PHYSICS" (Some 18) (Some 40) (Some 58) (Some 8) (Some 3);
    mkRow (Some (RollStr "S1")) "PHYSICS" (Some 15) (Some 25) (Some 40) (Some 6) (Some 3);
    mkRow (Some (RollStr "S1")) "LAB" (Some 45) (Some 0) (Some 45) (Some 7) (Some 2);
    mkRow None "LAB" (Some 30) (Some 0) (Some 30) NaN (Some 2) ]%string.

(** A passed row whose grade points lie in [0, M] and whose credits are
    not negative (either may be missing). *)
Definition graded_within (M : Q) (r : CRow) : Prop :=
  num_within 0 M (GRADE_POINTS r) ∧
  match CREDITS r with Some c => 0 <= c | None => True end.

#[export] Instance graded_within_dec M r : Decision (graded_within M r).
Proof. unfold graded_within. destruct (CREDITS r); apply _. Defined.

(** The rows of one student with a negative credit, as a spreadsheet with
    a data-entry error has them. *)
Definition negative_credit_rows : list Row :=
  [ mkRow (Some (RollStr "S1")) "MATHS" (Some 20) (Some 50) (Some 70) (Some 10) (Some 5);
    mkRow (Some (RollStr "S1")) "PHYSICS" (Some 20) (Some 50) (Some 70) (Some 0) (Some (-4)) ]%string.

(** The rows of the SGPA scenario of the specification: two passed
    subjects, credits 4 and 3, grade points 9 and 8. *)
Definition scenario_rows : list Row :=
  [ mkRow (Some (RollStr "S1")) "MATHS" (Some 20) (Some 50) (Some 70) (Some 9) (Some 4);
    mkRow (Some (RollStr "S1")) "PHYSICS" (Some 20) (Some 50) (Some 70) (Some 8) (Some 3) ]%string.

(** A missing grade-point cell replaced by 0. *)
Definition gp_default_0 (r : CRow) : CRow :=
  mkCRow (mkRow (HTNO r) (SUBJECT_NAME r) (INTERNALMARKS r) (EXTERNALMARKS r)
                (TOTALMARKS r) (Some (default 0 (GRADE_POINTS r))) (CREDITS r))
         (RESULT r).

(** The accumulators as functions of the groups: what the loop is meant to
    compute. *)
Definition student_summary (gs : list (RollNo * list CRow)) : Accumulators :=
  {| student_metrics := student_metric_of <$> gs;
     rank_list := rank_item_of <$> gs;
     failure_map := (λ hg, (hg.1, length hg.2 - passed_count hg.2)%nat) <$> gs;
     failed_subjects_by_student := omap failed_subjects_of gs |}.

Definition subject_metric_of (ig : nat * (string * list CRow)) : SubjectMetric :=
  let '(idx, (subject, g)) := ig in
  {| sub_SNo := idx; sub_Subject := subject; sub_Appeared := length g;
     sub_Passed := passed_count g; sub_Failed := (length g - passed_count g)%nat;
     sub_Pass_pct := if decide (0 < length g)%nat
                     then round2 (Qnat (passed_count g) / Qnat (length g) * 100)
                     else 0 |}.

(** Component-wise concatenation of accumulators. *)
Definition acc_app (a b : Accumulators) : Accumulators :=
  {| student_metrics := student_metrics a ++ student_metrics b;
     rank_list := rank_list a ++ rank_list b;
     failure_map := failure_map a ++ failure_map b;
     failed_subjects_by_student :=
       failed_subjects_by_student a ++ failed_subjects_by_student b |}.

(** What every entry of [student_metrics] satisfies. *)
Definition StudentMetric_wf (m : StudentMetric) : Prop :=
  (sm_Passed m + sm_Failed m = sm_Total m)%nat ∧
  (0 < sm_Total m)%nat ∧
  sm_CGPA m = sm_SGPA m ∧
  (sm_Status m = DETAINED ↔ (3 ≤ sm_Failed m)%nat) ∧
  ∃ p, sm_Pass_pct m = Some p ∧ 0 <= p ∧ p <= 100.

(** What every entry of [subject_metrics] satisfies. *)
Definition SubjectMetric_wf (m : SubjectMetric) : Prop :=
  (sub_Passed m + sub_Failed m = sub_Appeared m)%nat ∧
  (0 < sub_Appeared m)%nat ∧
  0 <= sub_Pass_pct m ∧ sub_Pass_pct m <= 100.

(** ** Lemmas *)

(** *** Dictionaries and joins *)

Lemma dict_set_fresh {K V} `{!EqDecision K} (d : list (K * V)) k v :
  k ∉ d.*1 → dict_set d k v = d ++ [(k, v)].
Proof.
  induction d as [|[k' v'] d IH]; [done|]. simpl.
  intros [Hne Hin]%not_elem_of_cons. by rewrite decide_False, IH.
Qed.

Lemma dict_set_keys {K V} `{!EqDecision K} (d : list (K * V)) k v :
  k ∈ d.*1 → (dict_set d k v).*1 = d.*1.
Proof.
  induction d as [|[k' v'] d IH]; [by intros ?%elem_of_nil|]. simpl.
  intros [->|Hin]%elem_of_cons; [by rewrite decide_True|].
  case_decide; simplify_eq/=; [done|]. by rewrite IH.
Qed.

Lemma dict_set_lookup {K V} `{!EqDecision K} (d : list (K * V)) k v :
  NoDup d.*1 → (k, v) ∈ dict_set d k v ∧ ∀ v', (k, v') ∈ dict_set d k v → v' = v.
Proof.
  induction d as [|[k' v'] d IH]; simpl.
  - intros _. split; [left|]. by intros v' [[= ->]|?%elem_of_nil]%elem_of_cons.
  - intros [Hk' Hd]%NoDup_cons. case_decide as Hk; simplify_eq/=.
    + split; [left|]. intros v'' [[= ->]|Hin]%elem_of_cons; [done|].
      destruct Hk'. apply list_elem_of_fmap. by exists (k, v'').
    + destruct (IH Hd) as [H1 H2]. split; [by right|].
      intros v'' [[= -> ->]|Hin]%elem_of_cons; [done|by apply H2].
Qed.

(** A loop that stores one value under a new key per iteration appends
    the pairs in iteration order. *)
Lemma foldl_dict_set_fresh {A K V} `{!EqDecision K} (k : A → K) (v : A → V)
    (l : list A) (d : list (K * V)) :
  NoDup (d.*1 ++ (k <$> l)) →
  foldl (λ d x, dict_set d (k x) (v x)) d l = d ++ ((λ x, (k x, v x)) <$> l).
Proof.
  revert d. induction l as [|x l IH]; intros d Hn; simpl.
  - by rewrite app_nil_r.
  - rewrite fmap_cons in Hn.
    assert (k x ∉ d.*1) as Hfresh.
    { apply NoDup_app in Hn as (_ & Hdisj & _). intros Hin.
      apply (Hdisj _ Hin). left. }
    rewrite dict_set_fresh by done. rewrite IH; [by rewrite <- app_assoc|].
    rewrite fmap_app. simpl. by rewrite <- app_assoc.
Qed.

Lemma join_singleton sep s : join sep [s] = s.
Proof. done. Qed.

Lemma join_cons sep s s' l : join sep (s :: s' :: l) = s +:+ sep +:+ join sep (s' :: l).
Proof. done. Qed.

(** *** Counts *)

Section counts.
Implicit Types (g : list CRow) (r : CRow).

Lemma passed_count_le g : (passed_count g ≤ length g)%nat.
Proof. apply count_le_length. Qed.

Lemma length_passed_rows g : length (passed_rows g) = passed_count g.
Proof. done. Qed.

Lemma not_PASS r : RESULT r ≠ PASS ↔ RESULT r = FAIL.
Proof. by destruct (RESULT r). Qed.

(** [total - passed] is the number of FAIL rows. *)
Lemma failed_count g : (length g - passed_count g)%nat = count (λ r, RESULT r = FAIL) g.
Proof.
  pose proof (count_complement (λ r, RESULT r = PASS) g) as H.
  rewrite (count_ext (λ r, RESULT r ≠ PASS) (λ r, RESULT r = FAIL)) in H
    by (intros; apply not_PASS).
  unfold passed_count. lia.
Qed.

Lemma passed_plus_failed g :
  (passed_count g + (length g - passed_count g))%nat = length g.
Proof. pose proof (passed_count_le g). lia. Qed.

Lemma length_failed_subjects g :
  length (failed_subjects g) = (length g - passed_count g)%nat.
Proof. unfold failed_subjects. by rewrite length_fmap, failed_count. Qed.

Lemma failed_subjects_nil g : failed_subjects g = [] ↔ passed_count g = length g.
Proof.
  rewrite <- length_zero_iff_nil, length_failed_subjects.
  pose proof (passed_count_le g). lia.
Qed.

End counts.

(** *** SGPA *)

Section sgpa.
Implicit Types (g : list CRow) (r : CRow).

Lemma passed_rows_idemp g : passed_rows (passed_rows g) = passed_rows g.
Proof. unfold passed_rows. by rewrite list_filter_filter_l. Qed.

(** Only the passed rows count for the SGPA. *)
Lemma sgpa_passed_rows g : sgpa (passed_rows g) = sgpa g.
Proof. unfold sgpa. by rewrite passed_rows_idemp. Qed.

(** The SGPA is 0 when the student has passed nothing, and when the
    credits of the passed subjects do not add up to a positive number. *)
Theorem sgpa_zero g :
  passed_count g = 0%nat ∨ nansum ((λ r : CRow, CREDITS r) <$> passed_rows g) <= 0 →
  sgpa g = 0.
Proof.
  intros [H|H]; unfold sgpa.
  - assert (passed_rows g = []) as -> by by apply length_zero_iff_nil.
    done.
  - rewrite decide_False; [done|lra].
Qed.

Lemma sgpa_weighted_nonneg M (rows : list CRow) :
  Forall (graded_within M) rows →
  0 <= nansum ((λ r : CRow, num_mul (GRADE_POINTS r) (CREDITS r)) <$> rows).
Proof.
  intros H. apply nansum_ge_0, Forall_fmap. eapply Forall_impl; [exact H|].
  intros r [Hgp Hc] q. simpl. destruct (GRADE_POINTS r), (CREDITS r); simpl in *; try done.
  intros [= <-]. apply Qmult_le_0_compat; tauto.
Qed.

Lemma sgpa_weighted_le M (rows : list CRow) :
  0 <= M → Forall (graded_within M) rows →
  nansum ((λ r : CRow, num_mul (GRADE_POINTS r) (CREDITS r)) <$> rows) <=
  M * nansum ((λ r : CRow, CREDITS r) <$> rows).
Proof.
  intros HM H. rewrite <- nansum_scale. apply nansum_le.
  eapply Forall_impl; [exact H|]. intros r [Hgp Hc].
  destruct (GRADE_POINTS r), (CREDITS r); simpl in *; try done.
  - apply Qmult_le_compat_r; tauto.
  - by apply Qmult_le_0_compat.
Qed.

End sgpa.

(** *** The student loop *)

Section student_loop.
Implicit Types (g : list CRow) (gs : list (RollNo * list CRow)) (acc : Accumulators).

Lemma acc_app_assoc a b c : acc_app (acc_app a b) c = acc_app a (acc_app b c).
Proof. unfold acc_app. simpl. by rewrite <- !app_assoc. Qed.

Lemma acc_app_empty_l a : acc_app empty_accumulators a = a.
Proof. by destruct a. Qed.

Lemma student_summary_cons hg gs :
  student_summary (hg :: gs) = acc_app (student_summary [hg]) (student_summary gs).
Proof.
  unfold student_summary, acc_app. simpl. f_equal.
  unfold failed_subjects_of. by case_decide.
Qed.

(** One iteration on a roll number that the dict does not have yet appends
    to each accumulator. *)
Lemma student_step_fresh acc hg :
  hg.1 ∉ (failure_map acc).*1 →
  student_step acc hg = acc_app acc (student_summary [hg]).
Proof.
  destruct hg as [h g]. intros Hh. unfold student_step, acc_app, student_summary.
  simpl. rewrite dict_set_fresh by done. f_equal.
  unfold failed_subjects_of. simpl. case_decide; [by rewrite app_nil_r|done].
Qed.

Lemma student_fold gs acc :
  NoDup ((failure_map acc).*1 ++ gs.*1) →
  foldl student_step acc gs = acc_app acc (student_summary gs).
Proof.
  revert acc. induction gs as [|hg gs IH]; intros acc Hn.
  - destruct acc. unfold acc_app. simpl. by rewrite !app_nil_r.
  - simpl in *. apply NoDup_app in Hn as (Hacc & Hdisj & [Hhg Hgs]%NoDup_cons).
    assert (hg.1 ∉ (failure_map acc).*1) as Hfresh.
    { intros Hin. apply (Hdisj _ Hin). left. }
    rewrite student_step_fresh by done.
    rewrite IH, acc_app_assoc, <- student_summary_cons; [done|].
    simpl. rewrite fmap_app. simpl. rewrite <- app_assoc. simpl.
    apply NoDup_app. split_and!; [done| |by constructor].
    intros k Hk [->|Hk']%elem_of_cons; [done|]. apply (Hdisj _ Hk). by right.
Qed.

(** The loop computes the summary of the groups: each accumulator is the
    image of the group list. *)
Lemma student_loop_summary (df : list CRow) :
  student_loop df = student_summary (groupby_HTNO df).
Proof.
  unfold student_loop. rewrite student_fold, acc_app_empty_l; [done|].
  simpl. apply groupby_NoDup.
Qed.

End student_loop.

(** *** The subject loop *)

Lemma subject_step_snoc acc ig : subject_step acc ig = acc ++ [subject_metric_of ig].
Proof. by destruct ig as [idx [subject g]]. Qed.

Lemma subject_metrics_summary (df : list CRow) :
  subject_metrics df = subject_metric_of <$> enumerate 1 (groupby_SUBJECT_NAME df).
Proof.
  unfold subject_metrics.
  rewrite (foldl_ext_in _ (λ acc ig, acc ++ [subject_metric_of ig]))
    by (intros; apply subject_step_snoc).
  by rewrite foldl_snoc_fmap.
Qed.

Lemma subject_metric_of_wf idx s g : g ≠ [] → SubjectMetric_wf (subject_metric_of (idx, (s, g))).
Proof.
  intros Hg. assert (0 < length g)%nat as Hlen by (destruct g; [done|simpl; lia]).
  pose proof (passed_count_le g) as Hle.
  unfold SubjectMetric_wf. simpl. split_and!; [lia|done|..];
    rewrite decide_True by done; destruct (percent_within _ _ Hle Hlen);
    by apply (round2_within 0 100).
Qed.

(** *** The accumulators after the loops *)

Section fields.
Implicit Types (gs : list (RollNo * list CRow)).

Lemma fmap_sm_HTNO gs : sm_HTNO <$> (student_metric_of <$> gs) = gs.*1.
Proof. rewrite <- list_fmap_compose. apply list_fmap_ext. by intros ? [] ?. Qed.

Lemma fmap_sm_Total gs : sm_Total <$> (student_metric_of <$> gs) = length <$> gs.*2.
Proof. rewrite <- !list_fmap_compose. apply list_fmap_ext. by intros ? [] ?. Qed.

Lemma fmap_sm_Passed gs :
  sm_Passed <$> (student_metric_of <$> gs) = passed_count <$> gs.*2.
Proof. rewrite <- !list_fmap_compose. apply list_fmap_ext. by intros ? [] ?. Qed.

Lemma fmap_sub_Appeared s (gs : list (string * list CRow)) :
  sub_Appeared <$> (subject_metric_of <$> enumerate s gs) = length <$> gs.*2.
Proof.
  revert s. induction gs as [|[k g] gs IH]; intros s; [done|].
  rewrite enumerate_cons, !fmap_cons. simpl. by rewrite IH.
Qed.

Lemma fmap_sub_Passed s (gs : list (string * list CRow)) :
  sub_Passed <$> (subject_metric_of <$> enumerate s gs) = passed_count <$> gs.*2.
Proof.
  revert s. induction gs as [|[k g] gs IH]; intros s; [done|].
  rewrite enumerate_cons, !fmap_cons. simpl. by rewrite IH.
Qed.

Lemma fmap_sub_SNo s (gs : list (string * list CRow)) :
  sub_SNo <$> (subject_metric_of <$> enumerate s gs) = seq s (length gs).
Proof.
  revert s. induction gs as [|[k g] gs IH]; intros s; [done|].
  rewrite enumerate_cons, !fmap_cons. simpl. by rewrite IH.
Qed.

Lemma fmap_sub_Subject s (gs : list (string * list CRow)) :
  sub_Subject <$> (subject_metric_of <$> enumerate s gs) = gs.*1.
Proof.
  revert s. induction gs as [|[k g] gs IH]; intros s; [done|].
  rewrite enumerate_cons, !fmap_cons. simpl. by rewrite IH.
Qed.

End fields.

Section results.
Context (df : list CRow).

Lemma failed_subjects_by_student_eq :
  (λ f, (fs_HTNO f, fs_Failed_Count f)) <$> failed_subjects_by_student (student_loop df) =
  filter (λ kv, 0 < kv.2)%nat (failure_map (student_loop df)).
Proof.
  rewrite student_loop_summary. simpl.
  induction (groupby_HTNO df) as [|[h g] gs IH]; [done|].
  rewrite fmap_cons, filter_cons. cbn [omap list_omap].
  unfold failed_subjects_of at 1. cbn [fst snd].
  pose proof (length_failed_subjects g) as Hlen.
  case_decide as Hnil.
  - rewrite Hnil in Hlen. simpl in Hlen. rewrite decide_False by lia. exact IH.
  - rewrite decide_True by (destruct (failed_subjects g); [done|simpl in *; lia]).
    rewrite fmap_cons, IH. simpl. by rewrite Hlen.
Qed.

(** C7: The four accumulators of the student loop agree with one another:
    [rank_list] holds the rounded SGPA and [failure_map] the failed count
    of each entry of [student_metrics], in the same order, and
    [failed_subjects_by_student] has one entry, with that failed count,
    for each student who failed a subject. *)
Theorem student_loop_accumulators :
  rank_list (student_loop df) =
    (λ m, mkRankItem (sm_HTNO m) (sm_SGPA m)) <$> student_metrics (student_loop df) ∧
  failure_map (student_loop df) =
    (λ m, (sm_HTNO m, sm_Failed m)) <$> student_metrics (student_loop df) ∧
  (λ f, (fs_HTNO f, fs_Failed_Count f)) <$> failed_subjects_by_student (student_loop df) =
    filter (λ kv, 0 < kv.2)%nat
      ((λ m, (sm_HTNO m, sm_Failed m)) <$> student_metrics (student_loop df)).
Proof.
  assert (failure_map (student_loop df) =
    (λ m, (sm_HTNO m, sm_Failed m)) <$> student_metrics (student_loop df)) as Hfm.
  { rewrite student_loop_summary. simpl. rewrite <- list_fmap_compose.
    apply list_fmap_ext. by intros ? [] ?. }
  split_and!; [|done|by rewrite <- Hfm, failed_subjects_by_student_eq].
  rewrite student_loop_summary. simpl. rewrite <- list_fmap_compose.
  apply list_fmap_ext. by intros ? [] ?.
Qed.

(** C2: Every entry of [student_metrics] is well formed: the counts add up, no
    student has zero rows (so the unguarded division of line 147 never
    divides by zero), CGPA repeats SGPA, the status follows the failed
    count, and the pass percentage is a number between 0 and 100. *)
Theorem student_metrics_wf : Forall StudentMetric_wf (student_metrics (student_loop df)).
Proof.
  rewrite student_loop_summary. simpl. apply Forall_fmap, Forall_forall.
  intros [h g] Hg%groupby_nonempty.
  assert (0 < length g)%nat as Hlen by (destruct g; [done|simpl; lia]).
  pose proof (passed_count_le g) as Hle.
  unfold StudentMetric_wf. simpl. split_and!; [lia|done|done| |].
  - unfold status. case_decide; split; (done || lia).
  - rewrite np_div_Some by (pose proof (Qnat_pos _ Hlen); lra). simpl.
    eexists. split; [done|].
    destruct (percent_within _ _ Hle Hlen). by apply (round2_within 0 100).
Qed.

(** The students of [student_metrics] are the distinct roll numbers of the
    frame. *)
Lemma student_metrics_HTNO :
  sm_HTNO <$> student_metrics (student_loop df) =
  group_keys RollNo_le (λ r : CRow, HTNO r) df.
Proof.
  rewrite student_loop_summary. simpl. rewrite fmap_sm_HTNO. apply groupby_keys.
Qed.

(** [student_metrics] lists the students in strictly ascending order of
    roll number: no student appears twice. *)
Theorem student_metrics_sorted :
  StronglySorted (strict RollNo_le) (sm_HTNO <$> student_metrics (student_loop df)).
Proof. rewrite student_metrics_HTNO. apply sorted_keys_strict; apply _. Qed.


(** The [Passed] column of [student_metrics] adds up to the number of PASS
    rows that carry a roll number. *)
Lemma student_passed_total :
  sum_list (sm_Passed <$> student_metrics (student_loop df)) =
  passed_count (keyed (λ r : CRow, HTNO r) df).
Proof.
  rewrite student_loop_summary. simpl. rewrite fmap_sm_Passed. apply groupby_count.
Qed.

Lemma rank_list_HTNO :
  ri_HTNO <$> rank_list (student_loop df) =
  group_keys RollNo_le (λ r : CRow, HTNO r) df.
Proof.
  rewrite student_loop_summary. simpl. rewrite <- list_fmap_compose.
  etrans; [|apply (groupby_keys RollNo_le (λ r : CRow, HTNO r) df)].
  by apply list_fmap_ext.
Qed.

(** C3: The rounded SGPA of every student lies between 0 and the largest
    grade point [M], when the grade points of the passed rows do and no
    passed row has a negative credit. *)
Theorem student_SGPA_within (M : Z) :
  Forall (λ r, RESULT r = PASS → graded_within (inject_Z M) r) df →
  (0 <= M)%Z →
  Forall (λ m, 0 <= sm_SGPA m ∧ sm_SGPA m <= inject_Z M) (student_metrics (student_loop df)).
Proof.
  intros Hdf HM. rewrite student_loop_summary. simpl.
  apply Forall_fmap, Forall_forall. intros [h g] Hin. simpl.
  assert (0 <= inject_Z M) as HM' by (change 0 with (inject_Z 0); by rewrite <- Zle_Qle).
  assert (Forall (graded_within (inject_Z M)) (passed_rows g)) as Hg.
  { apply Forall_forall. intros r [Hr Hg]%list_elem_of_filter.
    eapply Forall_forall in Hdf; [by apply Hdf|]. by eapply groupby_elem_of. }
  assert (0 <= sgpa g ∧ sgpa g <= inject_Z M) as [Hl Hu];
    [|by apply (round2_within 0 M)].
  unfold sgpa. case_decide as Hc; [|lra]. split.
  - apply Qdiv_le_lower; [done|]. by eapply sgpa_weighted_nonneg.
  - apply Qdiv_le_upper; [done|]. by apply sgpa_weighted_le.
Qed.

(** C10: Every entry of [subject_metrics] is well formed: the counts add up,
    every subject has at least one row (the [else 0] of line 227 is never
    taken), and the pass percentage lies between 0 and 100. *)
Theorem subject_metrics_wf : Forall SubjectMetric_wf (subject_metrics df).
Proof.
  rewrite subject_metrics_summary. apply Forall_fmap, Forall_forall.
  intros [idx [s g]] Hin. apply subject_metric_of_wf.
  apply (groupby_nonempty String.le (λ r : CRow, Some (SUBJECT_NAME r)) s g df).
  apply (list_elem_of_fmap_2 snd) in Hin. by rewrite snd_enumerate in Hin.
Qed.

(** The serial numbers of [subject_metrics] are 1, 2, ..., one per
    distinct subject. *)
Theorem subject_metrics_SNo :
  sub_SNo <$> subject_metrics df =
  seq 1 (length (group_keys String.le (λ r : CRow, Some (SUBJECT_NAME r)) df)).
Proof.
  rewrite subject_metrics_summary, fmap_sub_SNo. f_equal. apply length_groupby.
Qed.

(** The subjects of [subject_metrics] ascend strictly: each subject has
    one entry. *)
Theorem subject_metrics_sorted :
  StronglySorted (strict String.le) (sub_Subject <$> subject_metrics df).
Proof.
  rewrite subject_metrics_summary, fmap_sub_Subject. apply groupby_sorted; apply _.
Qed.

(** The [Appeared] column of [subject_metrics] adds up to the number of
    rows of the frame: no row is lost by the grouping by subject. *)
Theorem subject_appeared_total :
  sum_list (sub_Appeared <$> subject_metrics df) = length df.
Proof.
  rewrite subject_metrics_summary, fmap_sub_Appeared.
  unfold groupby_SUBJECT_NAME. by rewrite groupby_lengths, keyed_SUBJECT_NAME.
Qed.

(** The [Passed] column of [subject_metrics] adds up to the number of PASS
    rows of the frame. *)
Lemma subject_passed_total :
  sum_list (sub_Passed <$> subject_metrics df) = passed_count df.
Proof.
  rewrite subject_metrics_summary, fmap_sub_Passed.
  unfold groupby_SUBJECT_NAME, passed_count.
  by rewrite groupby_count, keyed_SUBJECT_NAME.
Qed.

(** C17: When every row carries a roll number, the students and the subjects
    account for the same number of passes. *)
Theorem passed_cross_check :
  Forall (λ r : CRow, is_Some (HTNO r)) df →
  sum_list (sm_Passed <$> student_metrics (student_loop df)) =
  sum_list (sub_Passed <$> subject_metrics df).
Proof.
  intros Hall. rewrite student_passed_total, subject_passed_total.
  unfold keyed. f_equal. induction Hall as [|r rows Hr _ IH]; [done|].
  by rewrite filter_cons_True, IH.
Qed.

End results.

(** *** Witnesses and scenarios *)

Lemma sgpa_zero_witness :
  sgpa (classify [] [scenario_row "MATHS" (Some 1) (Some 2) (Some 3)]) = 0.
Proof. apply sgpa_zero. left. by vm_compute. Defined.

Lemma student_SGPA_within_witness :
  Forall (λ m, 0 <= sm_SGPA m ∧ sm_SGPA m <= inject_Z 10)
    (student_metrics (student_loop (classify [] sample_frame))).
Proof. apply student_SGPA_within; [|done]. compute_done. Defined.

Lemma passed_cross_check_witness :
  sum_list (sm_Passed <$> student_metrics (student_loop (classify [] (take 5 sample_frame)))) =
  sum_list (sub_Passed <$> subject_metrics (classify [] (take 5 sample_frame))).
Proof. apply passed_cross_check. compute_done. Defined.

(** The SGPA scenario of the specification: grade points 9 and 8 on
    credits 4 and 3 give (4*9 + 3*8) / 7, shown as 8.57. *)
Theorem sgpa_scenario :
  sgpa (classify [] scenario_rows) == 60 # 7 ∧
  sm_SGPA <$> student_metrics (student_loop (classify [] scenario_rows)) = [857 # 100].
Proof. by vm_compute. Qed.

(** The bound on the SGPA needs the credits to be non-negative: with a
    credit of -4 on a passed subject, grade points that are all between 0
    and 10 give an SGPA of 50. *)
Theorem sgpa_negative_credit :
  Forall (λ r : CRow, RESULT r = PASS ∧ num_within 0 10 (GRADE_POINTS r))
         (classify [] negative_credit_rows) ∧
  sgpa (classify [] negative_credit_rows) == 50.
Proof. split; [compute_done|by vm_compute]. Qed.

(** *** Missing grade points *)

Lemma passed_rows_gp_default_0 g :
  passed_rows (gp_default_0 <$> g) = gp_default_0 <$> passed_rows g.
Proof.
  unfold passed_rows. induction g as [|r g IH]; [done|].
  rewrite fmap_cons, !filter_cons. simpl. case_decide; by rewrite IH.
Qed.

(** A missing grade point counts as 0: filling the empty grade-point
    cells with 0 leaves every SGPA as it is. *)
Lemma sgpa_gp_default_0 g : sgpa (gp_default_0 <$> g) == sgpa g.
Proof.
  unfold sgpa. rewrite passed_rows_gp_default_0, <- !list_fmap_compose.
  assert (nansum ((λ r : CRow, num_mul (GRADE_POINTS r) (CREDITS r)) ∘ gp_default_0
                    <$> passed_rows g) ==
          nansum ((λ r : CRow, num_mul (GRADE_POINTS r) (CREDITS r)) <$> passed_rows g)) as Hn.
  { induction (passed_rows g) as [|r rows IH]; [done|].
    rewrite !fmap_cons. simpl.
    destruct (GRADE_POINTS r), (CREDITS r); simpl; rewrite IH; lra. }
  change ((λ r : CRow, CREDITS r) ∘ gp_default_0) with (λ r : CRow, CREDITS r).
  case_decide; [by rewrite Hn|done].
Qed.
