(* ===== verification/Histogram.v ===== *)
(** * The failure distribution

    Lines 169-176 of [src/app1.py]: the students are bucketed by their
    number of failed subjects, one bucket for each count from 0 to the
    largest count of the frame, empty buckets included.  The input is the
    [failure_map] dict that the student loop has filled. *)

From S2P Require Import Prelude Numeric Sorting Frame Classifier Aggregator.

(** ** Definitions *)

(** An entry of [failure_distribution]. *)
Record Bucket : Type := mkBucket {
  b_Category : string;
  b_Students : nat
}.

(** ["All Subjects Passed" if i == 0 else f"{i} Subject(s) Failed"]. *)
Definition category (i : nat) : string :=
  if decide (i = 0) then "All Subjects Passed"
  else pretty i +:+ " Subject(s) Failed".

(** [max(failure_map.values()) if failure_map else 0]. *)
Definition max_fail (failure_map : list (RollNo * nat)) : nat :=
  if decide (failure_map = []) then 0 else max_list failure_map.*2.

(** [sum(1 for v in failure_map.values() if v == i)]. *)
Definition students_with (failure_map : list (RollNo * nat)) (i : nat) : nat :=
  count (λ v, v = i) failure_map.*2.

(** The body of the loop over [range(max_fail + 1)]. *)
Definition bucket_step (failure_map : list (RollNo * nat))
    (acc : list Bucket) (i : nat) : list Bucket :=
  acc ++ [ {| b_Category := category i; b_Students := students_with failure_map i |} ].

Definition failure_distribution (failure_map : list (RollNo * nat)) : list Bucket :=
  foldl (bucket_step failure_map) [] (seq 0 (max_fail failure_map + 1)).

(** ** Lemmas *)

Section histogram_loop.
Context (fm : list (RollNo * nat)).

Lemma max_fail_ge : Forall (λ v, v ≤ max_fail fm) fm.*2.
Proof.
  unfold max_fail. case_decide as Hnil; [by rewrite Hnil|].
  apply Forall_forall. intros v Hv. by apply max_list_elem_of_le.
Qed.

Lemma max_fail_elem : fm ≠ [] → max_fail fm ∈ fm.*2.
Proof.
  intros Hnil. unfold max_fail. rewrite decide_False by done.
  apply max_list_elem_of. by destruct fm.
Qed.

Lemma bucket_loop_fmap (l : list nat) :
  foldl (bucket_step fm) [] l =
  (λ i, mkBucket (category i) (students_with fm i)) <$> l.
Proof. unfold bucket_step. by rewrite foldl_snoc_fmap. Qed.

End histogram_loop.

(** C6: The buckets of a frame account for each of its students once: the
    counts add up to the number of students of [student_metrics]. *)
Theorem failure_distribution_students (df : list CRow) :
  sum_list (b_Students <$> failure_distribution (failure_map (student_loop df))) =
  length (student_metrics (student_loop df)).
Proof.
  transitivity (length (failure_map (student_loop df))).
  - unfold failure_distribution.
    rewrite bucket_loop_fmap, <- list_fmap_compose, Nat.add_1_r.
    unfold students_with. rewrite <- (length_fmap snd).
    apply sum_count_buckets, max_fail_ge.
  - rewrite student_loop_summary. simpl. by rewrite !length_fmap.
Qed.

Section histogram.
Context (fm : list (RollNo * nat)).

Lemma failure_distribution_fmap :
  failure_distribution fm =
  (λ i, mkBucket (category i) (students_with fm i)) <$> seq 0 (max_fail fm + 1).
Proof. apply bucket_loop_fmap. Qed.

Lemma length_failure_distribution :
  length (failure_distribution fm) = max_fail fm + 1.
Proof. by rewrite failure_distribution_fmap, length_fmap, length_seq. Qed.

Lemma students_with_max_fail : fm ≠ [] → 0 < students_with fm (max_fail fm).
Proof.
  intros Hnil. unfold students_with, count.
  destruct (filter _ _) eqn:Hf; [|simpl; lia].
  assert (max_fail fm ∈ filter (λ v, v = max_fail fm) fm.*2) as Hin
    by (apply list_elem_of_filter; split; [done|by apply max_fail_elem]).
  rewrite Hf in Hin. by apply elem_of_nil in Hin.
Qed.


(** The last bucket is never empty when there is a student: the loop
    stops at a count that some student has. *)
Theorem failure_distribution_last :
  fm ≠ [] →
  ∃ b, last (failure_distribution fm) = Some b ∧ 0 < b_Students b.
Proof.
  intros Hnil. exists (mkBucket (category (max_fail fm)) (students_with fm (max_fail fm))).
  split; [|by apply students_with_max_fail].
  rewrite last_lookup, length_failure_distribution, Nat.add_1_r. simpl.
  rewrite failure_distribution_fmap, list_lookup_fmap.
  by rewrite lookup_seq_lt by lia.
Qed.

End histogram.

Lemma failure_distribution_last_witness :
  ∃ b, last (failure_distribution [(RollStr "S1", 1); (RollStr "S2", 0)]) = Some b ∧
       0 < b_Students b.
Proof. by apply failure_distribution_last. Defined.

(** With no student at all the distribution still has the bucket of
    count 0, and it is empty. *)
Lemma failure_distribution_empty :
  failure_distribution [] = [mkBucket "All Subjects Passed" 0].
Proof. done. Qed.
