(* ===== verification/Ranker.v ===== *)
(** * Rankings

    The two rankings of [process] in [src/app1.py]: the per-subject top 5
    by total marks (lines 181-198) and the overall top 5 by SGPA (lines
    203-208).  Both sort with [Sorting.stable_sort]: Python's [list.sort] is
    stable, and pandas' [sort_values] places NaN last and, on the frames of
    at most sixteen rows that numpy sorts by insertion, keeps ties in frame
    order.  The theorems that do not mention ties (length, ranks, order,
    cut-off) hold for any sorting routine that returns a sorted
    permutation. *)

From S2P Require Import Prelude Numeric Sorting Frame Classifier Aggregator.

Local Open Scope Q_scope.

(** ** Definitions *)

(** An entry of [top5_rank_list]: a [rank_list] dict with its [Rank]. *)
Record RankEntry : Type := mkRankEntry {
  re_HTNO : RollNo;
  re_SGPA : Q;
  re_Rank : nat
}.

(** An entry of a subject's [ranked_list]. *)
Record SubjectRank : Type := mkSubjectRank {
  sr_Rank : nat;
  sr_HTNO : option RollNo;
  sr_TOTALMARKS : num
}.

(** [key=lambda x: x["SGPA"], reverse=True]: the larger SGPA first. *)
Definition sgpa_desc : relation RankItem := λ x y, ri_SGPA y <= ri_SGPA x.

#[export] Instance sgpa_desc_dec : RelDecision sgpa_desc.
Proof. intros x y. unfold sgpa_desc. apply _. Defined.

(** Descending order of cells with NaN last ([na_position="last"]). *)
Definition num_desc : relation num := λ a b,
  match a, b with
  | _, None => True
  | None, Some _ => False
  | Some x, Some y => y <= x
  end.

#[export] Instance num_desc_dec : RelDecision num_desc.
Proof. intros [x|] [y|]; simpl; apply _. Defined.

(** [sort_values("TOTALMARKS", ascending=False)]. *)
Definition marks_desc : relation CRow := λ x y, num_desc (TOTALMARKS x) (TOTALMARKS y).

#[export] Instance marks_desc_dec : RelDecision marks_desc.
Proof. intros x y. unfold marks_desc. apply _. Defined.

(** [rank_list.sort(key=lambda x: x["SGPA"], reverse=True)]. *)
Definition sort_rank_list (rank_list : list RankItem) : list RankItem :=
  stable_sort sgpa_desc rank_list.

(** The body of the loop of lines 206-208. *)
Definition rank_step (acc : list RankEntry) (ir : nat * RankItem) : list RankEntry :=
  let '(i, r) := ir in
  acc ++ [ {| re_HTNO := ri_HTNO r; re_SGPA := ri_SGPA r; re_Rank := i |} ].

Definition top5_rank_list (rank_list : list RankItem) : list RankEntry :=
  foldl rank_step [] (enumerate 1 (take 5 (sort_rank_list rank_list))).

(** [g.sort_values("TOTALMARKS", ascending=False).head(5).reset_index(drop=True)]. *)
Definition ranked (g : list CRow) : list CRow := take 5 (stable_sort marks_desc g).

(** The body of the loop of lines 191-196; [i] is the new index, from 0. *)
Definition ranked_step (acc : list SubjectRank) (ir : nat * CRow) : list SubjectRank :=
  let '(i, row) := ir in
  acc ++ [ {| sr_Rank := i + 1; sr_HTNO := HTNO row; sr_TOTALMARKS := TOTALMARKS row |} ].

Definition ranked_list (g : list CRow) : list SubjectRank :=
  foldl ranked_step [] (enumerate 0 (ranked g)).

(** The body of the loop of lines 183-198. *)
Definition subject_top5_step (acc : list (string * list SubjectRank))
    (sg : string * list CRow) : list (string * list SubjectRank) :=
  dict_set acc sg.1 (ranked_list sg.2).

Definition subject_wise_top5 (df : list CRow) : list (string * list SubjectRank) :=
  foldl subject_top5_step [] (groupby_SUBJECT_NAME df).

(** The [rank_list] dict under an entry of [top5_rank_list]. *)
Definition item_of (e : RankEntry) : RankItem := mkRankItem (re_HTNO e) (re_SGPA e).

Definition rank_entry_of (ir : nat * RankItem) : RankEntry :=
  {| re_HTNO := ri_HTNO ir.2; re_SGPA := ri_SGPA ir.2; re_Rank := ir.1 |}.

Definition subject_rank_of (ir : nat * CRow) : SubjectRank :=
  {| sr_Rank := ir.1 + 1; sr_HTNO := HTNO ir.2; sr_TOTALMARKS := TOTALMARKS ir.2 |}.

(** Roll numbers in strictly ascending order. *)
Definition htno_asc : relation RankItem := λ x y, strict RollNo_le (ri_HTNO x) (ri_HTNO y).

(** ** Lemmas *)

#[export] Instance sgpa_desc_total : Total sgpa_desc.
Proof. intros x y. unfold sgpa_desc. lra. Qed.

#[export] Instance sgpa_desc_trans : Transitive sgpa_desc.
Proof. intros x y z. unfold sgpa_desc. lra. Qed.

#[export] Instance num_desc_total : Total num_desc.
Proof. intros [x|] [y|]; simpl; try tauto. lra. Qed.

#[export] Instance num_desc_trans : Transitive num_desc.
Proof. intros [x|] [y|] [z|]; simpl; try tauto. lra. Qed.

#[export] Instance marks_desc_total : Total marks_desc.
Proof. intros x y. apply (total num_desc). Qed.

#[export] Instance marks_desc_trans : Transitive marks_desc.
Proof. intros x y z. apply (transitivity (R := num_desc)). Qed.

(** *** Generic facts on a ranked prefix *)

Lemma fmap_fst_enumerate_fmap {A B} (f : nat * A → B) (g : B → nat) s (l : list A) :
  (∀ ia, g (f ia) = ia.1) → g <$> (f <$> enumerate s l) = seq s (length l).
Proof.
  intros H. rewrite <- list_fmap_compose, <- fst_enumerate.
  apply list_fmap_ext. intros ???. apply H.
Qed.

Lemma fmap_snd_enumerate_fmap {A B C} (f : nat * A → B) (g : B → C) (h : A → C)
    s (l : list A) :
  (∀ ia, g (f ia) = h ia.2) → g <$> (f <$> enumerate s l) = h <$> l.
Proof.
  intros H. rewrite <- (snd_enumerate s l) at 2. rewrite <- !list_fmap_compose.
  apply list_fmap_ext. intros ???. apply H.
Qed.

(** *** The overall ranking *)

Lemma rank_loop_fmap s (l : list RankItem) :
  foldl rank_step [] (enumerate s l) = rank_entry_of <$> enumerate s l.
Proof.
  rewrite (foldl_ext_in _ (λ acc ir, acc ++ [rank_entry_of ir])) by by intros ? [].
  by rewrite foldl_snoc_fmap.
Qed.

Lemma rank_entries_items s (l : list RankItem) :
  item_of <$> (rank_entry_of <$> enumerate s l) = l.
Proof.
  rewrite (fmap_snd_enumerate_fmap _ _ id) by by intros [? []].
  apply list_fmap_id.
Qed.

Lemma rank_entries_Rank s (l : list RankItem) :
  re_Rank <$> (rank_entry_of <$> enumerate s l) = seq s (length l).
Proof. by apply fmap_fst_enumerate_fmap. Qed.

Section overall_ranked.
Context (rank_list : list RankItem).

Lemma sort_rank_list_sorted : StronglySorted sgpa_desc (sort_rank_list rank_list).
Proof. apply stable_sort_StronglySorted; apply _. Qed.

(** C4: The overall ranking has at most five entries (all the students when
    there are fewer), the entry at position [i] has rank [i + 1], and the
    SGPA does not increase down the ranking. *)
Theorem top5_rank_list_ranked :
  length (top5_rank_list rank_list) = (5 `min` length rank_list)%nat ∧
  (∀ i e, top5_rank_list rank_list !! i = Some e → re_Rank e = (i + 1)%nat) ∧
  (∀ i j e e', (i < j)%nat →
     top5_rank_list rank_list !! i = Some e →
     top5_rank_list rank_list !! j = Some e' → re_SGPA e' <= re_SGPA e).
Proof.
  unfold top5_rank_list. rewrite rank_loop_fmap. split_and!.
  - rewrite length_fmap, length_enumerate, length_take.
    unfold sort_rank_list. by rewrite length_stable_sort.
  - intros i e Hi. apply (f_equal (fmap re_Rank)) in Hi.
    rewrite <- list_lookup_fmap, rank_entries_Rank in Hi.
    apply lookup_seq in Hi as [-> _]. simpl. lia.
  - intros i j e e' Hij Hi Hj.
    apply (f_equal (fmap item_of)) in Hi, Hj.
    rewrite <- list_lookup_fmap, rank_entries_items in Hi, Hj.
    eapply (StronglySorted_lookup sgpa_desc _ i j (item_of e) (item_of e'));
      [|done|exact Hi|exact Hj].
    apply StronglySorted_take, sort_rank_list_sorted.
Qed.

End overall_ranked.

Section overall.
Context (rank_list : list RankItem).

Lemma top5_rank_list_fmap :
  top5_rank_list rank_list =
  rank_entry_of <$> enumerate 1 (take 5 (sort_rank_list rank_list)).
Proof. apply rank_loop_fmap. Qed.

(** The entries of the ranking are the first entries of the sorted
    [rank_list]. *)
Lemma top5_rank_list_items :
  item_of <$> top5_rank_list rank_list = take 5 (sort_rank_list rank_list).
Proof. rewrite top5_rank_list_fmap. apply rank_entries_items. Qed.

End overall.

Section overall_claims.
Context (rank_list : list RankItem).

(** C19: The overall ranking holds the largest SGPAs: the students split into
    the ranked ones and the rest, and nobody of the rest has a larger SGPA
    than a ranked student. *)
Theorem top5_rank_list_cutoff :
  ∃ rest,
    (item_of <$> top5_rank_list rank_list) ++ rest ≡ₚ rank_list ∧
    ∀ e r, e ∈ top5_rank_list rank_list → r ∈ rest → ri_SGPA r <= re_SGPA e.
Proof.
  exists (drop 5 (sort_rank_list rank_list)). rewrite top5_rank_list_items. split.
  - rewrite take_drop. apply stable_sort_Permutation.
  - intros e r He Hr. apply (stable_sort_take_drop sgpa_desc 5 rank_list (item_of e) r).
    + fold (sort_rank_list rank_list). rewrite <- top5_rank_list_items.
      by apply list_elem_of_fmap_2.
    + done.
Qed.

(** With at most five students everybody is ranked. *)
Theorem top5_rank_list_all :
  (length rank_list ≤ 5)%nat → item_of <$> top5_rank_list rank_list ≡ₚ rank_list.
Proof.
  intros Hlen. rewrite top5_rank_list_items, take_ge.
  - apply stable_sort_Permutation.
  - unfold sort_rank_list. by rewrite length_stable_sort.
Qed.

End overall_claims.

Lemma top5_rank_list_all_witness :
  item_of <$> top5_rank_list [mkRankItem (RollStr "S1") (32 # 5); mkRankItem (RollStr "S2") (857 # 100)] ≡ₚ
  [mkRankItem (RollStr "S1") (32 # 5); mkRankItem (RollStr "S2") (857 # 100)].
Proof. apply top5_rank_list_all. simpl. lia. Defined.

(** C24: Students with the same rounded SGPA are ranked in ascending order of
    roll number: the sort is stable and the student loop has produced
    [rank_list] in that order. *)
Theorem overall_ranking_ties (df : list CRow) :
  StronglySorted (lex sgpa_desc htno_asc)
    (sort_rank_list (Aggregator.rank_list (student_loop df))).
Proof.
  apply stable_sort_lex; try apply _.
  apply (StronglySorted_fmap_inv ri_HTNO (strict RollNo_le)).
  rewrite rank_list_HTNO. apply sorted_keys_strict; apply _.
Qed.

(** *** The ranking of one subject *)

Section subject.
Context (g : list CRow).

Lemma ranked_list_fmap : ranked_list g = subject_rank_of <$> enumerate 0 (ranked g).
Proof.
  unfold ranked_list.
  rewrite (foldl_ext_in _ (λ acc ir, acc ++ [subject_rank_of ir])) by by intros ? [].
  by rewrite foldl_snoc_fmap.
Qed.

Lemma ranked_list_TOTALMARKS :
  sr_TOTALMARKS <$> ranked_list g = (λ r : CRow, TOTALMARKS r) <$> ranked g.
Proof. rewrite ranked_list_fmap. by apply fmap_snd_enumerate_fmap. Qed.

Lemma ranked_list_Rank : sr_Rank <$> ranked_list g = seq 1 (length (ranked_list g)).
Proof.
  rewrite ranked_list_fmap, length_fmap, length_enumerate, <- list_fmap_compose.
  rewrite <- (fmap_S_seq 0), <- fst_enumerate, <- list_fmap_compose.
  apply list_fmap_ext. intros _ [i r] _. simpl. lia.
Qed.

(** C5: A subject's ranking has at most five entries (all the rows of the
    subject when there are fewer), the entry at position [i] has rank
    [i + 1], and the totals do not increase down the ranking, a missing
    total counting as the lowest. *)
Theorem ranked_list_ranked :
  length (ranked_list g) = (5 `min` length g)%nat ∧
  (∀ i e, ranked_list g !! i = Some e → sr_Rank e = (i + 1)%nat) ∧
  (∀ i j e e', (i < j)%nat →
     ranked_list g !! i = Some e → ranked_list g !! j = Some e' →
     num_desc (sr_TOTALMARKS e) (sr_TOTALMARKS e')).
Proof.
  split_and!.
  - rewrite ranked_list_fmap, length_fmap, length_enumerate. unfold ranked.
    by rewrite length_take, length_stable_sort.
  - intros i e Hi. apply (f_equal (fmap sr_Rank)) in Hi.
    rewrite <- list_lookup_fmap, ranked_list_Rank in Hi.
    apply lookup_seq in Hi as [-> _]. simpl. lia.
  - intros i j e e' Hij Hi Hj.
    apply (f_equal (fmap sr_TOTALMARKS)) in Hi, Hj.
    rewrite <- list_lookup_fmap, ranked_list_TOTALMARKS, list_lookup_fmap in Hi, Hj.
    destruct (ranked g !! i) as [r|] eqn:Hri, (ranked g !! j) as [r'|] eqn:Hrj;
      simplify_eq/=.
    rewrite <- Hi, <- Hj.
    apply (StronglySorted_lookup marks_desc (ranked g) i j r r'); [|done..].
    unfold ranked. apply StronglySorted_take, stable_sort_StronglySorted; apply _.
Qed.

Lemma length_ranked : length (ranked g) = (5 `min` length g)%nat.
Proof. unfold ranked. by rewrite length_take, length_stable_sort. Qed.

Lemma length_ranked_list : length (ranked_list g) = (5 `min` length g)%nat.
Proof. by rewrite ranked_list_fmap, length_fmap, length_enumerate, length_ranked. Qed.

Lemma ranked_sorted : StronglySorted marks_desc (ranked g).
Proof. apply StronglySorted_take, stable_sort_StronglySorted; apply _. Qed.

Lemma elem_of_ranked r : r ∈ ranked g → r ∈ g.
Proof.
  unfold ranked. intros Hr. eapply elem_of_sublist in Hr; [|apply sublist_take].
  by apply elem_of_stable_sort in Hr.
Qed.

(** Each entry of a subject's ranking shows the roll number and the total
    of a row of the group. *)
Lemma elem_of_ranked_list e :
  e ∈ ranked_list g →
  ∃ r : CRow, r ∈ g ∧ HTNO r = sr_HTNO e ∧ TOTALMARKS r = sr_TOTALMARKS e.
Proof.
  rewrite ranked_list_fmap. intros ([i r] & -> & Hin)%list_elem_of_fmap.
  exists r. split; [|done]. apply elem_of_ranked.
  rewrite <- (snd_enumerate 0 (ranked g)). by apply (list_elem_of_fmap_2 snd) in Hin.
Qed.

(** A subject's ranking holds the largest totals of the subject: the rows
    split into the ranked ones and the rest, and no row of the rest comes
    before a ranked row in the order of the ranking. *)
Theorem ranked_cutoff :
  ∃ rest, ranked g ++ rest ≡ₚ g ∧
          ∀ r r', r ∈ ranked g → r' ∈ rest → marks_desc r r'.
Proof.
  exists (drop 5 (stable_sort marks_desc g)). unfold ranked. split.
  - rewrite take_drop. apply stable_sort_Permutation.
  - intros r r'. apply stable_sort_take_drop; apply _.
Qed.

End subject.

(** *** The rankings of all subjects *)

Lemma subject_wise_top5_summary (df : list CRow) :
  subject_wise_top5 df =
  (λ sg, (sg.1, ranked_list sg.2)) <$> groupby_SUBJECT_NAME df.
Proof.
  unfold subject_wise_top5, subject_top5_step.
  rewrite foldl_dict_set_fresh; [done|]. simpl. apply groupby_NoDup.
Qed.

(** There is one ranking per subject, and the rankings come in the order
    of the subject metrics. *)
Theorem subject_wise_top5_subjects (df : list CRow) :
  (subject_wise_top5 df).*1 = sub_Subject <$> subject_metrics df.
Proof.
  rewrite subject_wise_top5_summary, subject_metrics_summary, fmap_sub_Subject.
  rewrite <- list_fmap_compose. by apply list_fmap_ext.
Qed.

(** Every entry of the ranking of a subject shows a row of that subject of
    the frame. *)
Theorem subject_wise_top5_rows (df : list CRow) s l e :
  (s, l) ∈ subject_wise_top5 df → e ∈ l →
  ∃ r : CRow, r ∈ df ∧ SUBJECT_NAME r = s ∧
              HTNO r = sr_HTNO e ∧ TOTALMARKS r = sr_TOTALMARKS e.
Proof.
  rewrite subject_wise_top5_summary.
  intros ([s' g] & [= -> ->] & Hin)%list_elem_of_fmap He. simpl in *.
  apply elem_of_ranked_list in He as (r & Hr & ? & ?).
  apply elem_of_groupby in Hin as [_ ->].
  apply elem_of_get_group in Hr as [[= Hs] Hr]. by exists r.
Qed.

Lemma subject_wise_top5_rows_witness :
  ∃ r : CRow, r ∈ classify [] sample_frame ∧ SUBJECT_NAME r = "LAB"%string ∧
              HTNO r = None ∧ TOTALMARKS r = Some 30.
Proof.
  apply (subject_wise_top5_rows (classify [] sample_frame) "LAB"
           [mkSubjectRank 1 (Some (RollStr "S1")) (Some 45); mkSubjectRank 2 None (Some 30)]
           (mkSubjectRank 2 None (Some 30))).
  - apply (list_elem_of_lookup_2 _ 0%nat). by vm_compute.
  - by right; left.
Defined.

