(* ===== verification/Cleaner.v ===== *)
(** * Cleaning the spreadsheet

    [clean_dataframe] of [src/app1.py] (lines 16-33) on an untyped frame: a
    frame has a list of column names and rows that map a column name to a
    cell; a cell is text, a number, or empty (NaN).  Reading a column that
    the frame does not have raises [KeyError], which the model returns as
    an error value.  The text operations [str.strip] and [str.lower] are
    modelled on ASCII.  What pandas prints for a number and which
    strings it parses as numbers is an interface, [Pandas]; the theorems
    hold for every instance, the examples run with [decimal_pandas].
    [row_of] reads a cleaned row into the typed [Frame.Row] that the rest of
    [process] works on. *)

From Stdlib Require Import Ascii Qcanon.
From stdpp Require Import gmap.
From S2P Require Import Prelude Numeric Frame.

(** ** Definitions *)

Inductive cell : Type :=
| CStr (s : string)
| CNum (q : Q)
| CEmpty.

#[export] Instance Q_eq_dec : EqDecision Q.
Proof. solve_decision. Defined.

#[export] Instance cell_eq_dec : EqDecision cell.
Proof. solve_decision. Defined.

(** A [pandas.DataFrame] as [read_excel] returns it. *)
Record RawFrame : Type := mkRawFrame {
  columns : list string;
  rows : list (gmap string cell)
}.

(** The exceptions that the handlers of [src/app1.py] can meet. *)
Inductive exn : Set :=
| KeyError (labels : list string)
| BadExcelFile
| FileNotFoundError (path : string)
| EmptyFrameApply
| InvalidSheetTitle (title : string).

(** What the model takes from pandas and openpyxl, which the sources only
    call: the text of a number, the numeric reading of a text cell, whether
    assigning the result of [DataFrame.apply] on a frame without rows
    raises, which sheet titles the writer accepts, and what a sheet holds
    after a table is written on a sheet that already has one. *)
Class Pandas : Type := {
  num_repr : Q → string;
  parse_num : string → option Q;
  apply_empty_raises : bool;
  valid_title : string → bool;
  overlay : RawFrame → RawFrame → RawFrame;
  overlay_columns old new c :
    c ∈ columns (overlay old new) → c ∈ columns old ∨ c ∈ columns new
}.

(** *** Python strings *)

(** [c.isspace()] on an ASCII character. *)
Definition is_py_space (a : ascii) : bool :=
  let n := nat_of_ascii a in
  ((9 <=? n) && (n <=? 13)) || ((28 <=? n) && (n <=? 32)).

Fixpoint lstrip (s : string) : string :=
  match s with
  | EmptyString => EmptyString
  | String a s' => if is_py_space a then lstrip s' else s
  end.

Fixpoint rstrip (s : string) : string :=
  match s with
  | EmptyString => EmptyString
  | String a s' =>
      match rstrip s' with
      | EmptyString => if is_py_space a then EmptyString else String a EmptyString
      | t => String a t
      end
  end.

(** [s.strip()]. *)
Definition strip (s : string) : string := rstrip (lstrip s).

Definition lower_ascii (a : ascii) : ascii :=
  let n := nat_of_ascii a in
  if (65 <=? n) && (n <=? 90) then ascii_of_nat (n + 32) else a.

(** [s.lower()]. *)
Fixpoint lower (s : string) : string :=
  match s with
  | EmptyString => EmptyString
  | String a s' => String (lower_ascii a) (lower s')
  end.

(** *** A reference instance of the interface *)

Fixpoint digits (s : string) (acc : N) : option N :=
  match s with
  | EmptyString => Some acc
  | String a s' =>
      match Ascii.is_nat a with
      | Some d => digits s' (acc * 10 + N.of_nat d)
      | None => None
      end
  end.

Fixpoint split_dot (s : string) : string * option string :=
  match s with
  | EmptyString => (EmptyString, None)
  | String a s' =>
      if decide (a = "."%char) then (EmptyString, Some s')
      else let '(i, f) := split_dot s' in (String a i, f)
  end.

Definition parse_unsigned (s : string) : option Q :=
  let '(i, f) := split_dot s in
  match f with
  | None =>
      if decide (i = EmptyString) then None
      else n ← digits i 0; Some (inject_Z (Z.of_N n))
  | Some f =>
      if decide (i = EmptyString ∧ f = EmptyString) then None
      else n ← digits i 0; m ← digits f 0;
           Some (inject_Z (Z.of_N n) + (Z.of_N m # Pos.pow 10 (Pos.of_nat (String.length f))))%Q
  end.

(** Plain decimal numbers, with a sign and blanks around them. *)
Definition parse_decimal (s : string) : option Q :=
  match strip s with
  | String a s' =>
      if decide (a = "-"%char) then Qopp <$> parse_unsigned s'
      else if decide (a = "+"%char) then parse_unsigned s'
      else parse_unsigned (String a s')
  | EmptyString => None
  end.

(** Integers print in decimal; another number prints as a fraction. *)
Definition print_decimal (q : Q) : string :=
  let q := Qred q in
  if decide (Qden q = 1%positive) then pretty (Qnum q)
  else pretty (Qnum q) +:+ "/" +:+ pretty (Zpos (Qden q)).

(** The characters that a sheet title may not have. *)
Definition title_char_ok (a : ascii) : bool :=
  negb (bool_decide (a ∈ ["092"; "*"; "?"; ":"; "/"; "["; "]"]%char)).

Fixpoint title_ok (s : string) : bool :=
  match s with
  | EmptyString => true
  | String a s' => title_char_ok a && title_ok s'
  end.

(** The second table replaces the first when it has columns. *)
Definition overlay_replace (old new : RawFrame) : RawFrame :=
  if decide (columns new = []) then old else new.

#[export, refine] Instance decimal_pandas : Pandas :=
  {| num_repr := print_decimal; parse_num := parse_decimal;
     apply_empty_raises := true; valid_title := title_ok;
     overlay := overlay_replace |}.
Proof. intros old new c; unfold overlay_replace; case_decide; auto. Defined.

Fixpoint all_space (s : string) : bool :=
  match s with
  | EmptyString => true
  | String a s' => is_py_space a && all_space s'
  end.

(** *** Frames *)

(** The cell of a row in a column; an absent entry reads as empty. *)
Definition get (row : gmap string cell) (col : string) : cell :=
  default CEmpty (row !! col).

(** [df[col] = f(df[col])], on a column that the frame has. *)
Definition map_column (col : string) (f : cell → cell) (df : RawFrame) : RawFrame :=
  {| columns := columns df;
     rows := (λ row, <[col := f (get row col)]> row) <$> rows df |}.

(** [df[mask]] with a row-wise mask. *)
Definition filter_rows (P : gmap string cell → Prop) `{!∀ row, Decision (P row)}
    (df : RawFrame) : RawFrame :=
  {| columns := columns df; rows := filter P (rows df) |}.

Definition is_na (c : cell) : Prop := c = CEmpty.

#[export] Instance is_na_dec c : Decision (is_na c).
Proof. destruct c; [right|right|left]; done. Defined.

Section pandas.
Context `{!Pandas}.

(** [column.astype(str)]: an empty cell becomes the text "nan". *)
Definition astype_str (c : cell) : string :=
  match c with
  | CStr s => s
  | CNum q => num_repr q
  | CEmpty => "nan"
  end.

(** [pd.to_numeric(column, errors="coerce")]. *)
Definition to_numeric (c : cell) : cell :=
  match c with
  | CStr s => match parse_num s with Some q => CNum q | None => CEmpty end
  | CNum q => CNum q
  | CEmpty => CEmpty
  end.

(** The text of the [SUBJECT_NAME] cell of a row. *)
Definition subject_of (row : gmap string cell) : string :=
  astype_str (get row "SUBJECT_NAME").

Definition numeric_columns : list string :=
  ["INTERNALMARKS"; "EXTERNALMARKS"; "TOTALMARKS"; "GRADE_POINTS"; "CREDITS"].

Definition marks_columns : list string :=
  ["INTERNALMARKS"; "EXTERNALMARKS"; "TOTALMARKS"].

(** The masks of lines 21-22 and of line 31, on one row. *)
Definition subject_ok (row : gmap string cell) : Prop :=
  subject_of row ≠ "" ∧ lower (subject_of row) ≠ "nan".

Definition has_marks (row : gmap string cell) : Prop :=
  ¬ Forall (λ c, is_na (get row c)) marks_columns.

(** The body of the loop of lines 24-26. *)
Definition coerce_step (df : RawFrame) (col : string) : RawFrame :=
  if decide (col ∈ columns df) then map_column col to_numeric df else df.

(** [df.dropna(subset=cols, how="all")] with the three marks columns. *)
Definition dropna_all (df : RawFrame) : result exn RawFrame :=
  let missing := filter (λ c, c ∉ columns df) marks_columns in
  if decide (missing = []) then Ok (filter_rows has_marks df)
  else Err (KeyError missing).

Definition clean_dataframe (df : RawFrame) : result exn RawFrame :=
  if decide ("SUBJECT_NAME" ∈ columns df) then
    let df := map_column "SUBJECT_NAME" (λ c, CStr (strip (astype_str c))) df in
    let df := filter_rows subject_ok df in
    let df := foldl coerce_step df numeric_columns in
    dropna_all df
  else Err (KeyError ["SUBJECT_NAME"]).

(** *** The same cleaning, row by row *)

Definition set_subject (row : gmap string cell) : gmap string cell :=
  <["SUBJECT_NAME" := CStr (strip (subject_of row))]> row.

Definition coerce_row (cols : list string) (row : gmap string cell) (col : string)
    : gmap string cell :=
  if decide (col ∈ cols) then <[col := to_numeric (get row col)]> row else row.

Definition coerce_all (cols : list string) (row : gmap string cell) : gmap string cell :=
  foldl (coerce_row cols) row numeric_columns.

Definition clean_rows (cols : list string) (rs : list (gmap string cell))
    : list (gmap string cell) :=
  filter has_marks (coerce_all cols <$> filter subject_ok (set_subject <$> rs)).

(** *** What cleaning establishes *)

Definition numeric_cell (c : cell) : Prop :=
  match c with CStr _ => False | _ => True end.

Definition clean_row (cols : list string) (row : gmap string cell) : Prop :=
  (∃ s, row !! "SUBJECT_NAME" = Some (CStr s) ∧ strip s = s ∧ s ≠ "" ∧ lower s ≠ "nan") ∧
  (∀ c, c ∈ numeric_columns → c ∈ cols → ∃ v, row !! c = Some v ∧ numeric_cell v) ∧
  has_marks row.

Definition cleaned (df : RawFrame) : Prop :=
  "SUBJECT_NAME" ∈ columns df ∧ marks_columns ⊆ columns df ∧
  Forall (clean_row (columns df)) (rows df).

(** *** From a cleaned row to a typed row *)

Definition num_of_cell (c : cell) : num :=
  match c with CNum q => Some q | _ => None end.

Definition rollno_of_cell (c : cell) : option RollNo :=
  match c with
  | CStr s => Some (RollStr s)
  | CNum q => Some (RollNum (Q2Qc q))
  | CEmpty => None
  end.

Definition row_of (row : gmap string cell) : Row :=
  {| HTNO := rollno_of_cell (get row "HTNO");
     SUBJECT_NAME := subject_of row;
     INTERNALMARKS := num_of_cell (get row "INTERNALMARKS");
     EXTERNALMARKS := num_of_cell (get row "EXTERNALMARKS");
     TOTALMARKS := num_of_cell (get row "TOTALMARKS");
     GRADE_POINTS := num_of_cell (get row "GRADE_POINTS");
     CREDITS := num_of_cell (get row "CREDITS") |}.

(** The frame that [process] computes on. *)
Definition frame_of (df : RawFrame) : list Row := row_of <$> rows df.

End pandas.

(** A spreadsheet of the examples: a blank subject, a subject that reads
    "NaN", a row with no marks at all, and two rows that stay. *)
Definition sample_sheet : RawFrame :=
  {| columns := ["HTNO"; "SUBJECT_NAME"; "INTERNALMARKS"; "EXTERNALMARKS";
                 "TOTALMARKS"; "GRADE_POINTS"; "CREDITS"];
     rows :=
       [ {[ "HTNO" := CStr "S1"; "SUBJECT_NAME" := CStr "  MATHS "; "INTERNALMARKS" := CNum 20;
            "EXTERNALMARKS" := CStr "50"; "TOTALMARKS" := CNum 70;
            "GRADE_POINTS" := CNum 9; "CREDITS" := CNum 4 ]};
         {[ "HTNO" := CStr "S1"; "SUBJECT_NAME" := CStr "   "; "INTERNALMARKS" := CNum 20;
            "EXTERNALMARKS" := CNum 50; "TOTALMARKS" := CNum 70;
            "GRADE_POINTS" := CNum 9; "CREDITS" := CNum 4 ]};
         {[ "HTNO" := CStr "S2"; "SUBJECT_NAME" := CStr "NaN"; "INTERNALMARKS" := CNum 20;
            "EXTERNALMARKS" := CNum 50; "TOTALMARKS" := CNum 70;
            "GRADE_POINTS" := CNum 9; "CREDITS" := CNum 4 ]};
         {[ "HTNO" := CStr "S2"; "SUBJECT_NAME" := CStr "PHYSICS"; "INTERNALMARKS" := CStr "AB";
            "EXTERNALMARKS" := CEmpty; "TOTALMARKS" := CStr "-";
            "GRADE_POINTS" := CNum 0; "CREDITS" := CNum 3 ]};
         {[ "HTNO" := CStr "S2"; "SUBJECT_NAME" := CStr "MATHS"; "INTERNALMARKS" := CStr "AB";
            "EXTERNALMARKS" := CNum 30; "TOTALMARKS" := CStr " 30.5 ";
            "GRADE_POINTS" := CEmpty; "CREDITS" := CNum 4 ]} ]%string |}.

Definition sample_cleaned : RawFrame :=
  match clean_dataframe sample_sheet with Ok df => df | Err _ => sample_sheet end.

(** ** Lemmas *)

(** *** Stripping *)

Lemma lstrip_spec s : ∃ pre, s = String.append pre (lstrip s) ∧ all_space pre = true.
Proof.
  induction s as [|a s [pre [Hs Hpre]]]; [by exists EmptyString|].
  simpl; destruct (is_py_space a) eqn:Ha; [|by exists EmptyString].
  exists (String a pre); simpl; rewrite Ha, Hpre; split; [exact (f_equal (String a) Hs)|done].
Qed.

Lemma rstrip_all_space s : all_space s = true → rstrip s = EmptyString.
Proof.
  induction s as [|a s IH]; simpl; [done|].
  intros [Ha Hs]%andb_prop; by rewrite IH, Ha.
Qed.

Lemma rstrip_spec s : ∃ post, s = String.append (rstrip s) post ∧ all_space post = true.
Proof.
  induction s as [|a s [post [Hs Hpost]]]; [by exists EmptyString|].
  simpl; destruct (rstrip s) as [|b t] eqn:Hr.
  - destruct (is_py_space a) eqn:Ha.
    + exists (String a post); simpl; rewrite Ha, Hpost; split; [exact (f_equal (String a) Hs)|done].
    + exists post; split; [exact (f_equal (String a) Hs)|done].
  - exists post; split; [exact (f_equal (String a) Hs)|done].
Qed.

Lemma lstrip_head a s : is_py_space a = false → lstrip (String a s) = String a s.
Proof. by simpl; intros ->. Qed.

Lemma rstrip_head a s :
  is_py_space a = false → ∃ t, rstrip (String a s) = String a t.
Proof. simpl; intros ->; destruct (rstrip s); eauto. Qed.

Lemma lstrip_idemp s : lstrip (lstrip s) = lstrip s.
Proof.
  induction s as [|a s IH]; simpl; [done|].
  destruct (is_py_space a) eqn:Ha; [done|by apply lstrip_head].
Qed.

Lemma rstrip_idemp s : rstrip (rstrip s) = rstrip s.
Proof.
  induction s as [|a s IH]; simpl; [done|].
  destruct (rstrip s) as [|b t] eqn:Hr.
  - destruct (is_py_space a) eqn:Ha; simpl; by rewrite ?Ha.
  - change (rstrip (String a (String b t))) with
      (match rstrip (String b t) with
       | EmptyString => if is_py_space a then EmptyString else String a EmptyString
       | u => String a u end).
    by rewrite IH.
Qed.

Lemma lstrip_rstrip s : lstrip (rstrip s) = rstrip (lstrip s).
Proof.
  induction s as [|a s IH]; [done|].
  destruct (is_py_space a) eqn:Ha.
  - simpl; rewrite Ha, <-IH.
    destruct (rstrip s) eqn:Hr; simpl; by rewrite ?Ha.
  - rewrite (lstrip_head a s) by done.
    destruct (rstrip_head a s Ha) as [t ->]; by apply lstrip_head.
Qed.

Lemma strip_idemp s : strip (strip s) = strip s.
Proof.
  unfold strip; by rewrite lstrip_rstrip, rstrip_idemp, lstrip_idemp.
Qed.

Lemma strip_all_space s : all_space s = true → strip s = EmptyString.
Proof.
  intros Hs; unfold strip; rewrite <-lstrip_rstrip; by rewrite rstrip_all_space.
Qed.

Lemma lstrip_first a s : lstrip s = String a EmptyString → is_py_space a = false.
Proof.
  induction s as [|b s IH]; simpl; [done|].
  destruct (is_py_space b) eqn:Hb; [done|congruence].
Qed.

Lemma lstrip_no_space a t s : lstrip s = String a t → is_py_space a = false.
Proof.
  induction s as [|b s IH]; simpl; [done|].
  destruct (is_py_space b) eqn:Hb; [done|congruence].
Qed.

(** *** Cells *)

Section pandas_lemmas.
Context `{!Pandas}.

Lemma to_numeric_numeric c : numeric_cell (to_numeric c).
Proof. destruct c as [s| |]; simpl; [by destruct (parse_num s)|done..]. Qed.

Lemma to_numeric_id c : numeric_cell c → to_numeric c = c.
Proof. by destruct c. Qed.

Lemma to_numeric_idemp c : to_numeric (to_numeric c) = to_numeric c.
Proof. apply to_numeric_id, to_numeric_numeric. Qed.

Lemma get_insert row c c' v :
  get (<[c := v]> row) c' = if decide (c = c') then v else get row c'.
Proof.
  unfold get; case_decide as Hc; [subst; by rewrite lookup_insert_eq|].
  by rewrite lookup_insert_ne.
Qed.

Lemma get_lookup row c v : row !! c = Some v → get row c = v.
Proof. unfold get; by intros ->. Qed.

(** *** One row *)

Lemma get_coerce_row cols row c c' :
  get (coerce_row cols row c) c'
  = if decide (c = c' ∧ c ∈ cols) then to_numeric (get row c') else get row c'.
Proof.
  unfold coerce_row; destruct (decide (c ∈ cols)) as [Hc|Hc].
  - rewrite get_insert; destruct (decide (c = c')) as [->|Hne].
    + by rewrite decide_True.
    + rewrite decide_False; [done|tauto].
  - rewrite decide_False; [done|tauto].
Qed.

Lemma lookup_coerce_row cols row c c' :
  coerce_row cols row c !! c'
  = if decide (c = c' ∧ c ∈ cols) then Some (to_numeric (get row c')) else row !! c'.
Proof.
  unfold coerce_row; destruct (decide (c ∈ cols)) as [Hc|Hc].
  - destruct (decide (c = c')) as [->|Hne].
    + by rewrite lookup_insert_eq, decide_True.
    + rewrite lookup_insert_ne, decide_False; [done|tauto|done].
  - rewrite decide_False; [done|tauto].
Qed.

Lemma lookup_foldl_coerce_row cols cs row c :
  foldl (coerce_row cols) row cs !! c
  = if decide (c ∈ cs ∧ c ∈ cols) then Some (to_numeric (get row c)) else row !! c.
Proof.
  revert row; induction cs as [|a cs IH]; intros row.
  { rewrite decide_False; [done|]. intros [?%elem_of_nil _]; done. }
  simpl; rewrite IH, get_coerce_row, lookup_coerce_row.
  clear IH; repeat case_decide; rewrite ?to_numeric_idemp; try done;
    exfalso; set_unfold; destruct_and?; destruct_or?; subst; tauto.
Qed.

Lemma lookup_coerce_all cols row c :
  coerce_all cols row !! c
  = if decide (c ∈ numeric_columns ∧ c ∈ cols)
    then Some (to_numeric (get row c)) else row !! c.
Proof. apply lookup_foldl_coerce_row. Qed.

Lemma get_coerce_all cols row c :
  get (coerce_all cols row) c
  = if decide (c ∈ numeric_columns ∧ c ∈ cols) then to_numeric (get row c) else get row c.
Proof. unfold get at 1; rewrite lookup_coerce_all; by case_decide. Qed.

Lemma subject_not_numeric : "SUBJECT_NAME" ∉ numeric_columns.
Proof. compute_done. Qed.

Lemma subject_of_coerce_all cols row :
  coerce_all cols row !! "SUBJECT_NAME" = row !! "SUBJECT_NAME".
Proof.
  rewrite lookup_coerce_all; case_decide as Hc; [|done].
  by destruct (subject_not_numeric (proj1 Hc)).
Qed.

Lemma lookup_set_subject row :
  set_subject row !! "SUBJECT_NAME" = Some (CStr (strip (subject_of row))).
Proof. apply lookup_insert_eq. Qed.

Lemma subject_of_set_subject row :
  subject_of (set_subject row) = strip (subject_of row).
Proof. unfold subject_of at 1; by rewrite (get_lookup _ _ _ (lookup_set_subject row)). Qed.

(** *** Frames *)

Lemma columns_coerce_step df c : columns (coerce_step df c) = columns df.
Proof. unfold coerce_step; by case_decide. Qed.

Lemma rows_coerce_step df c :
  rows (coerce_step df c) = (λ row, coerce_row (columns df) row c) <$> rows df.
Proof.
  unfold coerce_step, coerce_row; case_decide; [done|].
  by rewrite list_fmap_id.
Qed.

Lemma columns_foldl_coerce_step cs df :
  columns (foldl coerce_step df cs) = columns df.
Proof.
  revert df; induction cs as [|c cs IH]; intros df; simpl; [done|].
  by rewrite IH, columns_coerce_step.
Qed.

Lemma rows_foldl_coerce_step cs df :
  rows (foldl coerce_step df cs)
  = (λ row, foldl (coerce_row (columns df)) row cs) <$> rows df.
Proof.
  revert df; induction cs as [|c cs IH]; intros df; simpl.
  { by rewrite list_fmap_id. }
  by rewrite IH, columns_coerce_step, rows_coerce_step, <-list_fmap_compose.
Qed.

Lemma marks_columns_present df :
  filter (λ c, c ∉ columns df) marks_columns = [] ↔ marks_columns ⊆ columns df.
Proof.
  split.
  - intros Hnil c Hc; destruct (decide (c ∈ columns df)) as [|Hn]; [done|].
    assert (c ∈ filter (λ c, c ∉ columns df) marks_columns) as Hin
      by by apply list_elem_of_filter.
    rewrite Hnil in Hin; by apply elem_of_nil in Hin.
  - intros Hsub; apply elem_of_nil_inv; intros c [Hn Hc]%list_elem_of_filter.
    by apply Hn, Hsub.
Qed.

(** The column-wise program is the row-wise cleaning. *)
Lemma clean_dataframe_unfold df :
  clean_dataframe df
  = if decide ("SUBJECT_NAME" ∈ columns df) then
      if decide (marks_columns ⊆ columns df)
      then Ok {| columns := columns df; rows := clean_rows (columns df) (rows df) |}
      else Err (KeyError (filter (λ c, c ∉ columns df) marks_columns))
    else Err (KeyError ["SUBJECT_NAME"]).
Proof.
  unfold clean_dataframe, dropna_all, filter_rows; case_decide; [|done].
  rewrite columns_foldl_coerce_step, rows_foldl_coerce_step.
  cbn [columns rows map_column].
  destruct (decide (marks_columns ⊆ columns df)) as [Hs|Hs].
  - by rewrite decide_True by by apply marks_columns_present.
  - rewrite decide_False; [done|]. by rewrite marks_columns_present.
Qed.

Lemma clean_dataframe_Ok df df' :
  clean_dataframe df = Ok df' →
  "SUBJECT_NAME" ∈ columns df ∧ marks_columns ⊆ columns df ∧
  columns df' = columns df ∧ rows df' = clean_rows (columns df) (rows df).
Proof.
  rewrite clean_dataframe_unfold; repeat case_decide; intros; by simplify_eq.
Qed.

Lemma elem_of_clean_rows cols rs r' :
  r' ∈ clean_rows cols rs ↔
  has_marks r' ∧ ∃ r, r ∈ rs ∧ subject_ok (set_subject r) ∧
                     r' = coerce_all cols (set_subject r).
Proof.
  unfold clean_rows; rewrite list_elem_of_filter, list_elem_of_fmap.
  split.
  - intros [Hm (r1 & -> & [Hok (r & -> & Hr)%list_elem_of_fmap]%list_elem_of_filter)].
    eauto.
  - intros [Hm (r & Hr & Hok & ->)]; split; [done|].
    eexists; split; [done|]. apply list_elem_of_filter; split; [done|].
    by apply list_elem_of_fmap_2.
Qed.

Lemma clean_rows_clean_row cols rs : Forall (clean_row cols) (clean_rows cols rs).
Proof.
  apply Forall_forall; intros r' [Hm (r & Hr & [Hne Hnan] & ->)]%elem_of_clean_rows.
  rewrite subject_of_set_subject in Hne, Hnan.
  split_and!; [|intros c Hc Hcols|done].
  - exists (strip (subject_of r)).
    by rewrite subject_of_coerce_all, lookup_set_subject, strip_idemp.
  - rewrite lookup_coerce_all, decide_True by done.
    eexists; split; [done|apply to_numeric_numeric].
Qed.

Lemma clean_row_subject cols row :
  clean_row cols row → set_subject row = row ∧ subject_ok row.
Proof.
  intros [(s & Hs & Hstrip & Hne & Hnan) _].
  assert (subject_of row = s) as Hsub by (unfold subject_of; by rewrite (get_lookup _ _ _ Hs)).
  unfold set_subject, subject_ok; rewrite Hsub, Hstrip; split; [|done].
  by apply insert_id.
Qed.

Lemma clean_row_coerce_all cols row : clean_row cols row → coerce_all cols row = row.
Proof.
  intros (_ & Hnum & _); apply map_eq; intros c.
  rewrite lookup_coerce_all; case_decide as Hc; [|done].
  destruct (Hnum c) as (v & Hv & Hn); [tauto..|].
  by rewrite (get_lookup _ _ _ Hv), to_numeric_id.
Qed.

Lemma clean_rows_fixed cols rs : Forall (clean_row cols) rs → clean_rows cols rs = rs.
Proof.
  intros Hrs; unfold clean_rows.
  rewrite (fmap_Forall_id set_subject), (filter_Forall_id subject_ok),
    (fmap_Forall_id (coerce_all cols)), (filter_Forall_id has_marks); [done|..];
    eapply Forall_impl; try exact Hrs; simpl; intros row Hrow.
  - apply Hrow.
  - by apply clean_row_coerce_all.
  - by eapply clean_row_subject.
  - by eapply clean_row_subject.
Qed.

Lemma cleaned_fixed df : cleaned df → clean_dataframe df = Ok df.
Proof.
  intros (Hs & Hm & Hrows); rewrite clean_dataframe_unfold, !decide_True by done.
  rewrite clean_rows_fixed by done; by destruct df.
Qed.

Lemma clean_dataframe_is_cleaned df df' : clean_dataframe df = Ok df' → cleaned df'.
Proof.
  intros (Hs & Hm & Hc & Hr)%clean_dataframe_Ok; unfold cleaned.
  rewrite Hc, Hr; split_and!; [done..|apply clean_rows_clean_row].
Qed.

Lemma row_of_marks row :
  (∀ c, c ∈ marks_columns → ∃ v, row !! c = Some v ∧ numeric_cell v) →
  has_marks row →
  ¬ (INTERNALMARKS (row_of row) = None ∧ EXTERNALMARKS (row_of row) = None ∧
     TOTALMARKS (row_of row) = None).
Proof.
  intros Hnum Hm (Hi & He & Ht); apply Hm.
  assert (∀ c, c ∈ marks_columns → num_of_cell (get row c) = None → is_na (get row c))
    as Hna.
  { intros c (v & Hv & Hn)%Hnum; rewrite (get_lookup _ _ _ Hv).
    by destruct v; unfold is_na. }
  repeat constructor; apply Hna;
    first [exact Hi|exact He|exact Ht|compute_done].
Qed.

(** *** Theorems *)

(** C9: Every row that cleaning keeps has a stripped subject name that is not
    blank and is not "nan", numeric cells in the numeric columns, and a
    mark in at least one of the three marks columns; the columns stay. *)
Theorem clean_dataframe_cleaned df df' :
  clean_dataframe df = Ok df' → cleaned df' ∧ columns df' = columns df.
Proof.
  intros Hc; split; [by eapply clean_dataframe_is_cleaned|].
  by apply clean_dataframe_Ok in Hc as (_ & _ & ? & _).
Qed.

(** Cleaning succeeds exactly when the frame has the subject column and
    the three marks columns; grade points and credits are not needed here. *)
Theorem clean_dataframe_Ok_iff df :
  is_Ok (clean_dataframe df) ↔
  "SUBJECT_NAME" ∈ columns df ∧ marks_columns ⊆ columns df.
Proof.
  rewrite clean_dataframe_unfold; repeat case_decide; simpl; tauto.
Qed.

(** When cleaning fails it raises [KeyError] with labels that the
    frame does not have, the subject column first. *)
Theorem clean_dataframe_KeyError df e :
  clean_dataframe df = Err e →
  ∃ labels, e = KeyError labels ∧ labels ≠ [] ∧
    Forall (λ c, c ∉ columns df) labels ∧
    ("SUBJECT_NAME" ∉ columns df → labels = ["SUBJECT_NAME"]).
Proof.
  rewrite clean_dataframe_unfold; repeat case_decide; intros; simplify_eq.
  - eexists; split_and!; [done|by rewrite marks_columns_present| |done].
    apply Forall_forall; intros c; rewrite list_elem_of_filter; tauto.
  - eexists; split_and!; [done..|by repeat constructor|done].
Qed.

(** C11: Cleaning a cleaned frame changes nothing. *)
Theorem clean_dataframe_idemp df df' :
  clean_dataframe df = Ok df' → clean_dataframe df' = Ok df'.
Proof. intros Hc; by eapply cleaned_fixed, clean_dataframe_is_cleaned. Qed.

(** Cleaning drops rows and rewrites the subject and the numeric columns
    only: a kept row comes from a row of the sheet with every other cell,
    the roll number among them, as it was. *)
Theorem clean_dataframe_untouched df df' r' :
  clean_dataframe df = Ok df' → r' ∈ rows df' →
  ∃ r, r ∈ rows df ∧
    ∀ c, c ≠ "SUBJECT_NAME" → c ∉ numeric_columns → r' !! c = r !! c.
Proof.
  intros (_ & _ & _ & ->)%clean_dataframe_Ok [_ (r & Hr & _ & ->)]%elem_of_clean_rows.
  exists r; split; [done|]; intros c Hc Hn.
  rewrite lookup_coerce_all, decide_False by tauto.
  by apply lookup_insert_ne.
Qed.

(** The typed rows that [process] computes on: the subject is stripped,
    not blank, not "nan", and the three marks are not all missing. *)
Lemma frame_of_cleaned df r :
  cleaned df → r ∈ frame_of df →
  strip (SUBJECT_NAME r) = SUBJECT_NAME r ∧ SUBJECT_NAME r ≠ "" ∧
  lower (SUBJECT_NAME r) ≠ "nan" ∧
  ¬ (INTERNALMARKS r = None ∧ EXTERNALMARKS r = None ∧ TOTALMARKS r = None).
Proof.
  intros (_ & Hm & Hrows) (row & -> & Hrow)%list_elem_of_fmap.
  rewrite Forall_forall in Hrows.
  destruct (Hrows row Hrow) as ((s & Hs & Hstrip & Hne & Hnan) & Hnum & Hmarks).
  assert (SUBJECT_NAME (row_of row) = s) as ->
    by (simpl; unfold subject_of; by rewrite (get_lookup _ _ _ Hs)).
  split_and!; [done..|].
  apply row_of_marks; [|done].
  intros c Hc; apply Hnum; [|by apply Hm]. revert Hc; set_unfold; tauto.
Qed.

End pandas_lemmas.

(** *** The theorems on the sample sheet *)

Lemma clean_sample_sheet : clean_dataframe sample_sheet = Ok sample_cleaned.
Proof. by vm_compute. Qed.

Lemma clean_dataframe_KeyError_witness :
  ∃ labels, KeyError ["INTERNALMARKS"; "TOTALMARKS"] = KeyError labels ∧ labels ≠ [] ∧
    Forall (λ c, c ∉ ["SUBJECT_NAME"; "EXTERNALMARKS"]) labels ∧
    ("SUBJECT_NAME" ∉ ["SUBJECT_NAME"; "EXTERNALMARKS"] → labels = ["SUBJECT_NAME"]).
Proof.
  apply (clean_dataframe_KeyError (mkRawFrame ["SUBJECT_NAME"; "EXTERNALMARKS"] [])).
  by vm_compute.
Defined.

Lemma clean_dataframe_cleaned_witness :
  cleaned sample_cleaned ∧ columns sample_cleaned = columns sample_sheet.
Proof. apply (clean_dataframe_cleaned sample_sheet), clean_sample_sheet. Defined.

Lemma clean_dataframe_idemp_witness : clean_dataframe sample_cleaned = Ok sample_cleaned.
Proof. apply (clean_dataframe_idemp sample_sheet), clean_sample_sheet. Defined.
