(* ===== verification/Process.v ===== *)
(** * The computation of [process]

    What [process] of [src/app1.py] computes between reading the workbook
    and rendering the page: the cleaned frame is classified, the column
    reads of the loops raise [KeyError] where the frame lacks the column,
    the four result tables are built by the components, and the two
    ranking tables are written to the export workbook, one sheet per
    subject under the first thirty characters of its name. *)

From Stdlib Require Import Ascii Qcanon.
From stdpp Require Import gmap.
From S2P Require Import Prelude.
From S2P Require Import Numeric.
From S2P Require Import Sorting.
From S2P Require Import Frame.
From S2P Require Import Classifier.
From S2P Require Import Aggregator.
From S2P Require Import Histogram.
From S2P Require Import Ranker.
From S2P Require Import Cleaner.

Local Open Scope Q_scope.

(** ** Definitions *)

(** The values that [process] hands to the results page. *)
Record Results : Type := mkResults {
  res_student_metrics : list StudentMetric;
  res_rank_list : list RankEntry;
  res_subject_wise_top5 : list (string * list SubjectRank);
  res_failure_distribution : list Bucket;
  res_failed_subjects_by_student : list FailedSubjects;
  res_subject_metrics : list SubjectMetric
}.

(** [passed_g["CREDITS"].sum()] of line 134. *)
Definition total_credits (g : list CRow) : Q :=
  nansum ((λ r : CRow, CREDITS r) <$> passed_rows g).

(** The tables of lines 116-228 on a classified frame. *)
Definition results_of (df : list CRow) : Results :=
  let acc := student_loop df in
  {| res_student_metrics := student_metrics acc;
     res_rank_list := top5_rank_list (rank_list acc);
     res_subject_wise_top5 := subject_wise_top5 df;
     res_failure_distribution := failure_distribution (failure_map acc);
     res_failed_subjects_by_student := failed_subjects_by_student acc;
     res_subject_metrics := subject_metrics df |}.

Section pandas.
Context `{!Pandas}.

(** Lines 102-228 on the cleaned frame, with the exceptions of the column
    reads: [df.groupby("HTNO")] at line 126, [passed_g["CREDITS"]] at line
    134 in the first turn of the student loop, [passed_g["GRADE_POINTS"]]
    at line 136 for the first student with credits. *)
Definition analyse (optional_subjects : list string) (df : RawFrame) : result exn Results :=
  if decide (rows df = [] ∧ apply_empty_raises = true) then Err EmptyFrameApply
  else
    let cdf := classify optional_subjects (frame_of df) in
    if decide ("HTNO" ∈ columns df) then
      let groups := groupby_HTNO cdf in
      if decide (groups ≠ [] ∧ ("CREDITS" ∉ columns df)) then Err (KeyError ["CREDITS"])
      else if decide (("GRADE_POINTS" ∉ columns df) ∧
                      Exists (λ hg, 0 < total_credits hg.2) groups)
      then Err (KeyError ["GRADE_POINTS"])
      else Ok (results_of cdf)
    else Err (KeyError ["HTNO"]).

(** Cleaning and analysis of the frame that [read_excel] returned. *)
Definition process_frame (optional_subjects : list string) (df : RawFrame)
    : result exn Results :=
  clean_dataframe df ≫= analyse optional_subjects.

(** *** The export workbook *)

Definition cell_of_rollno (h : option RollNo) : cell :=
  match h with
  | Some (RollStr s) => CStr s
  | Some (RollNum q) => CNum q
  | None => CEmpty
  end.

Definition cell_of_num (x : num) : cell :=
  match x with Some q => CNum q | None => CEmpty end.

(** [pd.DataFrame(records)] of a list of dicts with the same keys. *)
Definition table (cols : list string) (records : list (list cell)) : RawFrame :=
  if decide (records = []) then {| columns := []; rows := [] |}
  else {| columns := cols; rows := (λ r, list_to_map (zip cols r)) <$> records |}.

Definition rank_table (l : list RankEntry) : RawFrame :=
  table ["HTNO"; "SGPA"; "Rank"]
    ((λ e, [cell_of_rollno (Some (re_HTNO e)); CNum (re_SGPA e);
            CNum (Qnat (re_Rank e))]) <$> l).

Definition subject_table (l : list SubjectRank) : RawFrame :=
  table ["Rank"; "HTNO"; "TOTALMARKS"]
    ((λ e, [CNum (Qnat (sr_Rank e)); cell_of_rollno (sr_HTNO e);
            cell_of_num (sr_TOTALMARKS e)]) <$> l).

(** The columns that a sheet of the export can have. *)
Definition export_columns : list string := ["HTNO"; "SGPA"; "Rank"; "TOTALMARKS"].

Definition sheet_columns_ok (sh : string * RawFrame) : Prop :=
  columns sh.2 ⊆ export_columns.

(** [subject[:30]]. *)
Definition sheet_name (subject : string) : string := String.substring 0 30 subject.

(** The [to_excel] calls of lines 235-240, in order. *)
Definition export_writes (res : Results) : list (string * RawFrame) :=
  ("Top 5 Overall Ranks"%string, rank_table (res_rank_list res)) ::
  ((λ sd : string * list SubjectRank, (sheet_name sd.1, subject_table sd.2))
     <$> res_subject_wise_top5 res).

(** [data.to_excel(writer, name)]: a new sheet goes last, if the writer
    accepts its title; a sheet of that name is written over. *)
Fixpoint to_excel (wb : list (string * RawFrame)) (name : string) (data : RawFrame)
    : result exn (list (string * RawFrame)) :=
  match wb with
  | [] => if valid_title name then Ok [(name, data)] else Err (InvalidSheetTitle name)
  | (n, old) :: wb' =>
      if decide (n = name) then Ok ((n, overlay old data) :: wb')
      else (λ wb'', (n, old) :: wb'') <$> to_excel wb' name data
  end.

(** One write of the [with] block: after an exception nothing more is
    written. *)
Definition export_step (acc : list (string * RawFrame) * option exn)
    (w : string * RawFrame) : list (string * RawFrame) * option exn :=
  match acc.2 with
  | Some _ => acc
  | None =>
      match to_excel acc.1 w.1 w.2 with
      | Ok wb => (wb, None)
      | Err e => (acc.1, Some e)
      end
  end.

(** The [with pd.ExcelWriter(...)] block of lines 234-240: the workbook
    that the writer saves when the block is left, and the exception that
    ended the block, if one did. *)
Definition export (res : Results) : list (string * RawFrame) * option exn :=
  foldl export_step ([], None) (export_writes res).

End pandas.

(** The sample sheet with roll numbers, marks, grade points and credits. *)
Definition sample_results : result exn Results :=
  process_frame ["MATHS"] sample_sheet.

Definition sample_res : Results :=
  match sample_results with Ok res => res | Err _ => results_of [] end.

(** Two subjects that differ in their thirty-first character only, and
    results that rank one student in each. *)
Definition long_subject (last : string) : string :=
  ("ADVANCED DATA STRUCTURES LAB-0" +:+ last)%string.

Definition collision_results : Results :=
  {| res_student_metrics := []; res_rank_list := [];
     res_subject_wise_top5 :=
       [ (long_subject "1", [mkSubjectRank 1 (Some (RollStr "S1")) (Some 70)]);
         (long_subject "2", [mkSubjectRank 1 (Some (RollStr "S2")) (Some 80)]) ];
     res_failure_distribution := []; res_failed_subjects_by_student := [];
     res_subject_metrics := [] |}.

(** ** Lemmas *)

Lemma length_substring_0 n s :
  String.length (String.substring 0 n s) = (n `min` String.length s)%nat.
Proof.
  revert s; induction n as [|n IH]; intros [|a s]; simpl; try done.
  by rewrite IH.
Qed.

Lemma substring_0_id n s : (String.length s ≤ n)%nat → String.substring 0 n s = s.
Proof.
  revert s; induction n as [|n IH]; intros [|a s]; simpl; try done; [lia|].
  intros ?; rewrite IH; [done|lia].
Qed.

Section process_lemmas.
Context `{!Pandas}.

Lemma analyse_Ok opt df res :
  analyse opt df = Ok res →
  res = results_of (classify opt (frame_of df)) ∧ "HTNO" ∈ columns df ∧
  ¬ (rows df = [] ∧ apply_empty_raises = true).
Proof. unfold analyse; repeat case_decide; intros; by simplify_eq. Qed.

Lemma elem_of_subject_metrics (df : list CRow) m :
  m ∈ subject_metrics df → ∃ r : CRow, r ∈ df ∧ SUBJECT_NAME r = sub_Subject m.
Proof.
  intros Hm%(list_elem_of_fmap_2 sub_Subject); revert Hm.
  rewrite subject_metrics_summary, fmap_sub_Subject.
  unfold groupby_SUBJECT_NAME; rewrite groupby_keys.
  intros (r & Hr & [= Hk])%elem_of_group_keys; eauto.
Qed.

Lemma analyse_Err opt df e :
  analyse opt df = Err e → (∃ labels, e = KeyError labels) ∨ e = EmptyFrameApply.
Proof. unfold analyse; repeat case_decide; intros; simplify_eq; eauto. Qed.

Lemma process_frame_Err opt df e :
  process_frame opt df = Err e → (∃ labels, e = KeyError labels) ∨ e = EmptyFrameApply.
Proof.
  intros [Hc|(df' & _ & Ha)]%result_bind_Err_inv; [|by eapply analyse_Err].
  revert Hc; rewrite clean_dataframe_unfold; repeat case_decide; intros; simplify_eq; eauto.
Qed.

(** *** The export *)

Lemma table_columns cols records c : c ∈ columns (table cols records) → c ∈ cols.
Proof. unfold table; case_decide; simpl; [by intros ?%elem_of_nil|done]. Qed.

Lemma export_writes_columns res : Forall sheet_columns_ok (export_writes res).
Proof.
  unfold export_writes; constructor; [|apply Forall_fmap, Forall_true; intros sd].
  all: intros c Hc%table_columns; revert Hc; unfold export_columns; set_unfold; tauto.
Qed.

Lemma to_excel_Err wb name data e :
  to_excel wb name data = Err e → e = InvalidSheetTitle name ∧ valid_title name = false.
Proof.
  induction wb as [|[n old] wb IH]; simpl.
  - destruct (valid_title name); [done|by intros [= <-]].
  - case_decide; [done|]. destruct (to_excel wb name data); [done|].
    intros [= <-]; by apply IH.
Qed.

Lemma to_excel_fresh wb name data :
  name ∉ wb.*1 → valid_title name = true →
  to_excel wb name data = Ok (wb ++ [(name, data)]).
Proof.
  intros Hn Hv; induction wb as [|[n old] wb IH]; simpl; [by rewrite Hv|].
  rewrite decide_False by (intros ->; apply Hn; by left).
  rewrite IH; [done|]. intros ?; apply Hn; by right.
Qed.

Lemma to_excel_columns wb name data wb' :
  Forall sheet_columns_ok wb → sheet_columns_ok (name, data) →
  to_excel wb name data = Ok wb' → Forall sheet_columns_ok wb'.
Proof.
  intros Hwb Hd; revert wb'; induction Hwb as [|[n old] wb Hold Hwb IH]; intros wb'; simpl.
  - destruct (valid_title name); intros [= <-]; by constructor.
  - case_decide.
    + intros [= <-]; constructor; [|done].
      intros c [?|?]%overlay_columns; [by apply Hold|by apply Hd].
    + destruct (to_excel wb name data) as [wb''|]; intros [= <-].
      constructor; [done|by apply IH].
Qed.

Lemma export_step_columns acc w :
  Forall sheet_columns_ok acc.1 → sheet_columns_ok w →
  Forall sheet_columns_ok (export_step acc w).1.
Proof.
  intros Hacc Hw; unfold export_step; destruct acc.2; [done|].
  destruct (to_excel acc.1 w.1 w.2) eqn:Hx; [|done].
  eapply to_excel_columns; [done| |done]. by destruct w.
Qed.

Lemma export_columns_ok res : Forall sheet_columns_ok (export res).1.
Proof.
  unfold export; apply foldl_invariant; [|by constructor].
  intros acc w Hw Hacc; apply export_step_columns; [done|].
  by eapply Forall_forall; [apply export_writes_columns|].
Qed.

Lemma foldl_export_step_fresh ws wb :
  NoDup (wb.*1 ++ ws.*1) → Forall (λ w, valid_title w.1 = true) ws →
  foldl export_step (wb, None) ws = (wb ++ ws, None).
Proof.
  revert wb; induction ws as [|[n d] ws IH]; intros wb Hnd Hv; simpl.
  { by rewrite app_nil_r. }
  apply Forall_cons in Hv as [Hn Hv].
  unfold export_step at 2; simpl.
  rewrite to_excel_fresh; [|by apply NoDup_app in Hnd as (_ & Hd & _); intros ?; eapply Hd; [|left]|done].
  rewrite IH, <-app_assoc; [done| |done].
  by rewrite fmap_app, <-app_assoc.
Qed.

(** *** Theorems *)

(** C26: [process] needs the subject, the three marks and the roll number
    columns: without one of them it raises. *)
Theorem process_frame_required_columns opt df :
  is_Ok (process_frame opt df) →
  Forall (λ c, c ∈ columns df)
    ["SUBJECT_NAME"; "INTERNALMARKS"; "EXTERNALMARKS"; "TOTALMARKS"; "HTNO"].
Proof.
  unfold process_frame; destruct (clean_dataframe df) as [df'|] eqn:Hc; [|done].
  apply clean_dataframe_Ok in Hc as (Hs & Hm & Hcols & _); simpl.
  destruct (analyse opt df') as [res|] eqn:Ha; [|done]; intros _.
  apply analyse_Ok in Ha as (_ & Hh & _); rewrite Hcols in Hh.
  repeat constructor; [done|apply Hm; compute_done..|done].
Qed.

(** The exception names the subject column when it is absent, whatever
    else is absent. *)
Lemma process_frame_first_missing opt df :
  "SUBJECT_NAME" ∉ columns df →
  process_frame opt df = Err (KeyError ["SUBJECT_NAME"]).
Proof.
  intros Hs; unfold process_frame.
  by rewrite clean_dataframe_unfold, decide_False.
Qed.

(** C12: With the seven columns present [process] computes its tables,
    whatever the cells hold, unless no row is left after cleaning and
    pandas refuses the classification of an empty frame. *)
Theorem process_frame_total opt df :
  "SUBJECT_NAME" :: "HTNO" :: numeric_columns ⊆ columns df →
  is_Ok (process_frame opt df) ↔
  ¬ (clean_rows (columns df) (rows df) = [] ∧ apply_empty_raises = true).
Proof.
  intros Hcols; unfold process_frame.
  assert (∀ c, c ∈ "SUBJECT_NAME" :: "HTNO" :: numeric_columns → c ∈ columns df)
    as Hc by done.
  rewrite clean_dataframe_unfold, !decide_True;
    [|intros c Hin; apply Hc; revert Hin; unfold marks_columns, numeric_columns;
      set_unfold; tauto|apply Hc; compute_done].
  simpl; unfold analyse; simpl.
  rewrite (decide_True (P := "HTNO" ∈ columns df)) by (apply Hc; compute_done).
  case_decide; [simpl; tauto|].
  rewrite !decide_False; [done|..].
  - intros [Hn _]; apply Hn, Hc; compute_done.
  - intros [_ Hn]; apply Hn, Hc; compute_done.
Qed.

(** The subjects of the subject table are subject names as cleaning
    leaves them: stripped, not blank, and not "nan". *)
Theorem process_frame_subjects opt df res :
  process_frame opt df = Ok res →
  Forall (λ m, strip (sub_Subject m) = sub_Subject m ∧ sub_Subject m ≠ "" ∧
               lower (sub_Subject m) ≠ "nan") (res_subject_metrics res).
Proof.
  intros (df' & Hc%clean_dataframe_is_cleaned & (-> & _)%analyse_Ok)%result_bind_Ok_inv.
  apply Forall_forall; intros m (r & Hr & <-)%elem_of_subject_metrics.
  assert (crow r ∈ frame_of df') as Hin.
  { rewrite <-(classify_rows opt (frame_of df')). by apply list_elem_of_fmap_2. }
  destruct (frame_of_cleaned df' r Hc Hin) as (? & ? & ? & _); done.
Qed.

(** A sheet name has at most thirty characters, and is the subject name
    when that has at most thirty. *)
Theorem sheet_name_length subject :
  String.length (sheet_name subject) = (30 `min` String.length subject)%nat ∧
  ((String.length subject ≤ 30)%nat → sheet_name subject = subject).
Proof.
  split; [apply length_substring_0|apply substring_0_id].
Qed.


(** No sheet of the saved workbook has a subject column. *)
Theorem export_no_subject_column res sh :
  sh ∈ (export res).1 → "SUBJECT_NAME" ∉ columns sh.2.
Proof.
  intros Hsh Hc.
  pose proof (proj1 (Forall_forall _ _) (export_columns_ok res) sh Hsh _ Hc) as Hin.
  revert Hin; compute_done.
Qed.

(** The export raises only for a sheet title that the writer refuses. *)
Lemma export_raises res e :
  (export res).2 = Some e →
  ∃ t, t ∈ (export_writes res).*1 ∧ e = InvalidSheetTitle t ∧ valid_title t = false.
Proof.
  unfold export; revert e.
  apply (foldl_invariant (λ acc, ∀ e, acc.2 = Some e → _)); [|done].
  intros acc w Hw%(list_elem_of_fmap_2 fst) IH e; unfold export_step.
  destruct acc.2 as [e'|] eqn:Hacc; [by rewrite Hacc; intros [= <-]; apply IH|].
  destruct (to_excel acc.1 w.1 w.2) eqn:Hx; [done|intros [= <-]].
  apply to_excel_Err in Hx as [-> Hv]; eauto.
Qed.

End process_lemmas.

(** *** The theorems on the examples *)


Lemma process_sample_sheet : is_Ok sample_results.
Proof. by vm_compute. Qed.

Lemma process_frame_required_columns_witness :
  Forall (λ c, c ∈ columns sample_sheet)
    ["SUBJECT_NAME"; "INTERNALMARKS"; "EXTERNALMARKS"; "TOTALMARKS"; "HTNO"].
Proof. apply (process_frame_required_columns ["MATHS"]), process_sample_sheet. Defined.

Lemma process_frame_sample : process_frame ["MATHS"] sample_sheet = Ok sample_res.
Proof. by vm_compute. Qed.

Lemma process_frame_subjects_witness :
  Forall (λ m, strip (sub_Subject m) = sub_Subject m ∧ sub_Subject m ≠ "" ∧
               lower (sub_Subject m) ≠ "nan") (res_subject_metrics sample_res).
Proof. apply (process_frame_subjects ["MATHS"] sample_sheet), process_frame_sample. Defined.


Lemma process_frame_total_witness :
  is_Ok (process_frame ["MATHS"] sample_sheet) ↔
  ¬ (clean_rows (columns sample_sheet) (rows sample_sheet) = [] ∧
     apply_empty_raises = true).
Proof. apply process_frame_total; compute_done. Defined.
