(* ===== verification/Handlers.v ===== *)
(** * The request handlers

    The routes of [src/app1.py] as functions from a state and a request to
    a state and a response.  The state is what the handlers share: the
    files of the upload folder, and for each client the file name that its
    session cookie holds.  [handle] dispatches a request; [run] serves a
    list of requests in order; [reachable] are the states that requests
    lead to from the empty folder. *)

From Stdlib Require Import Ascii Qcanon.
From stdpp Require Import gmap.
From S2P Require Import Prelude.
From S2P Require Import Numeric.
From S2P Require Import Sorting.
From S2P Require Import Frame.
From S2P Require Import Classifier.
From S2P Require Import Aggregator.
From S2P Require Import Histogram.
From S2P Require Import Ranker.
From S2P Require Import Cleaner.
From S2P Require Import Process.

(** ** Definitions *)

(** A file of the upload folder: a workbook with its sheets in order, or
    bytes that [read_excel] cannot read. *)
Inductive file : Type :=
| Workbook (sheets : list (string * RawFrame))
| NotExcel.

Definition client : Set := nat.

Record State : Type := mkState {
  files : gmap string file;
  sessions : gmap client string
}.

Definition initial_state : State := {| files := ∅; sessions := ∅ |}.

Inductive Request : Type :=
| Home
| Upload (c : client) (upload_file : option (string * file))
| Process (c : client) (optional_subjects : list string)
| SearchGet (c : client)
| SearchPost (c : client) (htno : option string)
| Download.

Inductive Response : Type :=
| UploadPage
| Text (msg : string)
| InvalidExcelFile
| SelectSubjects (subjects : list (nat * string))
| ResultsPage (res : Results) (file_name : string)
| SearchPage (found : option (list (gmap string cell) * string))
| Attachment (f : file)
| BadRequest
| InternalServerError (e : exn).

Definition UPLOAD_FOLDER : string := "uploads".

(** [os.path.join(folder, name)]: an absolute name stands for itself. *)
Definition path_join (folder name : string) : string :=
  match name with
  | String "/" _ => name
  | _ => folder +:+ "/" +:+ name
  end.

Definition export_path : string := path_join UPLOAD_FOLDER "Result_Analytics.xlsx".

Definition session_expired : string := "Session expired. Please upload the file again.".

(** [pd.read_excel(path)]: the first sheet of the workbook. *)
Definition read_excel (path : string) (fs : gmap string file) : result exn RawFrame :=
  match fs !! path with
  | None => Err (FileNotFoundError path)
  | Some NotExcel => Err BadExcelFile
  | Some (Workbook []) => Err BadExcelFile
  | Some (Workbook ((_, df) :: _)) => Ok df
  end.

(** [session.get("file_name")] with the test [if not file_name]. *)
Definition session_file (c : client) (st : State) : option string :=
  match sessions st !! c with
  | Some file_name => if decide (file_name = "") then None else Some file_name
  | None => None
  end.

Section pandas.
Context `{!Pandas}.

(** Lines 71-76: [enumerate(sorted(df["SUBJECT_NAME"].unique()), start=1)]. *)
Definition subjects_of (df : RawFrame) : list (nat * string) :=
  enumerate 1 (sorted_keys String.le (subject_of <$> rows df)).

Definition upload (c : client) (upload_file : option (string * file)) (st : State)
    : State * Response :=
  match upload_file with
  | None => (st, Text "No file selected")
  | Some (filename, content) =>
      if decide (filename = "" ∨ strip filename = "") then (st, Text "No file selected")
      else
        let path := path_join UPLOAD_FOLDER filename in
        let st := {| files := <[path := content]> (files st);
                     sessions := <[c := filename]> (sessions st) |} in
        match read_excel path (files st) with
        | Err _ => (st, InvalidExcelFile)
        | Ok df =>
            match clean_dataframe df with
            | Err e => (st, InternalServerError e)
            | Ok df =>
                let subjects := subjects_of df in
                if decide (subjects = [])
                then (st, Text "No valid subjects found in the file.")
                else (st, SelectSubjects subjects)
            end
        end
  end.

Definition process (c : client) (optional_subjects : list string) (st : State)
    : State * Response :=
  match session_file c st with
  | None => (st, Text session_expired)
  | Some file_name =>
      match read_excel (path_join UPLOAD_FOLDER file_name) (files st)
              ≫= process_frame optional_subjects with
      | Err e => (st, InternalServerError e)
      | Ok res =>
          let '(wb, raised) := export res in
          let st := {| files := <[export_path := Workbook wb]> (files st);
                       sessions := sessions st |} in
          match raised with
          | Some e => (st, InternalServerError e)
          | None => (st, ResultsPage res file_name)
          end
      end
  end.

(** [df[df["HTNO"] == htno]] with the text of the form. *)
Definition student_data (df : RawFrame) (htno : string) : list (gmap string cell) :=
  filter (λ row, get row "HTNO" = CStr htno) (rows df).

Definition search (c : client) (post : option (option string)) (st : State)
    : State * Response :=
  match session_file c st with
  | None => (st, Text session_expired)
  | Some file_name =>
      match post with
      | None => (st, SearchPage None)
      | Some None => (st, BadRequest)
      | Some (Some htno) =>
          match read_excel (path_join UPLOAD_FOLDER file_name) (files st)
                  ≫= clean_dataframe with
          | Err e => (st, InternalServerError e)
          | Ok df =>
              if decide ("HTNO" ∈ columns df)
              then (st, SearchPage (Some (student_data df htno, htno)))
              else (st, InternalServerError (KeyError ["HTNO"]))
          end
      end
  end.

Definition download (st : State) : State * Response :=
  match files st !! export_path with
  | Some f => (st, Attachment f)
  | None => (st, InternalServerError (FileNotFoundError export_path))
  end.

(** The routes. *)
Definition handle (st : State) (req : Request) : State * Response :=
  match req with
  | Home => (st, UploadPage)
  | Upload c upload_file => upload c upload_file st
  | Process c optional_subjects => process c optional_subjects st
  | SearchGet c => search c None st
  | SearchPost c htno => search c (Some htno) st
  | Download => download st
  end.

(** Requests served one after the other, with their responses. *)
Definition run_step (acc : State * list Response) (req : Request) : State * list Response :=
  let '(st, resp) := handle acc.1 req in (st, acc.2 ++ [resp]).

Definition run (reqs : list Request) (st : State) : State * list Response :=
  foldl run_step (st, []) reqs.

Inductive reachable : State → Prop :=
| reachable_initial : reachable initial_state
| reachable_handle st req : reachable st → reachable (handle st req).1.

(** Every session names a file of the upload folder. *)
Definition session_ok (st : State) : Prop :=
  ∀ c file_name, sessions st !! c = Some file_name →
    strip file_name ≠ "" ∧ is_Some (files st !! path_join UPLOAD_FOLDER file_name).

End pandas.

(** A workbook of the examples with the sample sheet. *)
Definition sample_workbook : file := Workbook [("Sheet1"%string, sample_sheet)].

(** A workbook in which the roll numbers are numeric cells. *)
Definition numeric_workbook : file :=
  Workbook [("Sheet1"%string,
    {| columns := ["HTNO"; "SUBJECT_NAME"; "INTERNALMARKS"; "EXTERNALMARKS";
                   "TOTALMARKS"; "GRADE_POINTS"; "CREDITS"];
       rows := [ {[ "HTNO" := CNum 101; "SUBJECT_NAME" := CStr "MATHS";
                    "INTERNALMARKS" := CNum 20; "EXTERNALMARKS" := CNum 50;
                    "TOTALMARKS" := CNum 70; "GRADE_POINTS" := CNum 9;
                    "CREDITS" := CNum 4 ]} ]%string |})].

(** The states of the examples: after the upload of the sample workbook
    by client 1, after its [process]; the same under the name of the
    export; and after the upload of a text file by client 2. *)
Definition uploaded_state : State :=
  (handle initial_state (Upload 1 (Some ("marks.xlsx"%string, sample_workbook)))).1.

Definition processed_state : State :=
  (handle uploaded_state (Process 1 ["MATHS"%string])).1.

Definition collision_state : State :=
  (handle initial_state (Upload 1 (Some ("Result_Analytics.xlsx"%string, sample_workbook)))).1.

Definition collided_state : State :=
  (handle collision_state (Process 1 ["MATHS"%string])).1.

Definition invalid_state : State :=
  (handle initial_state (Upload 2 (Some ("notes.txt"%string, NotExcel)))).1.

Definition sample_requests : list Request :=
  [ Upload 1 (Some ("marks.xlsx"%string, sample_workbook));
    Process 1 ["MATHS"%string];
    Upload 2 (Some ("notes.txt"%string, NotExcel));
    Process 2 [];
    SearchPost 1 (Some "S2"%string);
    Download ].

(** ** Lemmas *)

Section handlers.
Context `{!Pandas}.

Lemma session_file_Some c st file_name :
  session_file c st = Some file_name ↔
  sessions st !! c = Some file_name ∧ file_name ≠ "".
Proof.
  unfold session_file; destruct (sessions st !! c) as [n|]; [|by split; [|intros []]].
  case_decide as Hn; split; try done.
  - intros [[= <-] Hne]; by destruct Hne.
  - by intros [= <-].
  - by intros [[= <-] _].
Qed.

Lemma session_file_None c st : sessions st !! c = None → session_file c st = None.
Proof. unfold session_file; by intros ->. Qed.

(** *** The state after a request *)

Lemma upload_state c uf st :
  (upload c uf st).1 = st ∨
  ∃ filename content, uf = Some (filename, content) ∧ strip filename ≠ "" ∧
    (upload c uf st).1 =
      {| files := <[path_join UPLOAD_FOLDER filename := content]> (files st);
         sessions := <[c := filename]> (sessions st) |}.
Proof.
  unfold upload; destruct uf as [[filename content]|]; [|by left].
  case_decide as Hn; [by left|right].
  exists filename, content; split_and!; [done|tauto|].
  repeat case_match; done.
Qed.

Lemma process_state c opt st :
  (process c opt st).1 = st ∨
  ∃ wb, (process c opt st).1 =
    {| files := <[export_path := Workbook wb]> (files st); sessions := sessions st |}.
Proof.
  unfold process; repeat case_match; simpl; eauto.
Qed.

Lemma search_state c post st : (search c post st).1 = st.
Proof. unfold search; by repeat case_match. Qed.

Lemma download_state st : (download st).1 = st.
Proof. unfold download; by case_match. Qed.

(** *** The invariant of the sessions *)

Lemma session_ok_write path f st :
  session_ok st →
  session_ok {| files := <[path := f]> (files st); sessions := sessions st |}.
Proof.
  intros Hok c n Hc; destruct (Hok c n Hc) as [Hs Hf]; split; [done|]; simpl.
  destruct (decide (path = path_join UPLOAD_FOLDER n)) as [->|Hne].
  - by rewrite lookup_insert_eq.
  - by rewrite lookup_insert_ne.
Qed.

Lemma session_ok_upload c filename content st :
  strip filename ≠ "" → session_ok st →
  session_ok {| files := <[path_join UPLOAD_FOLDER filename := content]> (files st);
                sessions := <[c := filename]> (sessions st) |}.
Proof.
  intros Hn Hok c' n; simpl; destruct (decide (c = c')) as [->|Hc].
  - rewrite lookup_insert_eq; intros [= <-]; by rewrite lookup_insert_eq.
  - rewrite lookup_insert_ne by done; intros Hc'.
    by apply (session_ok_write _ content st Hok c' n).
Qed.

Lemma handle_session_ok st req : session_ok st → session_ok (handle st req).1.
Proof.
  intros Hok; destruct req as [|c uf|c opt|c|c htno|]; simpl;
    rewrite ?search_state, ?download_state; try done.
  - destruct (upload_state c uf st) as [->|(n & f & _ & Hn & ->)]; [done|].
    by apply session_ok_upload.
  - destruct (process_state c opt st) as [->|(wb & ->)]; [done|].
    by apply session_ok_write.
Qed.

Lemma reachable_session_ok_aux st : reachable st → session_ok st.
Proof.
  induction 1 as [|st req _ IH]; [by intros c n ?|by apply handle_session_ok].
Qed.

Lemma read_excel_session c st file_name e :
  session_ok st → session_file c st = Some file_name →
  read_excel (path_join UPLOAD_FOLDER file_name) (files st) = Err e →
  e = BadExcelFile.
Proof.
  intros Hok [Hc _]%session_file_Some; destruct (Hok c file_name Hc) as [_ [f Hf]].
  unfold read_excel; rewrite Hf; repeat case_match; by intros [= <-].
Qed.

(** *** What a response tells about the request *)

Lemma upload_SelectSubjects c uf st st1 subs :
  upload c uf st = (st1, SelectSubjects subs) →
  ∃ filename content df df',
    uf = Some (filename, content) ∧ filename ≠ "" ∧
    st1 = {| files := <[path_join UPLOAD_FOLDER filename := content]> (files st);
             sessions := <[c := filename]> (sessions st) |} ∧
    read_excel (path_join UPLOAD_FOLDER filename) (files st1) = Ok df ∧
    clean_dataframe df = Ok df' ∧ subs = subjects_of df'.
Proof.
  unfold upload; destruct uf as [[filename content]|]; [|done].
  case_decide as Hn; [done|].
  destruct (read_excel _ _) as [df|] eqn:Hr; [|done].
  destruct (clean_dataframe df) as [df'|] eqn:Hc; [|done].
  case_decide; [done|]. intros [= <- <-].
  exists filename, content, df, df'; split_and!; (done || tauto).
Qed.

Lemma process_ResultsPage c opt st st' res file_name :
  process c opt st = (st', ResultsPage res file_name) →
  session_file c st = Some file_name ∧
  (∃ df, read_excel (path_join UPLOAD_FOLDER file_name) (files st) = Ok df ∧
         process_frame opt df = Ok res) ∧
  (export res).2 = None ∧
  st' = {| files := <[export_path := Workbook (export res).1]> (files st);
           sessions := sessions st |}.
Proof.
  unfold process; destruct (session_file c st) as [n|]; [|done].
  destruct (read_excel _ _) as [df|] eqn:Hr; [|done]; simpl.
  destruct (process_frame opt df) as [r|] eqn:Hp; [|done].
  destruct (export r) as [wb [e|]] eqn:Hx; [done|].
  intros [= <- <- <-]; rewrite Hx; eauto 10.
Qed.

Lemma read_excel_insert path f fs :
  read_excel path (<[path := f]> fs)
  = match f with
    | Workbook ((_, df) :: _) => Ok df
    | _ => Err BadExcelFile
    end.
Proof. unfold read_excel; rewrite lookup_insert_eq; by repeat case_match. Qed.

(** The subjects of the selection page are the rows of the subject table. *)
Lemma subjects_of_subject_metrics opt df :
  subjects_of df =
  (λ m, (sub_SNo m, sub_Subject m)) <$> subject_metrics (classify opt (frame_of df)).
Proof.
  rewrite subject_metrics_summary, <-list_fmap_compose.
  unfold subjects_of, groupby_SUBJECT_NAME.
  set (groups := groupby _ _ _).
  transitivity (enumerate 1 groups.*1).
  - unfold groups, group_keys; rewrite groupby_keys; unfold group_keys.
    rewrite omap_Some_fmap; do 2 f_equal.
    unfold classify, frame_of; rewrite <-!list_fmap_compose.
    by apply list_fmap_ext.
  - rewrite enumerate_fmap; apply list_fmap_ext; by intros ? [i [s g]] _.
Qed.

Lemma run_snoc reqs req st :
  (run (reqs ++ [req]) st).1 = (handle (run reqs st).1 req).1.
Proof.
  unfold run; rewrite foldl_app; simpl; unfold run_step at 1.
  by destruct (handle _ req).
Qed.

Lemma handle_sessions_other st req c :
  (∀ uf, req ≠ Upload c uf) → sessions (handle st req).1 !! c = sessions st !! c.
Proof.
  intros Hreq; destruct req as [|c' uf|c' opt|c'|c' htno|]; simpl;
    rewrite ?search_state, ?download_state; try done.
  - destruct (upload_state c' uf st) as [->|(n & f & _ & _ & ->)]; [done|]; simpl.
    apply lookup_insert_ne; intros ->; by eapply Hreq.
  - by destruct (process_state c' opt st) as [->|(wb & ->)].
Qed.

Lemma upload_NotExcel c filename st :
  strip filename ≠ "" →
  upload c (Some (filename, NotExcel)) st
  = ({| files := <[path_join UPLOAD_FOLDER filename := NotExcel]> (files st);
        sessions := <[c := filename]> (sessions st) |}, InvalidExcelFile).
Proof.
  intros Hn; assert (filename ≠ "") as Hne by (intros ->; by apply Hn).
  unfold upload; rewrite decide_False by tauto; cbv zeta; cbn [files].
  by rewrite read_excel_insert.
Qed.

(** *** Theorems *)

(** C29: After any requests, every session names a file that is in the upload
    folder, under a name that is not blank. *)
Theorem run_session_ok reqs : session_ok (run reqs initial_state).1.
Proof.
  unfold run; apply (foldl_invariant (λ acc, session_ok acc.1)); [|by intros c n ?].
  intros acc req _ Hok; unfold run_step.
  pose proof (handle_session_ok acc.1 req Hok) as Hh.
  by destruct (handle acc.1 req).
Qed.

(** The reachable states are the states after a list of requests. *)
Theorem reachable_run st : reachable st ↔ ∃ reqs, st = (run reqs initial_state).1.
Proof.
  split.
  - induction 1 as [|st req _ [reqs ->]]; [by exists []|].
    exists (reqs ++ [req]); by rewrite run_snoc.
  - intros [reqs ->]; induction reqs as [|req reqs IH] using rev_ind; [constructor|].
    rewrite run_snoc; by constructor.
Qed.

(** C30: In a reachable state [process] fails only with an unreadable
    workbook, a missing column, the empty frame, or a refused sheet
    title: the file of the session is never missing. *)
Theorem process_errors st c opt e :
  reachable st → (process c opt st).2 = InternalServerError e →
  e = BadExcelFile ∨ (∃ labels, e = KeyError labels) ∨ e = EmptyFrameApply ∨
  ∃ t, e = InvalidSheetTitle t.
Proof.
  intros Hok%reachable_session_ok_aux; unfold process.
  destruct (session_file c st) as [n|] eqn:Hn; [|done].
  destruct (read_excel _ _) as [df|e'] eqn:Hr; simpl.
  - destruct (process_frame opt df) as [res|e'] eqn:Hp.
    + destruct (export res) as [wb [e'|]] eqn:Hx; simpl; [|done].
      intros [= <-]; destruct (export_raises res e') as (t & _ & -> & _); eauto 6.
      by rewrite Hx.
    + intros [= <-]; apply process_frame_Err in Hp as [?|?]; auto.
  - intros [= <-]; left; by eapply read_excel_session.
Qed.

(** A client that has not uploaded is told that its session expired,
    whatever the other clients have done, and the state stays. *)
Theorem run_no_upload_expired reqs c opt :
  (∀ uf, Upload c uf ∉ reqs) →
  process c opt (run reqs initial_state).1
  = ((run reqs initial_state).1, Text session_expired).
Proof.
  intros Hc; unfold process; rewrite session_file_None; [done|].
  unfold run; apply (foldl_invariant (λ acc, sessions acc.1 !! c = None)); [|done].
  intros acc req Hreq Hacc; unfold run_step.
  pose proof (handle_sessions_other acc.1 req c) as Hh.
  destruct (handle acc.1 req); simpl in *; rewrite Hh; [done|].
  intros uf ->; by eapply Hc.
Qed.

(** [process] leaves the sessions and every file but the export. *)
Theorem process_frame_condition c opt st p :
  sessions (process c opt st).1 = sessions st ∧
  (p ≠ export_path → files (process c opt st).1 !! p = files st !! p).
Proof.
  destruct (process_state c opt st) as [->|(wb & ->)]; [done|]; simpl.
  split; [done|]; intros Hp; by rewrite lookup_insert_ne.
Qed.

(** C32: A file that is not a workbook is refused at upload, and the session
    still points to it: [process] then fails on reading it, where a
    session without an accepted upload should have expired. *)
Theorem upload_invalid_then_process c filename opt st :
  strip filename ≠ "" →
  (upload c (Some (filename, NotExcel)) st).2 = InvalidExcelFile ∧
  (process c opt (upload c (Some (filename, NotExcel)) st).1).2
  = InternalServerError BadExcelFile.
Proof.
  intros Hn; rewrite upload_NotExcel by done; split; [done|]; unfold process.
  rewrite (proj2 (session_file_Some c _ filename)); simpl.
  - by rewrite read_excel_insert.
  - rewrite lookup_insert_eq; split; [done|]. intros ->; by apply Hn.
Qed.

(** C34: The download is the workbook of the last [process] that exported,
    whichever client asked for it. *)
Theorem download_last_writer c1 c2 opt1 opt2 st st1 st2 res1 res2 n1 n2 :
  process c1 opt1 st = (st1, ResultsPage res1 n1) →
  process c2 opt2 st1 = (st2, ResultsPage res2 n2) →
  download st2 = (st2, Attachment (Workbook (export res2).1)).
Proof.
  intros _ (_ & _ & _ & ->)%process_ResultsPage.
  unfold download; simpl; by rewrite lookup_insert_eq.
Qed.

(** C33: When the uploaded file has the name of the export, [process]
    replaces it by the export, and the next [process] of the session
    fails on the rankings that it finds there. *)
Theorem export_name_collision c opt opt' st st1 res n :
  session_file c st = Some "Result_Analytics.xlsx" →
  process c opt st = (st1, ResultsPage res n) →
  ∃ e, process c opt' st1 = (st1, InternalServerError e) ∧
       (e = BadExcelFile ∨ e = KeyError ["SUBJECT_NAME"]).
Proof.
  intros Hs (_ & _ & _ & ->)%process_ResultsPage; unfold process.
  apply session_file_Some in Hs as Hs'.
  assert (session_file c {| files := <[export_path := Workbook (export res).1]> (files st);
                            sessions := sessions st |} = Some "Result_Analytics.xlsx")
    as -> by by apply session_file_Some.
  change (path_join UPLOAD_FOLDER "Result_Analytics.xlsx") with export_path; simpl.
  rewrite read_excel_insert.
  pose proof (export_columns_ok res) as Hcols.
  destruct (export res).1 as [|[nm df] wb]; simpl; [eauto|].
  rewrite process_frame_first_missing; [eauto|].
  apply Forall_cons in Hcols as [Hdf _]; intros Hin%Hdf; revert Hin; compute_done.
Qed.

(** C31: The subjects that the selection page offers after an upload are,
    with their numbers, the subjects of the subject table that [process]
    computes from that upload. *)
Theorem upload_subjects_process c uf opt st st1 st2 subs res n :
  upload c uf st = (st1, SelectSubjects subs) →
  process c opt st1 = (st2, ResultsPage res n) →
  subs = (λ m, (sub_SNo m, sub_Subject m)) <$> res_subject_metrics res.
Proof.
  intros (filename & content & df & df' & _ & _ & -> & Hr & Hc & ->)%upload_SelectSubjects.
  intros ([Hs _]%session_file_Some & (df0 & Hr0 & Hp) & _)%process_ResultsPage.
  cbn [sessions] in Hs; rewrite lookup_insert_eq in Hs; injection Hs as <-.
  rewrite Hr in Hr0; injection Hr0 as <-.
  apply result_bind_Ok_inv in Hp as (df'' & Hc' & (-> & _)%analyse_Ok).
  rewrite Hc in Hc'; injection Hc' as <-.
  apply subjects_of_subject_metrics.
Qed.

(** A search shows rows whose roll number cell is the text of the form,
    and leaves the state: a roll number held as a number is not found. *)
Theorem search_found c htno st st' data h :
  search c (Some (Some htno)) st = (st', SearchPage (Some (data, h))) →
  st' = st ∧ h = htno ∧ Forall (λ row, row !! "HTNO" = Some (CStr htno)) data.
Proof.
  unfold search; repeat case_match; intros; simplify_eq.
  split_and!; [done..|]. apply Forall_forall; intros row [Hrow _]%list_elem_of_filter.
  revert Hrow; unfold get; by destruct (row !! "HTNO") as [[]|]; simpl; intros; simplify_eq.
Qed.

End handlers.

(** *** The theorems on the examples *)


Lemma process_errors_witness :
  BadExcelFile = BadExcelFile ∨ (∃ labels, BadExcelFile = KeyError labels) ∨
  BadExcelFile = EmptyFrameApply ∨ ∃ t, BadExcelFile = InvalidSheetTitle t.
Proof.
  apply (process_errors invalid_state 2 []); [|by vm_compute].
  apply reachable_handle, reachable_initial.
Defined.

Lemma upload_subjects_process_witness :
  [(1, "MATHS"%string)]
  = (λ m, (sub_SNo m, sub_Subject m)) <$> res_subject_metrics sample_res.
Proof.
  apply (upload_subjects_process 1 (Some ("marks.xlsx"%string, sample_workbook))
           ["MATHS"%string] initial_state uploaded_state processed_state _ _
           "marks.xlsx"%string); by vm_compute.
Defined.

Lemma upload_invalid_then_process_witness :
  (upload 2 (Some ("notes.txt"%string, NotExcel)) initial_state).2 = InvalidExcelFile ∧
  (process 2 [] (upload 2 (Some ("notes.txt"%string, NotExcel)) initial_state).1).2
  = InternalServerError BadExcelFile.
Proof. apply upload_invalid_then_process; by vm_compute. Defined.

Lemma download_last_writer_witness :
  download processed_state
  = (processed_state, Attachment (Workbook (export sample_res).1)).
Proof.
  apply (download_last_writer 1 1 ["MATHS"%string] ["MATHS"%string] uploaded_state
           processed_state processed_state sample_res sample_res
           "marks.xlsx"%string "marks.xlsx"%string); by vm_compute.
Defined.

Lemma export_name_collision_witness :
  ∃ e, process 1 [] collided_state = (collided_state, InternalServerError e) ∧
       (e = BadExcelFile ∨ e = KeyError ["SUBJECT_NAME"%string]).
Proof.
  apply (export_name_collision 1 ["MATHS"%string] [] collision_state collided_state
           sample_res "Result_Analytics.xlsx"%string); by vm_compute.
Defined.
