(* ===== verification/Database.v ===== *)
(** * The database of the portal

    The five tables that [src/init_db.py] creates, and the SQL statements
    of [src/app.py] as functions on them.  A table is the list of its rows
    in insertion order with the counter of [AUTOINCREMENT]; the only
    constraints are the ones of the schema: the primary keys, [UNIQUE] on
    [course.name] and on [student.roll_no].  A statement that runs inside
    a transaction is a computation of the monad [tx]: it reads and writes
    the working copy of the database and can raise or return early, in
    which case nothing is committed. *)

From Stdlib Require Import Ascii.
From stdpp Require Import gmap.
From S2P Require Import Prelude.
From S2P Require Import Numeric.

(** ** Definitions *)

Record course_row : Type := mkCourse { c_id : nat; c_name : string }.

Record semester_row : Type := mkSemester {
  sem_id : nat; sem_course_id : nat; sem_year : Z; sem_semester : Z
}.

Record student_row : Type := mkStudent {
  st_id : nat; st_roll_no : string; st_name : string; st_course_id : nat
}.

Record subject_row : Type := mkSubject {
  subj_id : nat; subj_semester_id : nat; subj_subject_name : string;
  subj_credits : num; subj_subject_type : string
}.

Record marks_row : Type := mkMarks {
  m_id : nat; m_student_id : nat; m_subject_id : nat; m_marks : Z;
  m_grade_points : num
}.

(** A table with [INTEGER PRIMARY KEY AUTOINCREMENT]: [t_seq] is the
    largest key that was ever used. *)
Record Table (A : Type) : Type := mkTable { t_rows : list A; t_seq : nat }.
Arguments mkTable {A} _ _.
Arguments t_rows {A} _.
Arguments t_seq {A} _.

Record DB : Type := mkDB {
  course : Table course_row;
  semester : Table semester_row;
  student : Table student_row;
  subject : Table subject_row;
  marks : Table marks_row
}.

Definition empty_table {A} : Table A := {| t_rows := []; t_seq := 0 |}.

(** [src/init_db.py]: each [CREATE TABLE IF NOT EXISTS] makes an empty
    table where there was none and leaves an existing table. *)
Definition init_db (old : option DB) : DB :=
  match old with
  | Some db => db
  | None => {| course := empty_table; semester := empty_table; student := empty_table;
               subject := empty_table; marks := empty_table |}
  end.

(** [INSERT] of a row that takes the next key; the key is [lastrowid]. *)
Definition insert_row {A} (mk : nat → A) (t : Table A) : Table A * nat :=
  let id := S (t_seq t) in
  ({| t_rows := t_rows t ++ [mk id]; t_seq := id |}, id).

(** *** Exceptions and early returns *)

Inductive pyexn : Set :=
| BadRequestKeyError (field : string)
| ValueError
| TypeError
| AttributeError
| ParserError.

(** Why a transaction ends without [commit]: an exception, or a
    [return] with a message before the first write. *)
Inductive abort : Type :=
| Raise (e : pyexn)
| Return (msg : string).

(** *** The transaction monad *)

Definition tx (A : Type) : Type := DB → result abort (A * DB).

#[export] Instance tx_ret : MRet tx := λ A a db, Ok (a, db).

#[export] Instance tx_bind : MBind tx := λ A B f m db,
  match m db with
  | Ok (a, db') => f a db'
  | Err e => Err e
  end.

Definition tx_abort {A} (e : abort) : tx A := λ _, Err e.

(** A value that is there, or the exception of its absence. *)
Definition tx_some {A} (e : pyexn) (x : option A) : tx A :=
  match x with Some a => mret a | None => tx_abort (Raise e) end.

Definition tx_get : tx DB := λ db, Ok (db, db).

(** [for x in l: body(x)]. *)
Fixpoint tx_for {X} (l : list X) (body : X → tx unit) : tx unit :=
  match l with
  | [] => mret tt
  | x :: l' => body x ≫= λ _, tx_for l' body
  end.

(** *** The statements of [src/app.py] *)

(** [SELECT name FROM course]. *)
Definition select_course_names (db : DB) : list string :=
  c_name <$> t_rows (course db).

(** [SELECT id FROM course WHERE name=?] with [fetchone()]. *)
Definition select_course_id (name : string) (db : DB) : option nat :=
  c_id <$> head (filter (λ c, c_name c = name) (t_rows (course db))).

(** [INSERT OR IGNORE INTO course(name)]: ignored when the name exists. *)
Definition insert_or_ignore_course (name : string) (db : DB) : DB :=
  if decide (name ∈ select_course_names db) then db
  else {| course := (insert_row (λ id, mkCourse id name) (course db)).1;
          semester := semester db; student := student db; subject := subject db;
          marks := marks db |}.

(** [INSERT INTO semester(course_id, year, semester)] and [lastrowid]. *)
Definition insert_semester (course_id : nat) (year sem : Z) : tx nat := λ db,
  let r := insert_row (λ id, mkSemester id course_id year sem) (semester db) in
  Ok (r.2, {| course := course db; semester := r.1; student := student db;
              subject := subject db; marks := marks db |}).

(** [INSERT OR IGNORE INTO student(roll_no, name, course_id)]: ignored
    when the roll number exists. *)
Definition insert_or_ignore_student (roll_no name : string) (course_id : nat) : tx unit :=
  λ db,
  if decide (roll_no ∈ st_roll_no <$> t_rows (student db)) then Ok (tt, db)
  else Ok (tt, {| course := course db; semester := semester db;
                  student := (insert_row (λ id, mkStudent id roll_no name course_id)
                                (student db)).1;
                  subject := subject db; marks := marks db |}).

(** [SELECT id FROM student WHERE roll_no=?] with [fetchone()[0]]. *)
Definition select_student_id (roll_no : string) : tx nat := λ db,
  tx_some TypeError
    (st_id <$> head (filter (λ s, st_roll_no s = roll_no) (t_rows (student db)))) db.

(** [INSERT OR IGNORE INTO subject(...)]: the table has no constraint
    besides its key, so nothing is ever ignored. *)
Definition insert_or_ignore_subject (semester_id : nat) (name : string) (credits : num)
    (subject_type : string) : tx unit := λ db,
  Ok (tt, {| course := course db; semester := semester db; student := student db;
             subject := (insert_row (λ id, mkSubject id semester_id name credits subject_type)
                           (subject db)).1;
             marks := marks db |}).

(** [SELECT id FROM subject WHERE semester_id=? AND subject_name=?] with
    [fetchone()[0]]: the first row in key order. *)
Definition select_subject_id (semester_id : nat) (name : string) : tx nat := λ db,
  tx_some TypeError
    (subj_id <$> head (filter (λ s, subj_semester_id s = semester_id ∧
                                    subj_subject_name s = name)
                         (t_rows (subject db)))) db.

(** [INSERT INTO marks(student_id, subject_id, marks, grade_points)]. *)
Definition insert_marks (student_id subject_id : nat) (mk : Z) (grade_points : num)
    : tx unit := λ db,
  Ok (tt, {| course := course db; semester := semester db; student := student db;
             subject := subject db;
             marks := (insert_row (λ id, mkMarks id student_id subject_id mk grade_points)
                         (marks db)).1 |}).

(** *** The keys and the references *)

Definition keys_ok {A} (key : A → nat) (t : Table A) : Prop :=
  NoDup (key <$> t_rows t) ∧ Forall (λ r, 0 < key r ≤ t_seq t)%nat (t_rows t).

(** The constraints of the schema. *)
Definition schema_ok (db : DB) : Prop :=
  keys_ok c_id (course db) ∧ keys_ok sem_id (semester db) ∧
  keys_ok st_id (student db) ∧ keys_ok subj_id (subject db) ∧
  keys_ok m_id (marks db) ∧
  NoDup (c_name <$> t_rows (course db)) ∧
  NoDup (st_roll_no <$> t_rows (student db)).

(** Every reference of a row names a row: the schema declares no foreign
    key, the statements keep them. *)
Definition refs_ok (db : DB) : Prop :=
  Forall (λ s, sem_course_id s ∈ c_id <$> t_rows (course db)) (t_rows (semester db)) ∧
  Forall (λ s, subj_semester_id s ∈ sem_id <$> t_rows (semester db)) (t_rows (subject db)) ∧
  Forall (λ m, m_student_id m ∈ st_id <$> t_rows (student db) ∧
               m_subject_id m ∈ subj_id <$> t_rows (subject db)) (t_rows (marks db)).

(** The database is well formed. *)
Definition db_ok (db : DB) : Prop := schema_ok db ∧ refs_ok db.

(** A transaction step that ends early only by an exception. *)
Definition raises {A} (m : tx A) : Prop :=
  ∀ db a, m db = Err a → ∃ e, a = Raise e.

(** The tables only grow: the rows of [db] are the first rows of [db']. *)
Definition db_extends (db db' : DB) : Prop :=
  t_rows (course db) `prefix_of` t_rows (course db') ∧
  t_rows (semester db) `prefix_of` t_rows (semester db') ∧
  t_rows (student db) `prefix_of` t_rows (student db') ∧
  t_rows (subject db) `prefix_of` t_rows (subject db') ∧
  t_rows (marks db) `prefix_of` t_rows (marks db').

(** ** Lemmas *)

(** *** The monad *)

Section tx.
Context {A B : Type}.
Implicit Types (m : tx A) (k : A → tx B).

Lemma tx_bind_Ok m k db b db' :
  (m ≫= k) db = Ok (b, db') ↔ ∃ a db1, m db = Ok (a, db1) ∧ k a db1 = Ok (b, db').
Proof.
  unfold mbind, tx_bind; destruct (m db) as [[a db1]|e]; split.
  - eauto.
  - by intros (? & ? & [= <- <-] & ?).
  - done.
  - by intros (? & ? & ? & _).
Qed.

Lemma tx_bind_Err m k db e :
  (m ≫= k) db = Err e ↔ m db = Err e ∨ ∃ a db1, m db = Ok (a, db1) ∧ k a db1 = Err e.
Proof.
  unfold mbind, tx_bind; destruct (m db) as [[a db1]|e']; split.
  - intros ?; right; eauto.
  - by intros [?|(? & ? & [= <- <-] & ?)].
  - intros [= ->]; by left.
  - by intros [[= ->]|(? & ? & ? & _)].
Qed.

End tx.

(** *** Tables *)

Section tables.
Context {A : Type} (key : A → nat) (mk : nat → A).
Hypothesis key_mk : ∀ id, key (mk id) = id.

Lemma rows_insert_row (t : Table A) :
  t_rows (insert_row mk t).1 = t_rows t ++ [mk (S (t_seq t))].
Proof. done. Qed.

Lemma ids_insert_row (t : Table A) :
  key <$> t_rows (insert_row mk t).1 = (key <$> t_rows t) ++ [S (t_seq t)].
Proof. by rewrite rows_insert_row, fmap_app, fmap_cons, key_mk. Qed.

Lemma lastrowid_insert_row (t : Table A) :
  (insert_row mk t).2 ∈ key <$> t_rows (insert_row mk t).1.
Proof. rewrite ids_insert_row. apply elem_of_app; right. by apply list_elem_of_singleton. Qed.

Lemma keys_ok_insert_row (t : Table A) :
  keys_ok key t → keys_ok key (insert_row mk t).1.
Proof.
  intros [Hnd Hle]; split.
  - rewrite ids_insert_row. apply NoDup_app; split_and!; [done| |apply NoDup_singleton].
    intros k (r & Hk & Hr)%list_elem_of_fmap Heq%list_elem_of_singleton.
    rewrite Forall_forall in Hle. specialize (Hle r Hr). lia.
  - rewrite rows_insert_row. apply Forall_app; split.
    + eapply Forall_impl; [done|]. simpl. lia.
    + constructor; [|done]. rewrite key_mk. simpl. lia.
Qed.

Lemma ids_insert_row_mono (t : Table A) id :
  id ∈ key <$> t_rows t → id ∈ key <$> t_rows (insert_row mk t).1.
Proof. rewrite ids_insert_row. intros ?; apply elem_of_app; by left. Qed.

End tables.

Lemma keys_ok_empty {A} (key : A → nat) : keys_ok key empty_table.
Proof. split; [apply NoDup_nil_2|done]. Qed.

(** [fetchone] returns a key of the table. *)
Lemma head_filter_id {A} (key : A → nat) (P : A → Prop) `{!∀ x, Decision (P x)}
    (l : list A) id :
  key <$> head (filter P l) = Some id → id ∈ key <$> l ∧ ∃ r, r ∈ l ∧ P r ∧ key r = id.
Proof.
  destruct (filter P l) as [|r l'] eqn:Hf; [done|]. intros [= <-].
  assert (r ∈ filter P l) as [HP Hr]%list_elem_of_filter by (rewrite Hf; by left).
  split; [by apply list_elem_of_fmap_2|eauto].
Qed.

Lemma head_filter_is_Some {A} (P : A → Prop) `{!∀ x, Decision (P x)} (l : list A) r :
  r ∈ l → P r → is_Some (head (filter P l)).
Proof.
  intros Hr HP. assert (r ∈ filter P l) as Hin by by apply list_elem_of_filter.
  destruct (filter P l); [by apply elem_of_nil in Hin|by eexists].
Qed.

(** A key that is there selects its row and no other. *)
Lemma filter_key_singleton {A} (key : A → nat) (l : list A) r :
  NoDup (key <$> l) → r ∈ l → filter (λ x, key x = key r) l = [r].
Proof.
  induction l as [|x l IH]; [by intros _ ?%elem_of_nil|].
  rewrite fmap_cons, NoDup_cons, filter_cons. intros [Hx Hl] [->|Hr]%elem_of_cons.
  - rewrite decide_True by done. f_equal. apply nil_length_inv, count_0_iff, Forall_forall.
    intros y Hy Hk. apply Hx. rewrite <- Hk. by apply list_elem_of_fmap_2.
  - rewrite decide_False; [by apply IH|].
    intros Hk. apply Hx. rewrite Hk. by apply list_elem_of_fmap_2.
Qed.

Lemma filter_key_prefix {A} (key : A → nat) (l l' : list A) r :
  l `prefix_of` l' → NoDup (key <$> l') → r ∈ l →
  filter (λ x, key x = key r) l' = [r].
Proof.
  intros [k ->] Hl Hr. apply filter_key_singleton; [done|]. apply elem_of_app; by left.
Qed.

(** *** The initial database *)

Lemma init_db_ok : db_ok (init_db None).
Proof.
  split; [split_and!; try apply keys_ok_empty; apply NoDup_nil_2|].
  split_and!; by apply Forall_nil.
Qed.

(** *** Growth *)

#[export] Instance db_extends_preorder : PreOrder db_extends.
Proof.
  split.
  - intros db; by split_and!.
  - intros db1 db2 db3 (?&?&?&?&?) (?&?&?&?&?); split_and!; by etrans.
Qed.

Lemma prefix_insert_row {A} (mk : nat → A) (t : Table A) :
  t_rows t `prefix_of` t_rows (insert_row mk t).1.
Proof. by apply prefix_app_r. Qed.

Lemma elem_of_prefix_fmap {A B} (f : A → B) (l l' : list A) x :
  l `prefix_of` l' → x ∈ f <$> l → x ∈ f <$> l'.
Proof. intros [k ->]; rewrite fmap_app; intros ?; apply elem_of_app; by left. Qed.

(** *** What a step that returns tells *)

Lemma tx_ret_Ok {A} (a a' : A) db db' :
  (mret a : tx A) db = Ok (a', db') → a' = a ∧ db' = db.
Proof. by intros [= <- <-]. Qed.

Lemma tx_some_Ok {A} e (x : option A) a db db' :
  tx_some e x db = Ok (a, db') → x = Some a ∧ db' = db.
Proof. destruct x; [by intros [= <- <-]|done]. Qed.

Lemma tx_get_Ok db a db' : tx_get db = Ok (a, db') → a = db ∧ db' = db.
Proof. by intros [= <- <-]. Qed.

Lemma tx_for_cons {X} (x : X) l body db db' :
  tx_for (x :: l) body db = Ok (tt, db') ↔
  ∃ db1, body x db = Ok (tt, db1) ∧ tx_for l body db1 = Ok (tt, db').
Proof.
  simpl; rewrite tx_bind_Ok; split.
  - intros ([] & db1 & ? & ?); eauto.
  - intros (db1 & ? & ?); eauto.
Qed.

(** *** The statements keep the database well formed *)

Section statements.
Implicit Types (db : DB).

Local Ltac grow := simpl; first [done | by apply prefix_app_r].
Local Ltac wider := rewrite fmap_app; apply elem_of_app; by left.
Local Ltac fresh_name :=
  rewrite fmap_app; apply NoDup_app; split_and!; [done| |apply NoDup_singleton];
  by intros x Hx ->%list_elem_of_singleton.

Lemma insert_or_ignore_course_extends name db :
  db_extends db (insert_or_ignore_course name db).
Proof. unfold insert_or_ignore_course; case_decide; [done|]. split_and!; grow. Qed.

Lemma insert_or_ignore_course_ok name db :
  db_ok db → db_ok (insert_or_ignore_course name db).
Proof.
  unfold insert_or_ignore_course; case_decide as Hn; [done|].
  intros [(Hc & Hs & Hst & Hsub & Hm & Hcn & Hr) (R1 & R2 & R3)].
  split; [split_and!|split_and!]; simpl; try done.
  - by apply (keys_ok_insert_row c_id (λ id, mkCourse id name)).
  - fresh_name.
  - eapply Forall_impl; [done|]; simpl; intros se ?; wider.
Qed.

Lemma insert_semester_Ok course_id year sem db id db' :
  insert_semester course_id year sem db = Ok (id, db') →
  db_extends db db' ∧ id ∈ sem_id <$> t_rows (semester db') ∧
  t_rows (semester db') = t_rows (semester db) ++ [mkSemester id course_id year sem] ∧
  marks db' = marks db ∧ subject db' = subject db ∧ student db' = student db ∧
  course db' = course db ∧
  (db_ok db → course_id ∈ c_id <$> t_rows (course db) → db_ok db').
Proof.
  intros [= <- <-]; split_and!; try done.
  - split_and!; grow.
  - simpl; rewrite fmap_app; apply elem_of_app; right; by left.
  - intros [(Hc & Hs & Hst & Hsub & Hm & Hcn & Hr) (R1 & R2 & R3)] Hcid.
    split; [split_and!|split_and!]; simpl; try done.
    + by apply (keys_ok_insert_row sem_id (λ id, mkSemester id course_id year sem)).
    + apply Forall_app; split; [done|by repeat constructor].
    + eapply Forall_impl; [done|]; simpl; intros sub ?; wider.
Qed.

Lemma insert_or_ignore_student_Ok roll_no name course_id db u db' :
  insert_or_ignore_student roll_no name course_id db = Ok (u, db') →
  db_extends db db' ∧ roll_no ∈ st_roll_no <$> t_rows (student db') ∧
  marks db' = marks db ∧ subject db' = subject db ∧ semester db' = semester db ∧
  course db' = course db ∧
  (db_ok db → db_ok db').
Proof.
  unfold insert_or_ignore_student; case_decide as Hr; intros [= <- <-];
    [split_and!; first [done|reflexivity]|].
  split_and!; try done.
  - split_and!; grow.
  - simpl; rewrite fmap_app; apply elem_of_app; right; by left.
  - intros [(Hc & Hs & Hst & Hsub & Hm & Hcn & Hrn) (R1 & R2 & R3)].
    split; [split_and!|split_and!]; simpl; try done.
    + by apply (keys_ok_insert_row st_id (λ id, mkStudent id roll_no name course_id)).
    + fresh_name.
    + eapply Forall_impl; [done|]; simpl; intros m [? ?]; split; [wider|done].
Qed.

Lemma select_student_id_Ok roll_no db id db' :
  select_student_id roll_no db = Ok (id, db') →
  db' = db ∧ id ∈ st_id <$> t_rows (student db).
Proof.
  intros [Hh ->]%tx_some_Ok; split; [done|].
  by apply head_filter_id in Hh as [? _].
Qed.

Lemma insert_or_ignore_subject_Ok semester_id name credits ty db u db' :
  insert_or_ignore_subject semester_id name credits ty db = Ok (u, db') →
  db_extends db db' ∧
  t_rows (subject db') =
    t_rows (subject db) ++ [mkSubject (S (t_seq (subject db))) semester_id name credits ty] ∧
  marks db' = marks db ∧ semester db' = semester db ∧ student db' = student db ∧
  course db' = course db ∧
  (db_ok db → semester_id ∈ sem_id <$> t_rows (semester db) → db_ok db').
Proof.
  intros [= <- <-]; split_and!; try done.
  - split_and!; grow.
  - intros [(Hc & Hs & Hst & Hsub & Hm & Hcn & Hrn) (R1 & R2 & R3)] Hsem.
    split; [split_and!|split_and!]; simpl; try done.
    + by apply (keys_ok_insert_row subj_id
                  (λ id, mkSubject id semester_id name credits ty)).
    + apply Forall_app; split; [done|by repeat constructor].
    + eapply Forall_impl; [done|]; simpl; intros m [? ?]; split; [done|wider].
Qed.

Lemma select_subject_id_Ok semester_id name db id db' :
  select_subject_id semester_id name db = Ok (id, db') →
  db' = db ∧ id ∈ subj_id <$> t_rows (subject db) ∧
  subj_id <$> head (filter (λ s, subj_semester_id s = semester_id ∧
                                 subj_subject_name s = name) (t_rows (subject db)))
  = Some id.
Proof.
  intros [Hh ->]%tx_some_Ok; split_and!; [done| |done].
  by apply head_filter_id in Hh as [? _].
Qed.

Lemma insert_marks_Ok student_id subject_id mk gp db u db' :
  insert_marks student_id subject_id mk gp db = Ok (u, db') →
  db_extends db db' ∧
  t_rows (marks db') =
    t_rows (marks db) ++ [mkMarks (S (t_seq (marks db))) student_id subject_id mk gp] ∧
  subject db' = subject db ∧ semester db' = semester db ∧ student db' = student db ∧
  course db' = course db ∧
  (db_ok db → student_id ∈ st_id <$> t_rows (student db) →
   subject_id ∈ subj_id <$> t_rows (subject db) → db_ok db').
Proof.
  intros [= <- <-]; split_and!; try done.
  - split_and!; grow.
  - intros [(Hc & Hs & Hst & Hsub & Hm & Hcn & Hrn) (R1 & R2 & R3)] Hst' Hsub'.
    split; [split_and!|split_and!]; simpl; try done.
    + by apply (keys_ok_insert_row m_id
                  (λ id, mkMarks id student_id subject_id mk gp)).
    + apply Forall_app; split; [done|by repeat constructor].
Qed.

Lemma select_student_id_row roll_no db id db' :
  select_student_id roll_no db = Ok (id, db') →
  ∃ s, s ∈ t_rows (student db) ∧ st_roll_no s = roll_no ∧ st_id s = id.
Proof. intros [Hh ->]%tx_some_Ok. by apply head_filter_id in Hh as [_ ?]. Qed.

Lemma select_subject_id_row semester_id name db id db' :
  select_subject_id semester_id name db = Ok (id, db') →
  ∃ s, s ∈ t_rows (subject db) ∧
       (subj_semester_id s = semester_id ∧ subj_subject_name s = name) ∧ subj_id s = id.
Proof. intros [Hh ->]%tx_some_Ok. by apply head_filter_id in Hh as [_ ?]. Qed.

End statements.

(** *** How a step can end early *)

Section raises.
Context {A B : Type}.

Lemma raises_ret (a : A) : raises (mret a : tx A).
Proof. by intros db e. Qed.

Lemma raises_some e (x : option A) : raises (tx_some e x).
Proof. destruct x; intros db e'; [done|intros [= <-]; eauto]. Qed.

Lemma raises_bind (m : tx A) (k : A → tx B) :
  raises m → (∀ a, raises (k a)) → raises (m ≫= k).
Proof. intros Hm Hk db e [?|(a & db1 & _ & ?)]%tx_bind_Err; [by eapply Hm|by eapply Hk]. Qed.

End raises.

Lemma raises_for {X} (l : list X) (body : X → tx unit) :
  (∀ x, raises (body x)) → raises (tx_for l body).
Proof.
  intros Hbody; induction l as [|x l IH]; [by intros db e|].
  simpl; by apply raises_bind.
Qed.

Lemma raises_get : raises tx_get.
Proof. by intros db e. Qed.

Lemma raises_insert_semester course_id year sem : raises (insert_semester course_id year sem).
Proof. by intros db e. Qed.

Lemma raises_insert_or_ignore_student roll_no name course_id :
  raises (insert_or_ignore_student roll_no name course_id).
Proof. intros db e; unfold insert_or_ignore_student; by case_decide. Qed.

Lemma raises_select_student_id roll_no : raises (select_student_id roll_no).
Proof. intros db; apply raises_some. Qed.

Lemma raises_insert_or_ignore_subject semester_id name credits ty :
  raises (insert_or_ignore_subject semester_id name credits ty).
Proof. by intros db e. Qed.

Lemma raises_select_subject_id semester_id name : raises (select_subject_id semester_id name).
Proof. intros db; apply raises_some. Qed.

Lemma raises_insert_marks student_id subject_id mk gp :
  raises (insert_marks student_id subject_id mk gp).
Proof. by intros db e. Qed.

#[export] Hint Resolve raises_ret raises_some raises_get raises_insert_semester
  raises_insert_or_ignore_student raises_select_student_id
  raises_insert_or_ignore_subject raises_select_subject_id raises_insert_marks : exam.
