(* ===== verification/Portal.v ===== *)
(** * The database application

    The routes of [src/app.py] as functions from a state and a request to
    a state and a response.  The state is the database and the set of
    visitors whose session holds the admin flag.  [upload_results] runs
    its statements as one transaction of the monad [Database.tx]: the
    state changes only when the transaction reaches [commit].  The
    lemmas invert a transaction that returned into the statements that
    it ran ([upload_row_inv], [upload_results_tx_inv]); the theorems on
    the routes follow from them and from the lemmas on the statements in
    [Database]. *)

From Stdlib Require Import Ascii.
From stdpp Require Import gmap.
From S2P Require Import Prelude.
From S2P Require Import Numeric.
From S2P Require Import Cleaner.
From S2P Require Import Database.

Local Open Scope Q_scope.

(** ** Definitions *)

Definition visitor : Set := nat.

Record PState : Type := mkPState {
  pdb : DB;
  admins : gset visitor
}.

Definition ADMIN_USER : string := "admin".
Definition ADMIN_PASS : string := "admin123".

(** [request.form]. *)
Definition form : Type := gmap string string.

(** [request.files["file"]]: the file name, and the frame that the reader
    of its format returns, if it returns. *)
Definition FileStorage : Type := string * option RawFrame.

(** One row of the query of [overview]. *)
Record overview_row : Type := mkOverviewRow {
  o_roll_no : string; o_subject_name : string; o_marks : Z;
  o_credits : num; o_grade_points : num
}.

Record Stats : Type := mkStats {
  s_total : nat; s_passed : nat; s_failed : nat; s_pass_percent : Q
}.

Inductive PRequest : Type :=
| AdminLogin (v : visitor) (post : option form)
| AdminDashboard (v : visitor) (post : option form)
| Logout (v : visitor)
| UploadResults (v : visitor) (post : option (form * option FileStorage))
| Overview (v : visitor) (post : option form).

Inductive PResponse : Type :=
| Redirect (location : string)
| LoginPage
| DashboardPage (courses : list string)
| UploadForm (courses : list string)
| Message (msg : string)
| ErrorMessage (e : pyexn)
| OverviewPage (courses : list string) (data : list overview_row) (stats : option Stats)
| BadRequest400 (field : string)
| ServerError500 (e : pyexn).

(** *** Python and SQL on text *)

Definition upper_ascii (a : ascii) : ascii :=
  let n := nat_of_ascii a in
  if (97 <=? n)%nat && (n <=? 122)%nat then ascii_of_nat (n - 32) else a.

(** [s.upper()]. *)
Fixpoint upper (s : string) : string :=
  match s with
  | EmptyString => EmptyString
  | String a s' => String (upper_ascii a) (upper s')
  end.

(** [sub in s]. *)
Fixpoint contains (sub s : string) : bool :=
  String.prefix sub s ||
  match s with
  | EmptyString => false
  | String _ s' => contains sub s'
  end.

(** [s.endswith(suffix)]. *)
Definition endswith (s suffix : string) : bool :=
  String.prefix (String.rev suffix) (String.rev s).

Fixpoint ltrim (s : string) : string :=
  match s with
  | String " " s' => ltrim s'
  | _ => s
  end.

(** [TRIM(s)] of SQLite: spaces are removed at both ends. *)
Definition sql_trim (s : string) : string := String.rev (ltrim (String.rev (ltrim s))).

(** [int(s)] on text: blanks around, a sign, decimal digits. *)
Definition py_int (s : string) : option Z :=
  match strip s with
  | EmptyString => None
  | String a s' =>
      if decide (a = "-"%char) then
        if decide (s' = EmptyString) then None else (λ n, - Z.of_N n)%Z <$> digits s' 0
      else if decide (a = "+"%char) then
        if decide (s' = EmptyString) then None else Z.of_N <$> digits s' 0
      else Z.of_N <$> digits (String a s') 0
  end.

(** [int(x)] on a number: towards zero. *)
Definition Qtruncate (q : Q) : Z :=
  if decide (0 <= q) then Qfloor q else Qceiling q.

Section pandas.
Context `{!Pandas}.

(** [int(row[col])]. *)
Definition int_of_cell (c : cell) : option Z :=
  match c with
  | CNum q => Some (Qtruncate q)
  | CStr s => py_int s
  | CEmpty => None
  end.

(** [float(row[col])]; NaN is a float. *)
Definition float_of_cell (c : cell) : option num :=
  match c with
  | CNum q => Some (Some q)
  | CStr s => Some <$> parse_num s
  | CEmpty => Some NaN
  end.

Definition required : list string := ["HTNO"; "SUBJECT_NAME"; "TOTALMARKS"; "CREDITS"].

(** The body of the loop of lines 82-122. *)
Definition upload_row (cols : list string) (course_id sem_id : nat)
    (row : gmap string cell) : tx unit :=
  if decide (is_na (get row "TOTALMARKS")) then mret tt
  else
    let htno := strip (astype_str (get row "HTNO")) in
    mk ← tx_some ValueError (int_of_cell (get row "TOTALMARKS"));
    credits ← tx_some ValueError (float_of_cell (get row "CREDITS"));
    grade_points ←
      (if decide ("GRADE_POINTS" ∈ cols ∧ ¬ is_na (get row "GRADE_POINTS"))
       then tx_some ValueError (float_of_cell (get row "GRADE_POINTS"))
       else mret (Some 0));
    _ ← insert_or_ignore_student htno htno course_id;
    student_id ← select_student_id htno;
    subject ← tx_some AttributeError
      (match get row "SUBJECT_NAME" with CStr s => Some s | _ => None end);
    _ ← insert_or_ignore_subject sem_id subject credits
          (if contains "LAB" (upper subject) then "LAB" else "THEORY");
    subject_id ← select_subject_id sem_id subject;
    insert_marks student_id subject_id mk grade_points.

(** Lines 59-64. *)
Definition read_upload (up : FileStorage) : tx RawFrame :=
  if endswith up.1 ".xlsx" || endswith up.1 ".csv"
  then tx_some ParserError up.2
  else tx_abort (Return "Invalid file format").

(** Lines 67-70. *)
Definition check_required (df : RawFrame) : tx unit :=
  match filter (λ c, c ∉ columns df) required with
  | [] => mret tt
  | col :: _ => tx_abort (Return ("Missing column: " +:+ col))
  end.

(** A field of the form that is parsed by [int]. *)
Definition form_int (f : form) (field : string) : tx Z :=
  s ← tx_some (BadRequestKeyError field) (f !! field);
  tx_some ValueError (py_int s).

(** The [try] block of [upload_results], lines 53-122. *)
Definition upload_results_tx (f : form) (file : option FileStorage) : tx unit :=
  course_name ← tx_some (BadRequestKeyError "course") (f !! "course");
  year ← form_int f "year";
  sem ← form_int f "semester";
  up ← tx_some (BadRequestKeyError "file") file;
  df ← read_upload up;
  _ ← check_required df;
  db ← tx_get;
  course_id ← tx_some TypeError (select_course_id course_name db);
  sem_id ← insert_semester course_id year sem;
  tx_for (rows df) (upload_row (columns df) course_id sem_id).

Definition upload_results (post : option (form * option FileStorage)) (st : PState)
    : PState * PResponse :=
  match post with
  | None => (st, UploadForm (select_course_names (pdb st)))
  | Some (f, file) =>
      match upload_results_tx f file (pdb st) with
      | Ok (_, db') => ({| pdb := db'; admins := admins st |},
                        Message "Results uploaded successfully")
      | Err (Return msg) => (st, Message msg)
      | Err (Raise e) => (st, ErrorMessage e)
      end
  end.

End pandas.

(** *** The admin routes *)

Definition admin_login (v : visitor) (post : option form) (st : PState)
    : PState * PResponse :=
  match post with
  | None => (st, LoginPage)
  | Some f =>
      match f !! "username" with
      | None => (st, BadRequest400 "username")
      | Some username =>
          if decide (username = ADMIN_USER) then
            match f !! "password" with
            | None => (st, BadRequest400 "password")
            | Some password =>
                if decide (password = ADMIN_PASS)
                then ({| pdb := pdb st; admins := {[ v ]} ∪ admins st |},
                      Redirect "/admin/dashboard")
                else (st, LoginPage)
            end
          else (st, LoginPage)
      end
  end.

Definition admin_dashboard (v : visitor) (post : option form) (st : PState)
    : PState * PResponse :=
  if decide (v ∈ admins st) then
    match post with
    | None => (st, DashboardPage (select_course_names (pdb st)))
    | Some f =>
        match f !! "course" with
        | None => (st, BadRequest400 "course")
        | Some name =>
            let db := insert_or_ignore_course name (pdb st) in
            ({| pdb := db; admins := admins st |}, DashboardPage (select_course_names db))
        end
    end
  else (st, Redirect "/admin").

Definition logout (v : visitor) (st : PState) : PState * PResponse :=
  ({| pdb := pdb st; admins := admins st ∖ {[ v ]} |}, Redirect "/admin").

(** *** The overview *)

(** The joins of lines 155-158 for one row of [marks], and the WHERE
    clause of lines 159-161. *)
Definition overview_mark (course_name : string) (year sem : Z) (db : DB) (m : marks_row)
    : list overview_row :=
  s ← filter (λ s, st_id s = m_student_id m) (t_rows (student db));
  sub ← filter (λ sub, subj_id sub = m_subject_id m) (t_rows (subject db));
  se ← filter (λ se, sem_id se = subj_semester_id sub) (t_rows (semester db));
  c ← filter (λ c, c_id c = sem_course_id se) (t_rows (course db));
  if decide (sql_trim (c_name c) = course_name ∧ sem_year se = year ∧ sem_semester se = sem)
  then [mkOverviewRow (st_roll_no s) (subj_subject_name sub) (m_marks m)
          (subj_credits sub) (m_grade_points m)]
  else [].

(** The query of lines 148-162, in the order of the [marks] table. *)
Definition overview_query (course_name : string) (year sem : Z) (db : DB)
    : list overview_row :=
  t_rows (marks db) ≫= overview_mark course_name year sem db.

(** Lines 166-175. *)
Definition overview_stats (data : list overview_row) : Stats :=
  let students := remove_dups (o_roll_no <$> data) in
  let passed := remove_dups (o_roll_no <$> filter (λ r, (40 ≤ o_marks r)%Z) data) in
  {| s_total := length students;
     s_passed := length passed;
     s_failed := (length students - length passed)%nat;
     s_pass_percent :=
       if decide (students ≠ [])
       then round2 (Qnat (length passed) / Qnat (length students) * 100)
       else 0 |}.

Definition overview (post : option form) (st : PState) : PState * PResponse :=
  let courses := select_course_names (pdb st) in
  match post with
  | None => (st, OverviewPage courses [] None)
  | Some f =>
      match f !! "course", f !! "year", f !! "semester" with
      | None, _, _ => (st, BadRequest400 "course")
      | Some _, None, _ => (st, BadRequest400 "year")
      | Some c, Some y, sem =>
          match py_int y with
          | None => (st, ServerError500 ValueError)
          | Some year =>
              match sem with
              | None => (st, BadRequest400 "semester")
              | Some s =>
                  match py_int s with
                  | None => (st, ServerError500 ValueError)
                  | Some sem =>
                      let data := overview_query (strip c) year sem (pdb st) in
                      (st, OverviewPage courses data (Some (overview_stats data)))
                  end
              end
          end
      end
  end.

Section pandas_routes.
Context `{!Pandas}.

(** The routes. *)
Definition phandle (st : PState) (req : PRequest) : PState * PResponse :=
  match req with
  | AdminLogin v post => admin_login v post st
  | AdminDashboard v post => admin_dashboard v post st
  | Logout v => logout v st
  | UploadResults _ post => upload_results post st
  | Overview _ post => overview post st
  end.

Definition prun (reqs : list PRequest) (st : PState) : PState :=
  foldl (λ st req, (phandle st req).1) st reqs.

End pandas_routes.

Definition initial_pstate : PState := {| pdb := init_db None; admins := ∅ |}.

(** The sheet of the examples: two students, a subject that occurs
    twice, a lab, and a row without a total. *)
Definition marks_sheet : RawFrame :=
  {| columns := ["HTNO"; "SUBJECT_NAME"; "TOTALMARKS"; "CREDITS"; "GRADE_POINTS"];
     rows :=
       [ {[ "HTNO" := CStr "S1"; "SUBJECT_NAME" := CStr "MATHS"; "TOTALMARKS" := CNum 70;
            "CREDITS" := CNum 4; "GRADE_POINTS" := CNum 9 ]};
         {[ "HTNO" := CStr " S2 "; "SUBJECT_NAME" := CStr "MATHS"; "TOTALMARKS" := CNum (399 # 10);
            "CREDITS" := CNum 4; "GRADE_POINTS" := CEmpty ]};
         {[ "HTNO" := CStr "S1"; "SUBJECT_NAME" := CStr "Physics Lab"; "TOTALMARKS" := CNum 30;
            "CREDITS" := CNum 2; "GRADE_POINTS" := CNum 0 ]};
         {[ "HTNO" := CStr "S3"; "SUBJECT_NAME" := CStr "MATHS"; "TOTALMARKS" := CEmpty;
            "CREDITS" := CNum 4; "GRADE_POINTS" := CEmpty ]} ]%string |}.

Definition upload_form : form :=
  {[ "course" := "CSE"; "year" := "2024"; "semester" := " 1 " ]}%string.

Definition sample_prequests : list PRequest :=
  [ AdminLogin 1%nat (Some {[ "username" := "admin"; "password" := "admin123" ]}%string);
    AdminDashboard 1%nat (Some {[ "course" := "CSE" ]}%string);
    UploadResults 2%nat (Some (upload_form, Some ("marks.xlsx"%string, Some marks_sheet))) ].

Definition sample_pstate : PState := prun sample_prequests initial_pstate.

(** What the overview shows of a mark: the roll number, the subject and
    the marks. *)
Definition shown (r : overview_row) : string * string * Z :=
  (o_roll_no r, o_subject_name r, o_marks r).

(** What a committed upload stores of a row of the sheet. *)
Definition sheet_mark `{!Pandas} (row : gmap string cell) : list (string * string * Z) :=
  if decide (is_na (get row "TOTALMARKS")) then []
  else match get row "SUBJECT_NAME", int_of_cell (get row "TOTALMARKS") with
       | CStr subject, Some mk => [(strip (astype_str (get row "HTNO")), subject, mk)]
       | _, _ => []
       end.

(** A sheet whose second row has a total that is no number. *)
Definition bad_sheet : RawFrame :=
  {| columns := ["HTNO"; "SUBJECT_NAME"; "TOTALMARKS"; "CREDITS"];
     rows :=
       [ {[ "HTNO" := CStr "S4"; "SUBJECT_NAME" := CStr "MATHS"; "TOTALMARKS" := CNum 70;
            "CREDITS" := CNum 4 ]};
         {[ "HTNO" := CStr "S5"; "SUBJECT_NAME" := CStr "MATHS"; "TOTALMARKS" := CStr "AB";
            "CREDITS" := CNum 4 ]} ]%string |}.

Definition upload_request (f : form) (name : string) (df : RawFrame)
    : option (form * option FileStorage) :=
  Some (f, Some (name, Some df)).

(** ** Lemmas *)

(** *** The joins of the overview *)

Section joins.
Context (cn : string) (y sm : Z).

(** Keys are unique: the joins attach to a mark the one row of each
    table that its references name. *)
Lemma overview_mark_rows db m s sub se c :
  schema_ok db →
  s ∈ t_rows (student db) → st_id s = m_student_id m →
  sub ∈ t_rows (subject db) → subj_id sub = m_subject_id m →
  se ∈ t_rows (semester db) → sem_id se = subj_semester_id sub →
  c ∈ t_rows (course db) → c_id c = sem_course_id se →
  overview_mark cn y sm db m =
  if decide (sql_trim (c_name c) = cn ∧ sem_year se = y ∧ sem_semester se = sm)
  then [mkOverviewRow (st_roll_no s) (subj_subject_name sub) (m_marks m)
          (subj_credits sub) (m_grade_points m)]
  else [].
Proof.
  unfold overview_mark.
  intros ([Hc _] & [Hse _] & [Hst _] & [Hsub _] & _) Hs Es Hb Eb He Ee Hco Ec.
  rewrite <- Es, (filter_key_singleton st_id _ s), bind_singleton by done.
  rewrite <- Eb, (filter_key_singleton subj_id _ sub), bind_singleton by done.
  rewrite <- Ee, (filter_key_singleton sem_id _ se), bind_singleton by done.
  by rewrite <- Ec, (filter_key_singleton c_id _ c), bind_singleton by done.
Qed.

(** References are kept: every mark has its rows. *)
Lemma db_ok_mark_rows db m :
  db_ok db → m ∈ t_rows (marks db) →
  ∃ s sub se c,
    (s ∈ t_rows (student db) ∧ st_id s = m_student_id m) ∧
    (sub ∈ t_rows (subject db) ∧ subj_id sub = m_subject_id m) ∧
    (se ∈ t_rows (semester db) ∧ sem_id se = subj_semester_id sub) ∧
    (c ∈ t_rows (course db) ∧ c_id c = sem_course_id se).
Proof.
  intros [_ (R1 & R2 & R3)] Hm.
  destruct (proj1 (Forall_forall _ _) R3 m Hm)
    as [(s & ? & Hs)%list_elem_of_fmap (sub & ? & Hsub)%list_elem_of_fmap].
  pose proof (proj1 (Forall_forall _ _) R2 sub Hsub) as (se & ? & Hse)%list_elem_of_fmap.
  pose proof (proj1 (Forall_forall _ _) R1 se Hse) as (c & ? & Hc)%list_elem_of_fmap.
  exists s, sub, se, c. by split_and!.
Qed.

(** A database that grows shows of its old marks what it showed. *)
Lemma overview_mark_extends db db' m :
  db_ok db → schema_ok db' → db_extends db db' → m ∈ t_rows (marks db) →
  overview_mark cn y sm db' m = overview_mark cn y sm db m.
Proof.
  intros Hok Hok' (Pc & Pse & Pst & Psub & _) Hm.
  destruct (db_ok_mark_rows db m) as (s & sub & se & c & [] & [] & [] & []); [done..|].
  rewrite (overview_mark_rows db m s sub se c) by (done || apply Hok).
  apply overview_mark_rows; by (done || eapply elem_of_prefix).
Qed.

Lemma overview_query_extends db db' :
  db_ok db → schema_ok db' → db_extends db db' →
  t_rows (marks db) ≫= overview_mark cn y sm db' = overview_query cn y sm db.
Proof.
  intros Hok Hok' Hext. apply Forall_bind_ext, Forall_forall.
  intros m Hm. by apply overview_mark_extends.
Qed.

End joins.

Section portal.
Context `{!Pandas}.

(** *** One row of the sheet *)

Lemma upload_row_na cols course_id sem row db u db' :
  is_na (get row "TOTALMARKS") →
  upload_row cols course_id sem row db = Ok (u, db') → db' = db.
Proof. unfold upload_row; intros Hna. rewrite decide_True by done. by intros [_ ->]%tx_ret_Ok. Qed.

(** The statements that a row with a total has run when the body
    returns. *)
Lemma upload_row_inv cols course_id sem row db u db' :
  ¬ is_na (get row "TOTALMARKS") →
  upload_row cols course_id sem row db = Ok (u, db') →
  ∃ mk cr gp subject ty db1 db2 sid subid,
    int_of_cell (get row "TOTALMARKS") = Some mk ∧
    get row "SUBJECT_NAME" = CStr subject ∧
    insert_or_ignore_student (strip (astype_str (get row "HTNO")))
      (strip (astype_str (get row "HTNO"))) course_id db = Ok (tt, db1) ∧
    select_student_id (strip (astype_str (get row "HTNO"))) db1 = Ok (sid, db1) ∧
    insert_or_ignore_subject sem subject cr ty db1 = Ok (tt, db2) ∧
    select_subject_id sem subject db2 = Ok (subid, db2) ∧
    insert_marks sid subid mk gp db2 = Ok (tt, db').
Proof.
  unfold upload_row; intros Hna. rewrite decide_False by done.
  intros (mk & db1 & [Hmk ->]%tx_some_Ok & H0)%tx_bind_Ok.
  apply tx_bind_Ok in H0 as (cr & db2 & [_ ->]%tx_some_Ok & H0).
  apply tx_bind_Ok in H0 as (gp & db3 & Hgp & H0).
  assert (db3 = db) as ->.
  { case_decide; [by apply tx_some_Ok in Hgp as [_ ->]|by apply tx_ret_Ok in Hgp as [_ ->]]. }
  apply tx_bind_Ok in H0 as ([] & db4 & H4 & H0).
  apply tx_bind_Ok in H0 as (sid & db5 & H5 & H0).
  pose proof (select_student_id_Ok _ _ _ _ H5) as [-> _].
  apply tx_bind_Ok in H0 as (subject & db6 & [Hsub ->]%tx_some_Ok & H0).
  apply tx_bind_Ok in H0 as ([] & db7 & H7 & H0).
  apply tx_bind_Ok in H0 as (subid & db8 & H8 & H0).
  pose proof (select_subject_id_Ok _ _ _ _ _ H8) as [-> _]. destruct u.
  exists mk, cr, gp, subject. eexists _, db4, db7, sid, subid. split_and!; try done.
  by destruct (get row "SUBJECT_NAME"); simplify_eq.
Qed.

Lemma upload_row_Ok cols course_id sem row db u db' :
  upload_row cols course_id sem row db = Ok (u, db') →
  db_extends db db' ∧ semester db' = semester db ∧ course db' = course db ∧
  (db_ok db → sem ∈ sem_id <$> t_rows (semester db) → db_ok db') ∧
  length (t_rows (marks db')) =
    (length (t_rows (marks db)) + if decide (is_na (get row "TOTALMARKS")) then 0 else 1)%nat ∧
  length (t_rows (subject db')) =
    (length (t_rows (subject db)) + if decide (is_na (get row "TOTALMARKS")) then 0 else 1)%nat.
Proof.
  intros Hrow; case_decide as Hna.
  { apply upload_row_na in Hrow as ->; [|done]. rewrite !Nat.add_0_r. by split_and!. }
  apply upload_row_inv in Hrow
    as (mk & cr & gp & subject & ty & db1 & db2 & sid & subid & _ & _ & H1 & H2 & H3 & H4 & H5);
    [|done].
  apply insert_or_ignore_student_Ok in H1 as (E4 & _ & M4 & S4 & Se4 & C4 & O4).
  apply select_student_id_Ok in H2 as [_ Hsid].
  apply insert_or_ignore_subject_Ok in H3 as (E7 & S7 & M7 & Se7 & St7 & C7 & O7).
  apply select_subject_id_Ok in H4 as (_ & Hsubid & _).
  apply insert_marks_Ok in H5 as (E & M & S & Se & St & C & O).
  split_and!.
  - by etrans; [|etrans].
  - congruence.
  - congruence.
  - intros Hok Hs. apply O; [apply O7; [by apply O4|by rewrite Se4]|by rewrite St7|done].
  - by rewrite M, length_app, M7, M4.
  - by rewrite S, S7, length_app, S4.
Qed.

Lemma raises_upload_row cols course_id sem row : raises (upload_row cols course_id sem row).
Proof.
  unfold upload_row; case_decide; [apply raises_ret|].
  repeat (apply raises_bind; [try case_decide; auto with exam|intros ?]).
  auto with exam.
Qed.

(** *** The loop over the sheet *)

Lemma upload_rows_Ok cols course_id sem l db u db' :
  tx_for l (upload_row cols course_id sem) db = Ok (u, db') →
  db_extends db db' ∧ semester db' = semester db ∧ course db' = course db ∧
  (db_ok db → sem ∈ sem_id <$> t_rows (semester db) → db_ok db') ∧
  length (t_rows (marks db')) =
    (length (t_rows (marks db)) + count (λ row, ¬ is_na (get row "TOTALMARKS")) l)%nat ∧
  length (t_rows (subject db')) =
    (length (t_rows (subject db)) + count (λ row, ¬ is_na (get row "TOTALMARKS")) l)%nat.
Proof.
  revert db; induction l as [|row l IH]; intros db.
  { intros [_ ->]%tx_ret_Ok. rewrite count_nil, !Nat.add_0_r. by split_and!. }
  destruct u. intros (db1 & Hrow%upload_row_Ok & Hl%IH)%tx_for_cons.
  destruct Hrow as (E1 & Se1 & C1 & O1 & M1 & S1), Hl as (E2 & Se2 & C2 & O2 & M2 & S2).
  rewrite count_cons. split_and!.
  - by etrans.
  - congruence.
  - congruence.
  - intros Hok Hs. apply O2; [by apply O1|by rewrite Se1].
  - rewrite M2, M1. repeat case_decide; (tauto || lia).
  - rewrite S2, S1. repeat case_decide; (tauto || lia).
Qed.

(** *** The transaction *)

(** The steps that the transaction has run when it returns. *)
Lemma upload_results_tx_inv f file db u db' :
  upload_results_tx f file db = Ok (u, db') →
  ∃ cname year sem name df c sid db1,
    f !! "course" = Some cname ∧ f !! "year" ≫= py_int = Some year ∧
    f !! "semester" ≫= py_int = Some sem ∧
    file = Some (name, Some df) ∧ required ⊆ columns df ∧
    c ∈ t_rows (course db) ∧ c_name c = cname ∧
    insert_semester (c_id c) year sem db = Ok (sid, db1) ∧
    tx_for (rows df) (upload_row (columns df) (c_id c) sid) db1 = Ok (tt, db').
Proof.
  unfold upload_results_tx, form_int.
  intros (cn & db1 & [Hcn ->]%tx_some_Ok & H0)%tx_bind_Ok.
  apply tx_bind_Ok in H0 as (year & db1 & Hy & H0).
  apply tx_bind_Ok in Hy as (ys & db2 & [Hys ->]%tx_some_Ok & [Hyi ->]%tx_some_Ok).
  apply tx_bind_Ok in H0 as (sem & db1 & Hs & H0).
  apply tx_bind_Ok in Hs as (ss & db2 & [Hss ->]%tx_some_Ok & [Hsi ->]%tx_some_Ok).
  apply tx_bind_Ok in H0 as ([name content] & db1 & [-> ->]%tx_some_Ok & H0).
  apply tx_bind_Ok in H0 as (df & db1 & Hdf & H0).
  apply tx_bind_Ok in H0 as (? & db2 & Hreq & H0).
  apply tx_bind_Ok in H0 as (? & db3 & [-> ->]%tx_get_Ok & H0).
  apply tx_bind_Ok in H0 as (cid & db4 & [Hcid ->]%tx_some_Ok & H0).
  apply tx_bind_Ok in H0 as (sid & db5 & Hsem & Hrows).
  unfold read_upload in Hdf; simpl in Hdf.
  destruct (_ || _); [|done]. apply tx_some_Ok in Hdf as [-> ->].
  unfold check_required in Hreq.
  destruct (filter _ required) eqn:Hf; [|done]. apply tx_ret_Ok in Hreq as [_ ->].
  apply head_filter_id in Hcid as [_ (c & Hc & Hname & <-)]. destruct u.
  exists cn, year, sem, name, df, c, sid, db5. rewrite Hys, Hss. split_and!; try done.
  intros col Hcol. destruct (decide (col ∈ columns df)) as [|Hn]; [done|].
  assert (col ∈ filter (λ c, c ∉ columns df) required) as Hin
    by by apply list_elem_of_filter.
  rewrite Hf in Hin. by apply elem_of_nil in Hin.
Qed.

Lemma upload_results_tx_Ok f file db u db' :
  upload_results_tx f file db = Ok (u, db') →
  ∃ df, (∃ name, file = Some (name, Some df)) ∧ required ⊆ columns df ∧
    course db' = course db ∧
    (db_ok db → db_ok db') ∧
    length (t_rows (semester db')) = S (length (t_rows (semester db))) ∧
    length (t_rows (marks db')) =
      (length (t_rows (marks db)) + count (λ row, ¬ is_na (get row "TOTALMARKS")) (rows df))%nat ∧
    length (t_rows (subject db')) =
      (length (t_rows (subject db)) + count (λ row, ¬ is_na (get row "TOTALMARKS")) (rows df))%nat.
Proof.
  intros (cn & year & sem & name & df & c & sid & db1 & _ & _ & _ & -> & Hreq & Hc & _ &
          Hsem%insert_semester_Ok & Hrows%upload_rows_Ok)%upload_results_tx_inv.
  destruct Hsem as (E1 & Hsid & Se1 & M1 & S1 & St1 & C1 & O1),
    Hrows as (E2 & Se2 & C2 & O2 & M2 & S2).
  exists df; split_and!; [eauto|done|congruence| |..].
  - intros Hok. apply O2; [|done]. apply O1; [done|]. by apply list_elem_of_fmap_2.
  - by rewrite Se2, Se1, length_app, Nat.add_1_r.
  - by rewrite M2, M1.
  - by rewrite S2, S1.
Qed.

(** The transaction returns early only with one of its two messages. *)
Lemma upload_results_tx_Return f file db msg :
  upload_results_tx f file db = Err (Return msg) →
  ∃ name content, file = Some (name, content) ∧
    ((endswith name ".xlsx" || endswith name ".csv" = false ∧ msg = "Invalid file format") ∨
     ∃ df col, content = Some df ∧ col ∈ required ∧ col ∉ columns df ∧
               msg = "Missing column: " +:+ col).
Proof.
  assert (∀ A (m : tx A) db, raises m → m db = Err (Return msg) → False) as Hr
    by (intros A m db0 Hm [e [=]]%Hm).
  unfold upload_results_tx, form_int.
  intros [H0|(cn & db0 & _ & H0)]%tx_bind_Err;
    [exfalso; eapply Hr; [|done]; auto with exam|].
  apply tx_bind_Err in H0 as [H0|(y & db1 & Hy & H0)].
  { exfalso; eapply Hr; [|done]. apply raises_bind; auto with exam. }
  apply tx_bind_Err in H0 as [H0|(s & db2 & Hs & H0)].
  { exfalso; eapply Hr; [|done]. apply raises_bind; auto with exam. }
  apply tx_bind_Err in H0 as [H0|([name content] & db3 & [-> _]%tx_some_Ok & H0)].
  { exfalso; eapply Hr; [|done]. auto with exam. }
  exists name, content; split; [done|]. unfold read_upload in H0; simpl in H0.
  destruct (_ || _); [right|left; split; [done|]]; cycle 1.
  { apply tx_bind_Err in H0 as [[= <-]|(? & ? & [=] & _)]. done. }
  apply tx_bind_Err in H0 as [H0|(df & db4 & [-> _]%tx_some_Ok & H0)].
  { exfalso; eapply Hr; [|done]. auto with exam. }
  apply tx_bind_Err in H0 as [H0|(? & db5 & Hreq & H0)].
  { unfold check_required in H0. destruct (filter _ required) as [|col ?] eqn:Hf; [done|].
    injection H0 as <-. exists df, col.
    assert (col ∈ filter (λ c, c ∉ columns df) required) as [? ?]%list_elem_of_filter
      by (rewrite Hf; by left). done. }
  exfalso; eapply Hr; [|done].
  repeat (apply raises_bind; [auto with exam|intros ?]).
  apply raises_for. intros row. apply raises_upload_row.
Qed.

(** *** What the overview shows of an upload *)

Section shown.
Context (cn : string) (y sm : Z) (se : semester_row) (c : course_row).
Context (Hc : c_id c = sem_course_id se).

Lemma upload_row_overview cols course_id row db u db' :
  db_ok db → se ∈ t_rows (semester db) → c ∈ t_rows (course db) →
  upload_row cols course_id (sem_id se) row db = Ok (u, db') →
  shown <$> overview_query cn y sm db' =
  (shown <$> overview_query cn y sm db) ++ (if decide (sql_trim (c_name c) = cn ∧ sem_year se = y ∧ sem_semester se = sm)
   then sheet_mark row else []).
Proof.
  intros Hok Hse Hco Hrow.
  destruct (upload_row_Ok _ _ _ _ _ _ _ Hrow) as (Hext & Hsem & Hcou & Hok' & _).
  specialize (Hok' Hok (list_elem_of_fmap_2 _ _ _ Hse)).
  unfold sheet_mark; destruct (decide (is_na (get row "TOTALMARKS"))) as [Hna|Hna].
  { apply upload_row_na in Hrow as ->; [|done]. case_decide; by rewrite app_nil_r. }
  apply upload_row_inv in Hrow
    as (mk & cr & gp & subject & ty & db1 & db2 & sid & subid & -> & -> & H1 & H2 & H3 & H4 & H5);
    [|done].
  apply select_student_id_row in H2 as (s & Hs & Rs & Is).
  apply select_subject_id_row in H4 as (sub & Hb & [Sb Nb] & Ib).
  apply insert_or_ignore_student_Ok in H1 as (_ & _ & M1 & _).
  apply insert_or_ignore_subject_Ok in H3 as (_ & _ & M3 & _ & St3 & _).
  apply insert_marks_Ok in H5 as (_ & M5 & S5 & _ & St5 & _).
  unfold overview_query at 1. rewrite M5, bind_app, bind_singleton, fmap_app, M3, M1.
  rewrite (overview_query_extends cn y sm db db') by (done || apply Hok').
  rewrite (overview_mark_rows cn y sm db' _ s sub se c); try done;
    [|apply Hok'|by rewrite St5, St3|by rewrite S5|by rewrite Hsem|by rewrite Hcou].
  f_equal. case_decide; [|done]. simpl. by rewrite Rs, Nb.
Qed.

Lemma upload_rows_overview cols course_id l db u db' :
  db_ok db → se ∈ t_rows (semester db) → c ∈ t_rows (course db) →
  tx_for l (upload_row cols course_id (sem_id se)) db = Ok (u, db') →
  shown <$> overview_query cn y sm db' =
  (shown <$> overview_query cn y sm db) ++ (if decide (sql_trim (c_name c) = cn ∧ sem_year se = y ∧ sem_semester se = sm)
   then l ≫= sheet_mark else []).
Proof.
  revert db; induction l as [|row l IH]; intros db Hok Hse Hco.
  { intros [_ ->]%tx_ret_Ok. case_decide; by rewrite app_nil_r. }
  destruct u. intros (db1 & Hrow & Hl)%tx_for_cons.
  destruct (upload_row_Ok _ _ _ _ _ _ _ Hrow) as (_ & Hsem & Hcou & Hok' & _).
  rewrite (IH db1), (upload_row_overview _ _ _ _ _ _ Hok Hse Hco Hrow), <- app_assoc;
    [|by apply Hok', list_elem_of_fmap_2|by rewrite Hsem|by rewrite Hcou|done].
  f_equal. case_decide; [by rewrite bind_cons|done].
Qed.

End shown.

Lemma upload_results_tx_overview cn y sm f file db u db' :
  db_ok db → upload_results_tx f file db = Ok (u, db') →
  ∃ cname year sem name df,
    f !! "course" = Some cname ∧ f !! "year" ≫= py_int = Some year ∧
    f !! "semester" ≫= py_int = Some sem ∧ file = Some (name, Some df) ∧
    shown <$> overview_query cn y sm db' =
    (shown <$> overview_query cn y sm db) ++
    (if decide (sql_trim cname = cn ∧ year = y ∧ sem = sm) then rows df ≫= sheet_mark else []).
Proof.
  intros Hok (cname & year & sem & name & df & c & sid & db1 & ? & ? & ? & ? & _ & Hc & <- &
              Hsem & Hrows)%upload_results_tx_inv.
  exists (c_name c), year, sem, name, df. split_and!; try done.
  apply insert_semester_Ok in Hsem as (E1 & _ & Se1 & M1 & _ & _ & C1 & O1).
  assert (db_ok db1) as Hok1 by by apply O1, list_elem_of_fmap_2.
  rewrite (upload_rows_overview cn y sm (mkSemester sid (c_id c) year sem) c eq_refl
             (columns df) (c_id c) (rows df) db1 u db'); try done.
  - f_equal. f_equal. unfold overview_query at 1. rewrite M1.
    apply overview_query_extends; [done|apply Hok1|done].
  - rewrite Se1. apply elem_of_app; right. by left.
  - by rewrite C1.
  - by destruct u.
Qed.

(** *** The routes *)

Lemma upload_results_db_ok post st :
  db_ok (pdb st) → db_ok (pdb (upload_results post st).1).
Proof.
  intros Hok; unfold upload_results; destruct post as [[f file]|]; [|done].
  destruct (upload_results_tx f file (pdb st)) as [[u db']|[e|msg]] eqn:Htx; [|done..].
  apply upload_results_tx_Ok in Htx as (df & _ & _ & _ & Hdb & _). by apply Hdb.
Qed.

Lemma upload_results_course post st :
  course (pdb (upload_results post st).1) = course (pdb st).
Proof.
  unfold upload_results; destruct post as [[f file]|]; [|done].
  destruct (upload_results_tx f file (pdb st)) as [[u db']|[e|msg]] eqn:Htx; [|done..].
  by apply upload_results_tx_Ok in Htx as (df & _ & _ & Hc & _).
Qed.

Lemma admin_login_pdb v post st : pdb (admin_login v post st).1 = pdb st.
Proof. unfold admin_login; by repeat case_match. Qed.

Lemma overview_state post st : (overview post st).1 = st.
Proof. unfold overview; by repeat case_match. Qed.

Lemma admin_dashboard_db_ok v post st :
  db_ok (pdb st) → db_ok (pdb (admin_dashboard v post st).1).
Proof.
  intros Hok; unfold admin_dashboard; repeat case_match; try done.
  by apply insert_or_ignore_course_ok.
Qed.

Lemma phandle_db_ok st req : db_ok (pdb st) → db_ok (pdb (phandle st req).1).
Proof.
  intros Hok; destruct req as [v post|v post|v|v post|v post]; simpl.
  - by rewrite admin_login_pdb.
  - by apply admin_dashboard_db_ok.
  - done.
  - by apply upload_results_db_ok.
  - by rewrite overview_state.
Qed.

Lemma prun_keeps_db_ok reqs st : db_ok (pdb st) → db_ok (pdb (prun reqs st)).
Proof.
  intros Hok. unfold prun. apply (foldl_invariant (λ st, db_ok (pdb st))); [|done].
  intros st' req _. apply phandle_db_ok.
Qed.

Lemma prun_snoc reqs req st : prun (reqs ++ [req]) st = (phandle (prun reqs st) req).1.
Proof. unfold prun. by rewrite foldl_app. Qed.

Lemma upload_results_admins post st : admins (upload_results post st).1 = admins st.
Proof. unfold upload_results; by repeat case_match. Qed.

Lemma admin_dashboard_admins v post st : admins (admin_dashboard v post st).1 = admins st.
Proof. unfold admin_dashboard; by repeat case_match. Qed.

Lemma admin_login_admins v post st w :
  w ∈ admins (admin_login v post st).1 →
  w ∈ admins st ∨
  w = v ∧ ∃ f, post = Some f ∧ f !! "username" = Some ADMIN_USER ∧
               f !! "password" = Some ADMIN_PASS.
Proof.
  unfold admin_login; repeat case_match; subst; simpl; try tauto.
  intros [->%elem_of_singleton| ]%elem_of_union; [right|tauto]. eauto.
Qed.

Lemma phandle_admins st req w :
  w ∈ admins (phandle st req).1 →
  w ∈ admins st ∨
  ∃ f, req = AdminLogin w (Some f) ∧ f !! "username" = Some ADMIN_USER ∧
       f !! "password" = Some ADMIN_PASS.
Proof.
  destruct req as [v post|v post|v|v post|v post]; simpl.
  - intros [?|[-> (f & -> & ? & ?)]]%admin_login_admins; eauto.
  - rewrite admin_dashboard_admins; tauto.
  - intros [? _]%elem_of_difference; tauto.
  - rewrite upload_results_admins; tauto.
  - rewrite overview_state; tauto.
Qed.

(** *** The statistics *)

Lemma passed_students_le (data : list overview_row) :
  (length (remove_dups (o_roll_no <$> filter (λ r, (40 ≤ o_marks r)%Z) data))
   ≤ length (remove_dups (o_roll_no <$> data)))%nat.
Proof.
  apply submseteq_length, NoDup_submseteq; [apply NoDup_remove_dups|].
  intros x (r & -> & [_ Hr]%list_elem_of_filter)%elem_of_remove_dups%list_elem_of_fmap.
  by apply elem_of_remove_dups, list_elem_of_fmap_2.
Qed.

End portal.

(** ** Theorems *)

Section portal_theorems.
Context `{!Pandas}.

(** C13: An upload is one transaction.  Either the database and the sessions
    are exactly as before, or the request carried a readable sheet with
    the required columns, the answer is the success message, and the
    database has one more semester, one more [marks] row and one more
    [subject] row for each row of the sheet that has a total, and the same
    courses. *)
Theorem upload_results_commit (post : option (form * option FileStorage)) (st : PState) :
  (upload_results post st).1 = st ∨
  ∃ f name df, post = Some (f, Some (name, Some df)) ∧
    (upload_results post st).2 = Message "Results uploaded successfully" ∧
    required ⊆ columns df ∧
    let n := count (λ row, ¬ is_na (get row "TOTALMARKS")) (rows df) in
    let db' := pdb (upload_results post st).1 in
    admins (upload_results post st).1 = admins st ∧
    course db' = course (pdb st) ∧
    length (t_rows (semester db')) = S (length (t_rows (semester (pdb st)))) ∧
    length (t_rows (marks db')) = (length (t_rows (marks (pdb st))) + n)%nat ∧
    length (t_rows (subject db')) = (length (t_rows (subject (pdb st))) + n)%nat.
Proof.
  unfold upload_results; destruct post as [[f file]|]; [|by left].
  destruct (upload_results_tx f file (pdb st)) as [[u db']|[e|msg]] eqn:Htx;
    [|by left..].
  apply upload_results_tx_Ok in Htx as (df & [name ->] & Hreq & Hc & _ & Hse & Hm & Hs).
  right; exists f, name, df. by split_and!.
Qed.

(** C15: What the overview shows after an upload that was committed is what
    it showed before, followed by the roll number, the subject and the
    whole marks of each row of the sheet that has a total, in the order
    of the sheet: for the course, the year and the semester of the
    upload. *)
Theorem overview_after_upload (st : PState) (f : form) (name : string) (df : RawFrame)
    (c : string) (y sm : Z) :
  db_ok (pdb st) →
  f !! "course" = Some c → f !! "year" ≫= py_int = Some y →
  f !! "semester" ≫= py_int = Some sm →
  (upload_results (upload_request f name df) st).2 = Message "Results uploaded successfully" →
  shown <$> overview_query (sql_trim c) y sm (pdb (upload_results (upload_request f name df) st).1) =
  (shown <$> overview_query (sql_trim c) y sm (pdb st)) ++ (rows df ≫= sheet_mark).
Proof.
  intros Hok Hc Hy Hs. unfold upload_results, upload_request.
  destruct (upload_results_tx _ _ _) as [[u db']|[e|msg]] eqn:Htx; [intros _|done|].
  - apply (upload_results_tx_overview (sql_trim c) y sm) in Htx
      as (c' & y' & s' & ? & ? & ? & ? & ? & [= _ <-] & Heq); [|done].
    cbn [fst pdb]. rewrite Heq. by rewrite decide_True by (split_and!; congruence).
  - apply upload_results_tx_Return in Htx as (? & ? & _ & [[_ ->]|(? & ? & _ & _ & _ & ->)]);
      intros [= Hm]; by vm_compute in Hm.
Qed.

(** C16: An upload that is answered by another message than the success
    message changes nothing, and the message tells why: the file name has
    neither of the two extensions, or the sheet lacks the required column
    that the message names. *)
Theorem upload_results_refused (post : option (form * option FileStorage)) (st : PState)
    (msg : string) :
  (upload_results post st).2 = Message msg → msg ≠ "Results uploaded successfully" →
  (upload_results post st).1 = st ∧
  ∃ f name content, post = Some (f, Some (name, content)) ∧
    ((endswith name ".xlsx" || endswith name ".csv" = false ∧ msg = "Invalid file format") ∨
     ∃ df col, content = Some df ∧ col ∈ required ∧ col ∉ columns df ∧
               msg = "Missing column: " +:+ col).
Proof.
  unfold upload_results; destruct post as [[f file]|]; [|done].
  destruct (upload_results_tx f file (pdb st)) as [[u db']|[e|m]] eqn:Htx; simpl.
  - by intros [= <-].
  - done.
  - intros [= ->] _. split; [done|].
    apply upload_results_tx_Return in Htx as (name & content & -> & ?). eauto.
Qed.

(** C14: The database of every state that the routes reach from the initial
    one satisfies the schema of [init_db.py] (the keys of a table are
    distinct and below its counter, the names of the courses and the roll
    numbers of the students are unique) and has no dangling reference: a
    semester names a course, a subject a semester, a mark a student and a
    subject. *)
Theorem prun_db_ok (reqs : list PRequest) : db_ok (pdb (prun reqs initial_pstate)).
Proof. apply prun_keeps_db_ok, init_db_ok. Qed.

(** C38: The courses change only by a post of a visitor who is logged in as
    admin to the dashboard. *)
Theorem course_changes_by_admin (st : PState) (req : PRequest) :
  course (pdb (phandle st req).1) ≠ course (pdb st) →
  ∃ v f, req = AdminDashboard v (Some f) ∧ v ∈ admins st.
Proof.
  destruct req as [v post|v post|v|v post|v post]; simpl.
  - by rewrite admin_login_pdb.
  - unfold admin_dashboard; case_decide; [|done]. destruct post as [f|]; [eauto|done].
  - done.
  - by rewrite upload_results_course.
  - by rewrite overview_state.
Qed.

(** C37: A visitor holds the admin flag only after a login of that visitor
    with the user name and the password of the administrator. *)
Theorem prun_admin_password (reqs : list PRequest) (v : visitor) :
  v ∈ admins (prun reqs initial_pstate) →
  ∃ f, AdminLogin v (Some f) ∈ reqs ∧ f !! "username" = Some ADMIN_USER ∧
       f !! "password" = Some ADMIN_PASS.
Proof.
  induction reqs as [|req reqs IH] using rev_ind; [by intros ?%elem_of_empty|].
  rewrite prun_snoc. intros [Hv|(f & -> & ? & ?)]%phandle_admins.
  - destruct (IH Hv) as (f & ? & ?). exists f. split; [|done]. apply elem_of_app; tauto.
  - exists f. split; [|done]. apply elem_of_app; right. apply list_elem_of_singleton; done.
Qed.

(** After a logout the dashboard redirects the visitor to the login page
    and leaves the courses as they are. *)
Theorem logout_dashboard (st : PState) (v : visitor) (post : option form) :
  phandle (phandle st (Logout v)).1 (AdminDashboard v post) =
  ((phandle st (Logout v)).1, Redirect "/admin").
Proof.
  simpl. unfold admin_dashboard. rewrite decide_False; [done|].
  simpl. intros [_ Hv]%elem_of_difference. by apply Hv, elem_of_singleton.
Qed.

End portal_theorems.

(** C36: The statistics of the overview are consistent: the passed and the
    failed students are the students, and the percentage lies between 0 and
    100. *)
Theorem overview_stats_wf (data : list overview_row) :
  let s := overview_stats data in
  (s_passed s + s_failed s = s_total s)%nat ∧ 0 <= s_pass_percent s <= 100.
Proof.
  pose proof (passed_students_le data) as Hle. cbv zeta. unfold overview_stats.
  cbn [s_passed s_failed s_total s_pass_percent]. split; [lia|].
  case_decide as Hne; [|lra].
  assert (0 < length (remove_dups (o_roll_no <$> data)))%nat as Ht
    by (revert Hne; destruct (remove_dups (o_roll_no <$> data)); [done|simpl; lia]).
  destruct (percent_within _ _ Hle Ht). by apply (round2_within 0 100).
Qed.

(** C39: A student is counted as passed as soon as one of the marks of the
    selection is 40 or more, whatever the other marks are. *)
Theorem overview_passed_any_mark (data : list overview_row) :
  s_passed (overview_stats data) =
  length (filter (λ s, Exists (λ r, o_roll_no r = s ∧ (40 ≤ o_marks r)%Z) data)
            (remove_dups (o_roll_no <$> data))).
Proof.
  simpl. apply Permutation_length, NoDup_Permutation.
  - apply NoDup_remove_dups.
  - apply NoDup_filter, NoDup_remove_dups.
  - intros x. rewrite list_elem_of_filter, !elem_of_remove_dups, !list_elem_of_fmap, Exists_exists.
    split.
    + intros (r & -> & [Hm Hr]%list_elem_of_filter). split; exists r; by repeat split.
    + intros [(r & Hr & <- & Hm) _]. exists r. split; [done|]. by apply list_elem_of_filter.
Qed.

(** ** Examples *)


(** The visitor who uploaded the sheet never logged in. *)
Theorem upload_without_login :
  (2%nat ∉ admins sample_pstate) ∧ length (t_rows (marks (pdb sample_pstate))) = 3%nat.
Proof. split; [compute_done|by vm_compute]. Qed.

(** The total 39.9 of the sheet is stored as 39.  The overview of the
    uploaded semester lists the three marks in the order of the sheet and
    counts the student with 70 in one subject and 30 in the other as
    passed. *)
Theorem overview_sample :
  (overview (Some upload_form) sample_pstate).2 =
  OverviewPage ["CSE"%string]
    [ mkOverviewRow "S1" "MATHS" 70 (Some 4) (Some 9);
      mkOverviewRow "S2" "MATHS" 39 (Some 4) (Some 0);
      mkOverviewRow "S1" "Physics Lab" 30 (Some 2) (Some 0) ]
    (Some (mkStats 2 1 1 50)).
Proof. by vm_compute. Qed.

(** The first row of [bad_sheet] alone is accepted, the sheet is not: the
    second row raises after the first has been inserted, and nothing of
    the upload is kept.  The other refusals leave the state as it is,
    too. *)
Theorem upload_refused_sample :
  (upload_results (upload_request upload_form "m.csv"
     {| columns := columns bad_sheet; rows := take 1 (rows bad_sheet) |}) sample_pstate).2 =
    Message "Results uploaded successfully" ∧
  upload_results (upload_request upload_form "m.csv" bad_sheet) sample_pstate =
    (sample_pstate, ErrorMessage ValueError) ∧
  upload_results (upload_request (<["course" := "ECE"%string]> upload_form) "m.csv" bad_sheet)
      sample_pstate =
    (sample_pstate, ErrorMessage TypeError) ∧
  upload_results (upload_request upload_form "m.csv"
     {| columns := ["HTNO"; "TOTALMARKS"]%string; rows := [] |}) sample_pstate =
    (sample_pstate, Message "Missing column: SUBJECT_NAME") ∧
  upload_results (upload_request upload_form "m.txt" bad_sheet) sample_pstate =
    (sample_pstate, Message "Invalid file format").
Proof. by vm_compute. Qed.

(** ** Witnesses *)

Lemma course_changes_by_admin_witness :
  ∃ v f, AdminDashboard 1%nat (Some {[ "course" := "CSE"%string ]}) = AdminDashboard v (Some f) ∧
         v ∈ admins (prun (take 1 sample_prequests) initial_pstate).
Proof.
  apply (course_changes_by_admin (prun (take 1 sample_prequests) initial_pstate)).
  by vm_compute.
Defined.

Lemma overview_after_upload_witness :
  shown <$> overview_query (sql_trim "CSE") 2024 1 (pdb sample_pstate) =
  (shown <$> overview_query (sql_trim "CSE") 2024 1
               (pdb (prun (take 2 sample_prequests) initial_pstate))) ++
  (rows marks_sheet ≫= sheet_mark).
Proof.
  apply (overview_after_upload (prun (take 2 sample_prequests) initial_pstate)
           upload_form "marks.xlsx" marks_sheet "CSE" 2024 1);
    [apply prun_keeps_db_ok, init_db_ok|by vm_compute..].
Defined.

Lemma upload_results_refused_witness :
  (upload_results (upload_request upload_form "m.txt" bad_sheet) sample_pstate).1 = sample_pstate ∧
  ∃ f name content,
    upload_request upload_form "m.txt" bad_sheet = Some (f, Some (name, content)) ∧
    ((endswith name ".xlsx" || endswith name ".csv" = false ∧
      "Invalid file format"%string = "Invalid file format"%string) ∨
     ∃ df col, content = Some df ∧ col ∈ required ∧ col ∉ columns df ∧
               "Invalid file format"%string = ("Missing column: " +:+ col)%string).
Proof.
  apply (upload_results_refused (upload_request upload_form "m.txt" bad_sheet) sample_pstate);
    by vm_compute.
Defined.

Lemma prun_admin_password_witness :
  ∃ f, AdminLogin 1%nat (Some f) ∈ sample_prequests ∧ f !! "username" = Some ADMIN_USER ∧
       f !! "password" = Some ADMIN_PASS.
Proof. apply prun_admin_password. compute_done. Defined.
